(** * ARMv7 virtual machine monitor (repos/os/src/server/vmm/main.cc)

    A shallow embedding of the trap-and-emulate core of the VMM: the guest
    CPU state with its banked-register accessor, the CP15 register file,
    the MMIO device base, the virtual GIC with its list registers, the
    generic timer, the system registers and the PL011 UART, followed by
    the properties of the specification that concern them. *)

From Stdlib Require Import ZArith Lia Bool.
From stdpp Require Import base list strings.

Local Open Scope Z_scope.

(** ** Machine integers *)

(** [Genode::uint32_t], [Genode::addr_t] and [unsigned] are 32 bits wide on
    ARMv7; [Genode::uint64_t] is 64 bits wide.  A conversion to one of them
    wraps around. *)
Definition u32 (z : Z) : Z := z mod 2 ^ 32.
Definition u64 (z : Z) : Z := z mod 2 ^ 64.
Definition u16 (z : Z) : Z := z mod 2 ^ 16.
Definition u8 (z : Z) : Z := z mod 2 ^ 8.

(** ** Register bit fields *)

(** Modelled from the spec: [Genode::Register<32>::Bitfield<SHIFT, WIDTH>]
    of util/register.h, which is not among the sources.  The spec speaks of
    sub-fields "placed at their architectural bit positions, zero
    elsewhere": a field occupies [WIDTH] bits from bit [SHIFT] on; [get]
    extracts it, [masked] keeps it in place, [set] clears it and writes the
    truncated value. *)
Module Bitfield.

Record t := Bitfield { shift : Z; width : Z }.

Definition mask (f : t) : Z := Z.ones (width f).
Definition reg_mask (f : t) : Z := Z.shiftl (mask f) (shift f).
Definition bits (f : t) (v : Z) : Z := Z.shiftl (Z.land v (mask f)) (shift f).
Definition masked (f : t) (reg : Z) : Z := Z.land reg (reg_mask f).
Definition get (f : t) (reg : Z) : Z := Z.land (Z.shiftr reg (shift f)) (mask f).
Definition clear (f : t) (reg : Z) : Z := Z.ldiff reg (reg_mask f).
Definition set (f : t) (reg value : Z) : Z := Z.lor (clear f reg) (bits f value).

End Bitfield.

Import Bitfield (Bitfield).

(** ** System registers

    [class System_register], the motherboard's configuration block: its
    members and what its access functions do with them, an access function
    taking the word behind [reg] for a store and giving the word to put
    there for a load.  Its exceptions carry messages of their own, which
    the failures below take up. *)
Module System_register.

Definition SYS_LED : Z := 0x8.
Definition SYS_FLASH : Z := 0x4c.
Definition SYS_24MHZ : Z := 0x5c.
Definition SYS_MCI : Z := 0x48.
Definition SYS_MISC : Z := 0x60.
Definition SYS_PROCID0 : Z := 0x84.
Definition SYS_CFGDATA : Z := 0xa0.
Definition SYS_CFGCTRL : Z := 0xa4.
Definition SYS_CFGSTAT : Z := 0xa8.

Module Sys_cfgctrl.

Definition Device := Bitfield 0 12.
Definition Position := Bitfield 12 4.
Definition Site := Bitfield 16 2.
Definition Function := Bitfield 20 6.
Definition Write := Bitfield 30 1.
Definition Start := Bitfield 31 1.

End Sys_cfgctrl.

(** The data members, and what [_timer.elapsed_ms()] answers. *)
Record t := Build {
  _spi_data  : Z;
  _spi_stat  : Z;
  elapsed_ms : Z
}.

(** The default member initialisers, for a timer that has run [ms]
    milliseconds. *)
Definition new (ms : Z) : t := Build 0 1 ms.

Definition set_spi_data (v : Z) (r : t) : t :=
  Build v (_spi_stat r) (elapsed_ms r).
Definition set_spi_stat (v : Z) (r : t) : t :=
  Build (_spi_data r) v (elapsed_ms r).

(** The exceptions of the class, by message. *)
Inductive Failure :=
  | UnsupportedMccDevice   (* "Sys regs: unsupported MCC device" *)
  | UnknownMcc (device func : Z) (write : bool)
                           (* "Unknown device %u func=%u write=%d" *)
  | ReadForbidden (off : Z)  (* "Sys regs: read of offset %llx forbidden" *)
  | WriteForbidden (off : Z) (* "Sys regs: write of offset %llx forbidden" *).

Inductive answer (A : Type) :=
  | Done (a : A)
  | Failed (f : Failure).
Arguments Done {A} a.
Arguments Failed {A} f.

(** [System_register::_mcc_control]. *)
Definition _mcc_control (device func : Z) (write : bool) (r : t)
    : t * answer unit :=
  if (func =? 1) && negb write then
    if device =? 0 then (set_spi_data 60000000 r, Done tt)
    else if device =? 2 then (set_spi_data 24000000 r, Done tt)
    else if device =? 4 then (set_spi_data 40000000 r, Done tt)
    else if device =? 5 then (set_spi_data 23750000 r, Done tt)
    else if device =? 6 then (set_spi_data 50000000 r, Done tt)
    else if device =? 7 then (set_spi_data 60000000 r, Done tt)
    else if device =? 8 then (set_spi_data 40000000 r, Done tt)
    else (r, Failed UnsupportedMccDevice)
  else if (func =? 2) && negb write && (device =? 0) then
    (set_spi_data 900000 r, Done tt)
  else (r, Failed (UnknownMcc device func write)).

(** [System_register::read]: the word it assigns to [*reg]. *)
Definition read (off : Z) (r : t) : t * answer Z :=
  if off =? SYS_LED then (r, Done 0xff)
  else if off =? SYS_FLASH then (r, Done 0)
  else if off =? SYS_24MHZ then (r, Done (u32 (u32 (elapsed_ms r) * 24000)))
  else if off =? SYS_MISC then (r, Done (Z.shiftl 1 12))
  else if off =? SYS_PROCID0 then (r, Done 0x14000237)
  else if off =? SYS_MCI then (r, Done 0)
  else if off =? SYS_CFGSTAT then (r, Done (_spi_stat r))
  else if off =? SYS_CFGCTRL then (r, Done 0)
  else if off =? SYS_CFGDATA then (r, Done (_spi_data r))
  else (r, Failed (ReadForbidden off)).

(** [System_register::write], [v] being the word [*reg].  The case of
    SYS_CFGCTRL falls through to the [throw] when the start bit is
    clear. *)
Definition write (v : Z) (off : Z) (r : t) : t * answer unit :=
  if off =? SYS_CFGDATA then (set_spi_data v r, Done tt)
  else if off =? SYS_CFGSTAT then (set_spi_stat v r, Done tt)
  else if (off =? SYS_CFGCTRL)
          && negb (Bitfield.get Sys_cfgctrl.Start v =? 0) then
    _mcc_control (Bitfield.get Sys_cfgctrl.Device v)
      (Bitfield.get Sys_cfgctrl.Function v)
      (negb (Bitfield.get Sys_cfgctrl.Write v =? 0))
      (set_spi_stat 1 r)
  else (r, Failed (WriteForbidden off)).

(** The oscillators the motherboard configuration controller answers for,
    by device number, with their frequencies in Hz. *)
Definition oscillators : list (Z * Z) :=
  [(0, 60000000); (2, 24000000); (4, 40000000); (5, 23750000);
   (6, 50000000); (7, 60000000); (8, 40000000)].

End System_register.

(** ** Failures *)

(** Every [throw] of the monitor, by the place that raises it; the
    argument of a message is kept where a property below concerns it.
    [Undefined] marks an access outside an array of the source, whose
    behaviour C++ leaves undefined; the model stops there. *)
Inductive Error :=
  | UnknownHyperCall        (* "Unknown hyper call!" *)
  | UnknownTrap             (* "Unknown trap: %x" *)
  | UnexpectedException     (* "Curious exception occured" *)
  | NoDeviceAtIPA (ipa : Z) (* "No device at IPA=%llx" *)
  | MalformedHSR            (* "Device %s: unknown HSR=%lx" *)
  | UnsupportedAccessWidth  (* "Device %s: ... of %llx not allowed" *)
  | UnalignedAccess         (* "Device %s: invalid alignment" *)
  | UnsupportedGicOffset    (* "GIC: unsupported read/write offset %llx" *)
  | UnknownInjection        (* "No device registered for IRQ %u" *)
  | DoubleInject            (* "Pending IRQ should not trigger again" *)
  | ListRegistersFull       (* "IRQ queue full, can't inject irq %u" *)
  | IRQOutOfBounds          (* "IRQ out of bounds" *)
  | UnknownIrq              (* "Unknown IRQ %u occured" *)
  | CantEnableIrq           (* "GIC: can't enable unknown IRQ %d" *)
  | WfeNotImplemented       (* "WFE not implemented yet" *)
  | UartWrongOffset         (* "UART: ... offset %llx" *)
  | RingBufferOverflow      (* Ring_buffer::Overflow *)
  | SysRegs (f : System_register.Failure) (* "Sys regs: ..." *)
  | Undefined.

(** ** State with exceptions

    A member function that mutates the object and may throw becomes a
    function from the state to the state it leaves behind and either a
    value or the exception: what was written before a [throw] stays
    written. *)
Inductive result (A : Type) :=
  | Ok (a : A)
  | Throw (e : Error).
Arguments Ok {A} a.
Arguments Throw {A} e.

Definition M (S A : Type) : Type := S -> S * result A.

Definition ret {S A} (a : A) : M S A := fun s => (s, Ok a).
Definition throw {S A} (e : Error) : M S A := fun s => (s, Throw e).
Definition bind {S A B} (m : M S A) (k : A -> M S B) : M S B :=
  fun s => match m s with
           | (s', Ok a) => k a s'
           | (s', Throw e) => (s', Throw e)
           end.
Definition gets {S A} (f : S -> A) : M S A := fun s => (s, Ok (f s)).
Definition modify {S} (f : S -> S) : M S unit := fun s => (f s, Ok tt).

Declare Scope vmm_scope.
Delimit Scope vmm_scope with vmm.
Notation "'let*' x := m 'in' k" := (bind m (fun x => k))
  (at level 10, x name, m at level 100, k at level 200) : vmm_scope.
Notation "m ;; k" := (bind m (fun _ => k))
  (at level 100, k at level 200, right associativity) : vmm_scope.
Local Open Scope vmm_scope.

(** The state a call leaves behind, and what it returned. *)
Definition state_after {S A} (m : M S A) (s : S) : S := fst (m s).
Definition outcome {S A} (m : M S A) (s : S) : result A := snd (m s).

(** ** Guest CPU state *)

(** One banked register set, [Cpu_state_modes::Mode_state]. *)
Module Mode_state.

Record t := Build { spsr : Z; sp : Z; lr : Z }.

(** The enumerators of [Mode_state::Mode] come from cpu/cpu_state.h, which
    is not among the sources: the index of each banked set in [mode[]].
    They are a parameter of the model. *)
Class Mode := {
  FIQ : Z;
  IRQ : Z;
  SVC : Z;
  ABORT : Z;
  UND : Z
}.

End Mode_state.

(** The 27 [uint32_t] members of the state that back a CP15 register; a
    pointer to member [uint32_t State::*] is one of these names. *)
Inductive Cp15_field :=
  | midr | mpidr | ctr | ccsidr | clidr | pfr0 | mmfr0 | isar0 | isar3
  | isar4 | csselr | sctrl | actrl | cpacr | ttbr0 | ttbr1 | ttbcr | dacr
  | dfsr | ifsr | adfsr | aifsr | dfar | ifar | prrr | nmrr | cidr.

Global Instance Cp15_field_eq_dec : EqDecision Cp15_field.
Proof. solve_decision. Defined.

(** [struct State : Genode::Vm_state].  [regs] is what
    [reinterpret_cast<Gp_register*>(this)->r] overlays: r0..r12, sp, lr and
    ip, in this order; [mode] is the array of banked sets; [gic_lr] the
    array of [NR_IRQ] list registers. *)
Record State := Build_State {
  regs          : list Z;
  cpsr          : Z;
  cpu_exception : Z;
  mode          : list Mode_state.t;
  hsr           : Z;
  hpfar         : Z;
  hdfar         : Z;
  gic_hcr       : Z;
  gic_vmcr      : Z;
  gic_apr       : Z;
  gic_misr      : Z;
  gic_eisr      : Z;
  gic_elrsr0    : Z;
  gic_lr        : list Z;
  gic_irq       : Z;
  timer_ctrl    : Z;
  timer_val     : Z;
  timer_irq     : bool;
  cp15          : Cp15_field -> Z
}.

Definition set_regs (v : list Z) (s : State) : State :=
  Build_State v (cpsr s) (cpu_exception s) (mode s) (hsr s) (hpfar s)
    (hdfar s) (gic_hcr s) (gic_vmcr s) (gic_apr s) (gic_misr s) (gic_eisr s)
    (gic_elrsr0 s) (gic_lr s) (gic_irq s) (timer_ctrl s) (timer_val s)
    (timer_irq s) (cp15 s).
Definition set_cpsr (v : Z) (s : State) : State :=
  Build_State (regs s) v (cpu_exception s) (mode s) (hsr s) (hpfar s)
    (hdfar s) (gic_hcr s) (gic_vmcr s) (gic_apr s) (gic_misr s) (gic_eisr s)
    (gic_elrsr0 s) (gic_lr s) (gic_irq s) (timer_ctrl s) (timer_val s)
    (timer_irq s) (cp15 s).
Definition set_mode (v : list Mode_state.t) (s : State) : State :=
  Build_State (regs s) (cpsr s) (cpu_exception s) v (hsr s) (hpfar s)
    (hdfar s) (gic_hcr s) (gic_vmcr s) (gic_apr s) (gic_misr s) (gic_eisr s)
    (gic_elrsr0 s) (gic_lr s) (gic_irq s) (timer_ctrl s) (timer_val s)
    (timer_irq s) (cp15 s).
Definition set_hsr (v : Z) (s : State) : State :=
  Build_State (regs s) (cpsr s) (cpu_exception s) (mode s) v (hpfar s)
    (hdfar s) (gic_hcr s) (gic_vmcr s) (gic_apr s) (gic_misr s) (gic_eisr s)
    (gic_elrsr0 s) (gic_lr s) (gic_irq s) (timer_ctrl s) (timer_val s)
    (timer_irq s) (cp15 s).
Definition set_gic_misr (v : Z) (s : State) : State :=
  Build_State (regs s) (cpsr s) (cpu_exception s) (mode s) (hsr s) (hpfar s)
    (hdfar s) (gic_hcr s) (gic_vmcr s) (gic_apr s) v (gic_eisr s)
    (gic_elrsr0 s) (gic_lr s) (gic_irq s) (timer_ctrl s) (timer_val s)
    (timer_irq s) (cp15 s).
Definition set_gic_eisr (v : Z) (s : State) : State :=
  Build_State (regs s) (cpsr s) (cpu_exception s) (mode s) (hsr s) (hpfar s)
    (hdfar s) (gic_hcr s) (gic_vmcr s) (gic_apr s) (gic_misr s) v
    (gic_elrsr0 s) (gic_lr s) (gic_irq s) (timer_ctrl s) (timer_val s)
    (timer_irq s) (cp15 s).
Definition set_gic_elrsr0 (v : Z) (s : State) : State :=
  Build_State (regs s) (cpsr s) (cpu_exception s) (mode s) (hsr s) (hpfar s)
    (hdfar s) (gic_hcr s) (gic_vmcr s) (gic_apr s) (gic_misr s) (gic_eisr s)
    v (gic_lr s) (gic_irq s) (timer_ctrl s) (timer_val s)
    (timer_irq s) (cp15 s).
Definition set_gic_lr (v : list Z) (s : State) : State :=
  Build_State (regs s) (cpsr s) (cpu_exception s) (mode s) (hsr s) (hpfar s)
    (hdfar s) (gic_hcr s) (gic_vmcr s) (gic_apr s) (gic_misr s) (gic_eisr s)
    (gic_elrsr0 s) v (gic_irq s) (timer_ctrl s) (timer_val s)
    (timer_irq s) (cp15 s).
Definition set_gic_irq (v : Z) (s : State) : State :=
  Build_State (regs s) (cpsr s) (cpu_exception s) (mode s) (hsr s) (hpfar s)
    (hdfar s) (gic_hcr s) (gic_vmcr s) (gic_apr s) (gic_misr s) (gic_eisr s)
    (gic_elrsr0 s) (gic_lr s) v (timer_ctrl s) (timer_val s)
    (timer_irq s) (cp15 s).
Definition set_timer_ctrl (v : Z) (s : State) : State :=
  Build_State (regs s) (cpsr s) (cpu_exception s) (mode s) (hsr s) (hpfar s)
    (hdfar s) (gic_hcr s) (gic_vmcr s) (gic_apr s) (gic_misr s) (gic_eisr s)
    (gic_elrsr0 s) (gic_lr s) (gic_irq s) v (timer_val s)
    (timer_irq s) (cp15 s).
Definition set_timer_val (v : Z) (s : State) : State :=
  Build_State (regs s) (cpsr s) (cpu_exception s) (mode s) (hsr s) (hpfar s)
    (hdfar s) (gic_hcr s) (gic_vmcr s) (gic_apr s) (gic_misr s) (gic_eisr s)
    (gic_elrsr0 s) (gic_lr s) (gic_irq s) (timer_ctrl s) v
    (timer_irq s) (cp15 s).
Definition set_timer_irq (v : bool) (s : State) : State :=
  Build_State (regs s) (cpsr s) (cpu_exception s) (mode s) (hsr s) (hpfar s)
    (hdfar s) (gic_hcr s) (gic_vmcr s) (gic_apr s) (gic_misr s) (gic_eisr s)
    (gic_elrsr0 s) (gic_lr s) (gic_irq s) (timer_ctrl s) (timer_val s)
    v (cp15 s).
Definition set_cp15 (v : Cp15_field -> Z) (s : State) : State :=
  Build_State (regs s) (cpsr s) (cpu_exception s) (mode s) (hsr s) (hpfar s)
    (hdfar s) (gic_hcr s) (gic_vmcr s) (gic_apr s) (gic_misr s) (gic_eisr s)
    (gic_elrsr0 s) (gic_lr s) (gic_irq s) (timer_ctrl s) (timer_val s)
    (timer_irq s) v.

(** [state.*_r = v] for a pointer to member [_r]. *)
Definition write_field (f : Cp15_field) (v : Z) (s : State) : State :=
  set_cp15 (fun g => if decide (g = f) then v else cp15 s g) s.

(** Index of [ip] in the overlay, and [_state.ip += sizeof(addr_t)]. *)
Definition IP : nat := 15%nat.
Definition ip (s : State) : Z := default 0 (regs s !! IP).
Definition advance_ip (s : State) : State :=
  set_regs (<[IP := u32 (ip s + 4)]> (regs s)) s.

(** [State::Psr]: the program status register and its mode field. *)
Module Psr.

Definition Mode := Bitfield 0 5.

Definition USR : Z := 16.
Definition FIQ : Z := 17.
Definition IRQ : Z := 18.
Definition SVC : Z := 19.
Definition ABORT : Z := 23.
Definition UND : Z := 27.

End Psr.

(** What [State::r] returns: the address of a register inside the state.
    [Gp i] is [&r[i]] of the overlay, so [&sp] is [Gp 13] and [&lr] is
    [Gp 14]; [Mode_sp mo] and [Mode_lr mo] are [&mode[mo].sp] and
    [&mode[mo].lr]. *)
Inductive Reg_loc :=
  | Gp (i : Z)
  | Mode_sp (mo : Z)
  | Mode_lr (mo : Z).

Definition top_sp : Reg_loc := Gp 13.
Definition top_lr : Reg_loc := Gp 14.

Section Guest_registers.

Context {modes : Mode_state.Mode}.

(** [State::Psr::mode_offset], an [int]. *)
Definition mode_offset (v : Z) : Z :=
  let m := Bitfield.get Psr.Mode v in
  if m =? Psr.FIQ then Mode_state.FIQ
  else if m =? Psr.IRQ then Mode_state.IRQ
  else if m =? Psr.SVC then Mode_state.SVC
  else if m =? Psr.ABORT then Mode_state.ABORT
  else if m =? Psr.UND then Mode_state.UND
  else -1.

(** [State::r].  The source keeps the offset in an [unsigned mo], so the
    [int] that [mode_offset] returns is converted before [mo < 0] is
    tested. *)
Definition r (s : State) (i : Z) : Reg_loc :=
  let mo := u32 (mode_offset (cpsr s)) in
  if i =? 13 then (if mo <? 0 then top_sp else Mode_sp mo)
  else if i =? 14 then (if mo <? 0 then top_lr else Mode_lr mo)
  else Gp i.

End Guest_registers.

(** [a[i]] for an array of the source held as a list: nothing outside. *)
Definition at_index {A} (l : list A) (i : Z) : option A :=
  if (0 <=? i) && (i <? Z.of_nat (length l)) then l !! Z.to_nat i else None.

(** Dereferencing such an address.  An index outside [r[16]] or outside
    [mode[]] is outside the object. *)
Definition load (l : Reg_loc) : M State Z := fun s =>
  match l with
  | Gp i =>
      match at_index (regs s) i with
      | Some v => (s, Ok v)
      | None => (s, Throw Undefined)
      end
  | Mode_sp mo =>
      match at_index (mode s) mo with
      | Some b => (s, Ok (Mode_state.sp b))
      | None => (s, Throw Undefined)
      end
  | Mode_lr mo =>
      match at_index (mode s) mo with
      | Some b => (s, Ok (Mode_state.lr b))
      | None => (s, Throw Undefined)
      end
  end.

Definition store (l : Reg_loc) (v : Z) : M State unit := fun s =>
  match l with
  | Gp i =>
      match at_index (regs s) i with
      | Some _ => (set_regs (<[Z.to_nat i := v]> (regs s)) s, Ok tt)
      | None => (s, Throw Undefined)
      end
  | Mode_sp mo =>
      match at_index (mode s) mo with
      | Some b =>
          (set_mode (<[Z.to_nat mo :=
                       Mode_state.Build (Mode_state.spsr b) v (Mode_state.lr b)]>
                       (mode s)) s, Ok tt)
      | None => (s, Throw Undefined)
      end
  | Mode_lr mo =>
      match at_index (mode s) mo with
      | Some b =>
          (set_mode (<[Z.to_nat mo :=
                       Mode_state.Build (Mode_state.spsr b) (Mode_state.sp b) v]>
                       (mode s)) s, Ok tt)
      | None => (s, Throw Undefined)
      end
  end.

(** ** Trap syndrome *)

Module Hsr.

Definition Ec := Bitfield 26 6.

Definition WFI : Z := 0x1.
Definition CP15 : Z := 0x3.
Definition HVC : Z := 0x12.
Definition DA : Z := 0x24.

End Hsr.

(** ** Search trees

    [Genode::Avl_tree] and [Genode::Avl_node] come from util/avl_tree.h,
    which is not among the sources.  The code under study only reads such a
    tree: [first()] is the root and [child(side)] descends, [child(true)]
    on the side of the nodes for which [higher] held at insertion. *)
Inductive Avl (A : Type) :=
  | Leaf
  | Node (lower : Avl A) (x : A) (higher : Avl A).
Arguments Leaf {A}.
Arguments Node {A} lower x higher.

Definition child {A} (lower higher : Avl A) (side : bool) : Avl A :=
  if side then higher else lower.

Fixpoint elements {A} (t : Avl A) : list A :=
  match t with
  | Leaf => []
  | Node l x h => elements l ++ x :: elements h
  end.

(** Modelled from the spec: [Avl_tree::insert], of which only the use of
    [higher] is visible in the sources.  The spec asks for "an ordered
    structure" and lets "any balanced lookup discipline" suffice, so the
    rebalancing, which does not alter the order, is left out. *)
Fixpoint avl_insert {A} (higher : A -> A -> bool) (n : A) (t : Avl A) : Avl A :=
  match t with
  | Leaf => Node Leaf n Leaf
  | Node l x h =>
      if higher x n then Node l x (avl_insert higher n h)
      else Node (avl_insert higher n l) x h
  end.

(** ** CP15 register file *)

Module Coprocessor.

Module Iss.

Definition Direction := Bitfield 0 1.
Definition Crm := Bitfield 1 4.
Definition Register := Bitfield 5 4.
Definition Crn := Bitfield 10 4.
Definition Opcode1 := Bitfield 14 3.
Definition Opcode2 := Bitfield 17 3.

Definition value (crn op1 crm op2 : Z) : Z :=
  let v := 0 in
  let v := Bitfield.set Crn v crn in
  let v := Bitfield.set Crm v crm in
  let v := Bitfield.set Opcode1 v op1 in
  let v := Bitfield.set Opcode2 v op2 in
  v.

Definition mask_encoding (v : Z) : Z :=
  Z.lor (Z.lor (Z.lor (Bitfield.masked Crm v) (Bitfield.masked Crn v))
               (Bitfield.masked Opcode1 v))
        (Bitfield.masked Opcode2 v).

End Iss.

(** [class Register]; [_r] is the member its value lives in. *)
Record Register := Build_Register {
  _encoding   : Z;
  _name       : string;
  _writeable  : bool;
  _r          : Cp15_field;
  _init_value : Z
}.

Definition new_Register (crn op1 crm op2 : Z) (name : string)
    (writeable : bool) (fld : Cp15_field) (v : Z) : Register :=
  Build_Register (Iss.value crn op1 crm op2) name writeable fld v.

Definition higher (x n : Register) : bool := _encoding n >? _encoding x.

Fixpoint find_by_encoding (t : Avl Register) (e : Z) : option Register :=
  match t with
  | Leaf => None
  | Node l x h =>
      if e =? _encoding x then Some x
      else find_by_encoding (child l h (e >? _encoding x)) e
  end.

Definition write (reg : Register) (v : Z) : M State unit :=
  modify (write_field (_r reg) (u32 v)).

Definition read (reg : Register) : M State Z :=
  gets (fun s => cp15 s (_r reg)).

Section Handle_trap.

Context {modes : Mode_state.Mode}.

(** [Coprocessor::handle_trap].  The two [Genode::error] reports leave no
    trace in the state; what the caller sees is the [bool]. *)
Definition handle_trap (_reg_tree : Avl Register) : M State bool :=
  let* v := gets hsr in
  match find_by_encoding _reg_tree (Iss.mask_encoding v) with
  | None => ret false
  | Some reg =>
      if negb (Bitfield.get Iss.Direction v =? 0) then
        (* read access *)
        (let* l := gets (fun s => r s (Bitfield.get Iss.Register v)) in
         let* x := read reg in
         store l x) ;;
        modify advance_ip ;;
        ret true
      else
        (* write access *)
        if negb (_writeable reg) then ret false
        else
          (let* l := gets (fun s => r s (Bitfield.get Iss.Register v)) in
           let* x := load l in
           write reg x) ;;
          modify advance_ip ;;
          ret true
  end.

End Handle_trap.

End Coprocessor.

(** [class Cp15]: the registers in the order of their declaration, which
    is the order in which the constructor passes them to [_init_reg]. *)
Module Cp15.

Import Coprocessor.

Definition _regs : list Register := [
  new_Register  0 0 0 0 "MIDR"       false midr   0x412fc0f1;
  new_Register  0 0 0 5 "MPIDR"      false mpidr  0x40000000;
  new_Register  0 0 0 1 "CTR"        false ctr    0x8444c004;
  new_Register  0 1 0 0 "CCSIDR"     false ccsidr 0x701fe00a;
  new_Register  0 1 0 1 "CLIDR"      false clidr  0x0a200023;
  new_Register  0 0 1 0 "PFR0"       false pfr0   0x00001031;
  new_Register  0 0 1 4 "MMFR0"      false mmfr0  0x10201105;
  new_Register  0 0 2 0 "ISAR0"      false isar0  0x02101110;
  new_Register  0 0 2 3 "ISAR3"      false isar3  0x11112131;
  new_Register  0 0 2 4 "ISAR4"      false isar4  0x10011142;
  new_Register  0 2 0 0 "CSSELR"     true  csselr 0x00000000;
  new_Register  1 0 0 0 "SCTRL"      true  sctrl  0;
  new_Register  1 0 0 1 "ACTRL"      true  actrl  0x00000040;
  new_Register  1 0 0 2 "CPACR"      true  cpacr  0x00000000;
  new_Register  2 0 0 0 "TTBR0"      true  ttbr0  0x00000000;
  new_Register  2 0 0 1 "TTBR1"      true  ttbr1  0x00000000;
  new_Register  2 0 0 2 "TTBCR"      true  ttbcr  0x00000000;
  new_Register  3 0 0 0 "DACR"       true  dacr   0x55555555;
  new_Register  5 0 0 0 "DFSR"       true  dfsr   0x00000000;
  new_Register  5 0 0 1 "IFSR"       true  ifsr   0x00000000;
  new_Register  5 0 1 0 "ADFSR"      true  adfsr  0x00000000;
  new_Register  5 0 1 1 "AIFSR"      true  aifsr  0x00000000;
  new_Register  6 0 0 0 "DFAR"       true  dfar   0x00000000;
  new_Register  6 0 0 2 "IFAR"       true  ifar   0x00000000;
  new_Register 10 0 2 0 "PRRR"       true  prrr   0x00098aa4;
  new_Register 10 0 2 1 "NMRR"       true  nmrr   0x44e048e0;
  new_Register 13 0 0 1 "CONTEXTIDR" true  cidr   0x00000000
].

(** [_init_reg]: into the tree, and the reset value into the state. *)
Definition _init_reg (reg : Register) (t : Avl Register)
    : M State (Avl Register) :=
  let t' := avl_insert higher reg t in
  write reg (_init_value reg) ;;
  ret t'.

Fixpoint init_regs (l : list Register) (t : Avl Register)
    : M State (Avl Register) :=
  match l with
  | [] => ret t
  | reg :: l' => let* t' := _init_reg reg t in init_regs l' t'
  end.

(** The constructor [Cp15(State &)]: it yields the register tree. *)
Definition new : M State (Avl Register) := init_regs _regs Leaf.

End Cp15.

(** ** The monitor's objects *)

(** Which of the monitor's devices a [Device *] points to. *)
Inductive Device_ref := Gic_dev | Timer_dev | Sys_regs_dev | Uart_dev.

(** [Gic::Irq]. *)
Module Irq.

Inductive Cpu_state := INACTIVE | PENDING.
Inductive Distr_state := ENABLED | DISABLED.

Record t := Build {
  cpu_state   : Cpu_state;
  distr_state : Distr_state;
  device      : option Device_ref;
  eoi         : bool
}.

(** The default member initialisers, [Irq()]. *)
Definition new : t := Build INACTIVE DISABLED None false.

Definition set_cpu_state (v : Cpu_state) (e : t) : t :=
  Build v (distr_state e) (device e) (eoi e).
Definition set_distr_state (v : Distr_state) (e : t) : t :=
  Build (cpu_state e) v (device e) (eoi e).

Global Instance Cpu_state_eq_dec : EqDecision Cpu_state.
Proof. solve_decision. Defined.
Global Instance Distr_state_eq_dec : EqDecision Distr_state.
Proof. solve_decision. Defined.

End Irq.

(** Modelled from the spec: [Genode::Ring_buffer<char, 1024,
    Ring_buffer_unsynchronized>] of os/ring_buffer.h, which is not among the
    sources.  The spec calls it a "1024-byte RX ring-buffer" from which a
    read of DR will "dequeue one byte": a bounded first-in first-out queue
    of bytes. *)
Module Ring_buffer.

Definition t := list Z.
Definition QUEUE_SIZE : Z := 1024.

Definition new : t := [].
Definition empty (b : t) : bool := match b with [] => true | _ => false end.
Definition add (c : Z) (b : t) : option t :=
  if Z.of_nat (length b) <? QUEUE_SIZE then Some (b ++ [c]) else None.
Definition get (b : t) : Z * t :=
  match b with
  | [] => (0, [])
  | c :: b' => (c, b')
  end.

End Ring_buffer.

(** The data members of [class Pl011]. *)
Record Pl011 := Build_Pl011 {
  _rx_buf : Ring_buffer.t;
  _ibrd   : Z;
  _fbrd   : Z;
  _lcr_h  : Z;
  _imsc   : Z;
  _ris    : Z;
  _cr     : Z
}.

(** Everything the handlers of the monitor can read or write: the state
    block shared with the VCPU service and whether the VCPU runs, [Vm]'s
    [_active] flag, the interrupt table and enable bit of the [Gic], the
    [System_register], the [Pl011], and the services outside: the one-shot
    timeouts requested from the timer of [Generic_timer] (latest first),
    the bytes sent to the terminal (in order) and the bytes the terminal
    holds ready. *)
Record Vmm := Build_Vmm {
  _state         : State;
  vcpu_running   : bool;
  _active        : bool;
  _irqs          : list Irq.t;
  _distr_enabled : bool;
  _sys_regs      : System_register.t;
  _uart          : Pl011;
  timer_once     : list Z;
  terminal_out   : list Z;
  terminal_in    : list Z
}.

Definition set_state (v : State) (w : Vmm) : Vmm :=
  Build_Vmm v (vcpu_running w) (_active w) (_irqs w) (_distr_enabled w)
    (_sys_regs w) (_uart w) (timer_once w) (terminal_out w) (terminal_in w).
Definition set_vcpu_running (v : bool) (w : Vmm) : Vmm :=
  Build_Vmm (_state w) v (_active w) (_irqs w) (_distr_enabled w)
    (_sys_regs w) (_uart w) (timer_once w) (terminal_out w) (terminal_in w).
Definition set_active (v : bool) (w : Vmm) : Vmm :=
  Build_Vmm (_state w) (vcpu_running w) v (_irqs w) (_distr_enabled w)
    (_sys_regs w) (_uart w) (timer_once w) (terminal_out w) (terminal_in w).
Definition set_irqs (v : list Irq.t) (w : Vmm) : Vmm :=
  Build_Vmm (_state w) (vcpu_running w) (_active w) v (_distr_enabled w)
    (_sys_regs w) (_uart w) (timer_once w) (terminal_out w) (terminal_in w).
Definition set_distr_enabled (v : bool) (w : Vmm) : Vmm :=
  Build_Vmm (_state w) (vcpu_running w) (_active w) (_irqs w) v (_sys_regs w)
    (_uart w) (timer_once w) (terminal_out w) (terminal_in w).
Definition set_sys_regs (v : System_register.t) (w : Vmm) : Vmm :=
  Build_Vmm (_state w) (vcpu_running w) (_active w) (_irqs w)
    (_distr_enabled w) v (_uart w) (timer_once w) (terminal_out w)
    (terminal_in w).
Definition set_uart (v : Pl011) (w : Vmm) : Vmm :=
  Build_Vmm (_state w) (vcpu_running w) (_active w) (_irqs w)
    (_distr_enabled w) (_sys_regs w) v (timer_once w) (terminal_out w)
    (terminal_in w).
Definition set_timer_once (v : list Z) (w : Vmm) : Vmm :=
  Build_Vmm (_state w) (vcpu_running w) (_active w) (_irqs w)
    (_distr_enabled w) (_sys_regs w) (_uart w) v (terminal_out w)
    (terminal_in w).
Definition set_terminal_out (v : list Z) (w : Vmm) : Vmm :=
  Build_Vmm (_state w) (vcpu_running w) (_active w) (_irqs w)
    (_distr_enabled w) (_sys_regs w) (_uart w) (timer_once w) v
    (terminal_in w).
Definition set_terminal_in (v : list Z) (w : Vmm) : Vmm :=
  Build_Vmm (_state w) (vcpu_running w) (_active w) (_irqs w)
    (_distr_enabled w) (_sys_regs w) (_uart w) (timer_once w) (terminal_out w)
    v.

(** A function of the state block run on [_vm.state()]. *)
Definition on_state {A} (m : M State A) : M Vmm A := fun w =>
  let '(s', x) := m (_state w) in (set_state s' w, x).

Definition upd_state (f : State -> State) : M Vmm unit :=
  modify (fun w => set_state (f (_state w)) w).

(** [Vm::run], [pause], [wait_for_interrupt] and [interrupt]. *)
Definition Vm_run : M Vmm unit :=
  modify (fun w => if _active w then set_vcpu_running true w else w).
Definition Vm_pause : M Vmm unit := modify (set_vcpu_running false).
Definition wait_for_interrupt : M Vmm unit := modify (set_active false).
Definition interrupt : M Vmm unit := modify (set_active true).

(** [for (unsigned i = 0; i < n; i++)]: the values [i] takes. *)
Definition range (n : nat) : list Z := map Z.of_nat (seq 0 n).

(** A loop whose body does not leave the function. *)
Fixpoint for_each {S} (l : list Z) (body : Z -> M S unit) : M S unit :=
  match l with
  | [] => ret tt
  | i :: l' => body i ;; for_each l' body
  end.

(** A loop whose body may [return]: the body answers [true] when it did,
    and so does the loop. *)
Fixpoint for_until {S} (l : list Z) (body : Z -> M S bool) : M S bool :=
  match l with
  | [] => ret false
  | i :: l' =>
      let* returned := body i in
      if returned : bool then ret true else for_until l' body
  end.

(** ** Platform constants *)

(** Modelled from the spec: [Arm_v7::VT_TIMER_IRQ] of
    drivers/defs/arm_v7.h and [State::NR_IRQ] of
    cpu/vm_state_virtualization.h, neither among the sources.  The spec
    takes "virtual-timer IRQ = 27" and a list-register count of 4, the
    number of list registers [Vm::start] clears. *)
Definition VT_TIMER_IRQ : Z := 27.
Definition NR_IRQ : nat := 4.

(** [Arm_v7::VT_MAINTAINANCE_IRQ] and [Vea9x4::Board::PL011_0_IRQ] come
    from headers that are not among the sources and the spec gives them no
    value: they are a parameter of the model. *)
Class Board := {
  VT_MAINTAINANCE_IRQ : Z;
  PL011_0_IRQ : Z
}.

(** ** Virtual interrupt controller *)

Module Gic.

Definition SGI_MAX : Z := 15.
Definition TIMER : Z := VT_TIMER_IRQ.
Definition MAX_IRQ : Z := 256.

Module Gich_lr.

Definition Virt_id := Bitfield 0 10.
Definition Phys_id := Bitfield 10 10.
Definition Prio := Bitfield 23 5.
Definition State := Bitfield 28 2.
Definition Hw := Bitfield 31 1.

End Gich_lr.

(** [_irqs[irq]] and [_vm.state().gic_lr[i]], read and written. *)
Definition irq_at (irq : Z) : M Vmm Irq.t := fun w =>
  match at_index (_irqs w) irq with
  | Some e => (w, Ok e)
  | None => (w, Throw Undefined)
  end.

Definition update_irq (irq : Z) (f : Irq.t -> Irq.t) : M Vmm unit := fun w =>
  match at_index (_irqs w) irq with
  | Some e => (set_irqs (<[Z.to_nat irq := f e]> (_irqs w)) w, Ok tt)
  | None => (w, Throw Undefined)
  end.

Definition lr_at (i : Z) : M Vmm Z := fun w =>
  match at_index (gic_lr (_state w)) i with
  | Some v => (w, Ok v)
  | None => (w, Throw Undefined)
  end.

Definition set_lr (i : Z) (v : Z) : M Vmm unit := fun w =>
  match at_index (gic_lr (_state w)) i with
  | Some _ =>
      (set_state (set_gic_lr (<[Z.to_nat i := v]> (gic_lr (_state w)))
                    (_state w)) w, Ok tt)
  | None => (w, Throw Undefined)
  end.

(** [gic_elrsr0 & (1 << i)] as a condition. *)
Definition elrsr_bit (s : State) (i : Z) : bool :=
  negb (Z.land (gic_elrsr0 s) (Z.shiftl 1 i) =? 0).

(** [Gic::_handle_eoi]: one round of its loop, then the function. *)
Definition _handle_eoi_body (i : Z) : M Vmm unit :=
  let* s := gets _state in
  if negb (Z.land (gic_eisr s) (Z.shiftl 1 i) =? 0) then
    let* v := lr_at i in
    let irq := Bitfield.get Gich_lr.Virt_id v in
    if irq >? MAX_IRQ then throw IRQOutOfBounds
    else
      set_lr i 0 ;;
      upd_state (fun s =>
        set_gic_elrsr0 (Z.lor (gic_elrsr0 s) (Z.shiftl 1 i)) s) ;;
      (let* enabled :=
         if irq =? TIMER then
           let* e := irq_at irq in
           ret (bool_decide (Irq.distr_state e = Irq.ENABLED))
         else ret false in
       if enabled : bool then upd_state (set_timer_irq true) else ret tt) ;;
      update_irq irq (Irq.set_cpu_state Irq.INACTIVE)
  else ret tt.

Definition _handle_eoi : M Vmm unit :=
  let* s := gets _state in
  if Z.land (gic_misr s) 1 =? 0 then ret tt
  else
    for_each (range NR_IRQ) _handle_eoi_body ;;
    upd_state (set_gic_misr 0).

(** The value [_inject_irq] builds for a list register. *)
Definition lr_value (irq : Z) (eoi : bool) : Z :=
  let v := 0 in
  let v := Bitfield.set Gich_lr.Virt_id v irq in
  let v := Bitfield.set Gich_lr.Phys_id v (if eoi then Z.shiftl 1 9 else 0) in
  let v := Bitfield.set Gich_lr.Prio v 0 in
  let v := Bitfield.set Gich_lr.State v 1 in
  v.

(** [Gic::_inject_irq]: its two loops, then the function. *)
Definition _inject_irq_scan (irq : Z) (i : Z) : M Vmm bool :=
  let* s := gets _state in
  if negb (elrsr_bit s i) then
    let* v := lr_at i in
    if Bitfield.get Gich_lr.Virt_id v =? irq then ret true else ret false
  else ret false.

Definition _inject_irq_fill (irq : Z) (eoi : bool) (i : Z) : M Vmm bool :=
  let* s := gets _state in
  if negb (elrsr_bit s i) then ret false
  else
    upd_state (fun s =>
      set_gic_elrsr0 (Z.ldiff (gic_elrsr0 s) (Z.shiftl 1 i)) s) ;;
    set_lr i (lr_value irq eoi) ;;
    ret true.

Definition _inject_irq (irq : Z) (eoi : bool) : M Vmm unit :=
  (if irq =? TIMER then upd_state (set_timer_irq false) else ret tt) ;;
  let* held := for_until (range NR_IRQ) (_inject_irq_scan irq) in
  if held : bool then ret tt
  else
    let* filled := for_until (range NR_IRQ) (_inject_irq_fill irq eoi) in
    if filled : bool then ret tt
    else throw ListRegistersFull.

(** [Gic::register_irq]. *)
Definition register_irq (irq : Z) (d : Device_ref) (eoi : bool) : M Vmm unit :=
  update_irq irq (fun e =>
    Irq.Build (Irq.cpu_state e) (Irq.distr_state e) (Some d) eoi).

(** [Gic::inject_irq].  The [Genode::warning] for a disabled interrupt
    leaves no trace in the state. *)
Definition inject_irq (irq : Z) : M Vmm unit :=
  let* e := irq_at irq in
  match Irq.device e with
  | None => throw UnknownInjection
  | Some _ =>
      if bool_decide (Irq.cpu_state e = Irq.PENDING) then throw DoubleInject
      else
        (if Irq.eoi e then update_irq irq (Irq.set_cpu_state Irq.PENDING)
         else ret tt) ;;
        if bool_decide (Irq.distr_state e = Irq.DISABLED) then ret tt
        else
          _inject_irq irq (Irq.eoi e) ;;
          interrupt
  end.

(** [Gic::_enable_irq] and [Gic::_disable_irq].  No device of the monitor
    overrides [irq_enabled] or [irq_disabled]; [_disable_irq] calls the
    latter through the owner, which must exist. *)
Definition _enable_irq (irq : Z) : M Vmm unit :=
  if irq >? MAX_IRQ then throw CantEnableIrq
  else
    let* e := irq_at irq in
    match Irq.device e with
    | None => throw CantEnableIrq
    | Some _ =>
        if bool_decide (Irq.distr_state e = Irq.ENABLED) then ret tt
        else
          update_irq irq (Irq.set_distr_state Irq.ENABLED) ;;
          if irq =? TIMER then upd_state (set_timer_irq true) else ret tt
    end.

Definition _disable_irq (irq : Z) : M Vmm unit :=
  if irq >? MAX_IRQ then throw IRQOutOfBounds
  else
    let* e := irq_at irq in
    if bool_decide (Irq.distr_state e = Irq.DISABLED) then ret tt
    else
      update_irq irq (Irq.set_distr_state Irq.DISABLED) ;;
      match Irq.device e with
      | None => throw Undefined
      | Some _ =>
          if irq =? TIMER then upd_state (set_timer_irq false) else ret tt
      end.

(** The table the constructor [Gic(...)] builds. *)
Definition new_irqs : list Irq.t :=
  map (fun i => if i <=? SGI_MAX
                then Irq.Build Irq.INACTIVE Irq.DISABLED (Some Gic_dev) false
                else Irq.new)
      (range (Z.to_nat (MAX_IRQ + 1))).

Section Irq_occured.

Context {board : Board}.

(** [Gic::irq_occured]. *)
Definition irq_occured : M Vmm unit :=
  let* s := gets _state in
  if gic_irq s =? VT_MAINTAINANCE_IRQ then _handle_eoi
  else if gic_irq s =? TIMER then inject_irq TIMER
  else throw UnknownIrq.

End Irq_occured.

End Gic.

(** ** Device base *)

(** A pointer into a register of the state: the register and the byte
    within it (the guest is little-endian), as [handle_memory_access]
    computes it for an access of one, two or four bytes. *)
Record Ptr := Build_Ptr { p_loc : Reg_loc; p_byte : Z }.

(** [v = *p] and [*p = x] for an object of [n] bytes. *)
Definition load_bytes (n : Z) (p : Ptr) : M State Z :=
  let* v := load (p_loc p) in
  ret (Z.land (Z.shiftr v (8 * p_byte p)) (Z.ones (8 * n))).

Definition store_bytes (n : Z) (p : Ptr) (x : Z) : M State unit :=
  let* v := load (p_loc p) in
  store (p_loc p)
    (Z.lor (Z.ldiff v (Z.shiftl (Z.ones (8 * n)) (8 * p_byte p)))
           (Z.shiftl (Z.land x (Z.ones (8 * n))) (8 * p_byte p))).

(** [class Device]: its constant members and its six virtual access
    functions, each taking the pointer [reg] and the offset [off]. *)
Record Device := Build_Device {
  name      : string;
  addr      : Z;
  size      : Z;
  read_u32  : Ptr -> Z -> M Vmm unit;
  write_u32 : Ptr -> Z -> M Vmm unit;
  read_u16  : Ptr -> Z -> M Vmm unit;
  write_u16 : Ptr -> Z -> M Vmm unit;
  read_u8   : Ptr -> Z -> M Vmm unit;
  write_u8  : Ptr -> Z -> M Vmm unit
}.

Module Device_base.

Module Iss.

Definition Write := Bitfield 6 1.
Definition Register := Bitfield 16 4.
Definition Sign_extend := Bitfield 21 1.
Definition Access_size := Bitfield 22 2.
Definition Valid := Bitfield 24 1.

Definition BYTE : Z := 0.
Definition HALFWORD : Z := 1.
Definition WORD : Z := 2.

Definition valid (v : Z) : bool :=
  negb (Bitfield.get Valid v =? 0) && (Bitfield.get Sign_extend v =? 0).

End Iss.

(** The access functions of the base class: all six refuse. *)
Definition not_allowed (reg : Ptr) (off : Z) : M Vmm unit :=
  throw UnsupportedAccessWidth.

Definition new (name : string) (addr size : Z) : Device :=
  Build_Device name addr size not_allowed not_allowed not_allowed
    not_allowed not_allowed not_allowed.

Definition higher (x d : Device) : bool := addr d >? addr x.

(** [Device::find_by_addr]. *)
Fixpoint find_by_addr (t : Avl Device) (a : Z) : option Device :=
  match t with
  | Leaf => None
  | Node l x h =>
      if (a >=? addr x) && (a <? u64 (addr x + size x)) then Some x
      else find_by_addr (child l h (a >? addr x)) a
  end.

Section Handle_memory_access.

Context {modes : Mode_state.Mode}.

(** [Device::handle_memory_access]. *)
Definition handle_memory_access (d : Device) : M Vmm unit :=
  let* s := gets _state in
  if negb (Iss.valid (hsr s)) then throw MalformedHSR
  else
    let wr := negb (Bitfield.get Iss.Write (hsr s) =? 0) in
    let idx := Bitfield.get Iss.Register (hsr s) in
    let ipa := Z.shiftl (u64 (hpfar s)) 8 in
    let off := u64 (ipa - addr d + Z.land (hdfar s) (Z.shiftl 1 13 - 1)) in
    let size := Bitfield.get Iss.Access_size (hsr s) in
    if size =? Iss.BYTE then
      let p := Build_Ptr (r s idx) (Z.land off 3) in
      if wr then write_u8 d p off else read_u8 d p off
    else if size =? Iss.HALFWORD then
      let p := Build_Ptr (r s idx) (2 * Z.land off 1) in
      if wr then write_u16 d p off else read_u16 d p off
    else if size =? Iss.WORD then
      let p := Build_Ptr (r s idx) 0 in
      if wr then write_u32 d p off else read_u32 d p off
    else throw UnalignedAccess.

End Handle_memory_access.

End Device_base.

(** ** Generic timer *)

Module Generic_timer.

(** [Generic_timer::_timeout], run when the host timer fires. *)
Definition _timeout : M Vmm unit :=
  upd_state (set_timer_ctrl 5) ;;
  upd_state (set_timer_val 0xffffffff) ;;
  Gic.inject_irq VT_TIMER_IRQ.

(** [Generic_timer::schedule_timeout]; [trigger_once] takes microseconds. *)
Definition schedule_timeout : M Vmm unit :=
  let* s := gets _state in
  if negb (Z.land (timer_ctrl s) 5 =? 5) then
    modify (fun w => set_timer_once (timer_val s / 24 :: timer_once w) w)
  else ret tt.

End Generic_timer.

(** ** Distributor registers of the interrupt controller *)

Module Gic_mmio.

Import Gic.

Definition GICD_CTLR : Z := 0.
Definition GICD_TYPER : Z := 0x4.
Definition GICD_ISENABLER0 : Z := 0x100.
Definition GICD_ISENABLERL : Z := 0x17c.
Definition GICD_ICENABLER0 : Z := 0x180.
Definition GICD_ICENABLERL : Z := 0x1fc.
Definition GICD_IPRIORITYR0 : Z := 0x400.
Definition GICD_IPRIORITYRL : Z := 0x7f8.
Definition GICD_ITARGETSR0 : Z := 0x800.
Definition GICD_ITARGETSRL : Z := 0xbf8.
Definition GICD_ICFGR2 : Z := 0xc08.
Definition GICD_ICFGRL : Z := 0xcfc.

Definition within (off lo hi : Z) : bool := (off >=? lo) && (off <=? hi).

(** [Gic::read (uint32_t *, uint64_t)]. *)
Definition read (reg : Ptr) (off : Z) : M Vmm unit :=
  if within off GICD_ICFGR2 GICD_ICFGRL then on_state (store_bytes 4 reg 0)
  else if within off GICD_ISENABLER0 GICD_ISENABLERL then
    on_state (store_bytes 4 reg 0) ;;
    let idx := u32 ((u32 off - GICD_ISENABLER0) * 8) in
    for_each (range 32) (fun i =>
      let* e := irq_at (idx + i) in
      if bool_decide (Irq.distr_state e = Irq.ENABLED) then
        let* v := on_state (load_bytes 4 reg) in
        on_state (store_bytes 4 reg (Z.lor v (Z.shiftl 1 i)))
      else ret tt)
  else if within off GICD_ITARGETSR0 GICD_ITARGETSRL then
    on_state (store_bytes 4 reg 0x01010101)
  else if off =? GICD_CTLR then
    let* en := gets _distr_enabled in
    on_state (store_bytes 4 reg (if en : bool then 1 else 0))
  else if off =? GICD_TYPER then on_state (store_bytes 4 reg 5)
  else throw UnsupportedGicOffset.

(** [Gic::write (uint32_t *, uint64_t)]; [*reg] is read where the source
    reads it. *)
Definition write (reg : Ptr) (off : Z) : M Vmm unit :=
  let* cpu0 :=
    if within off GICD_ITARGETSR0 GICD_ITARGETSRL then
      let* v := on_state (load_bytes 4 reg) in ret (v =? 0x01010101)
    else ret false in
  if cpu0 : bool then ret tt
  else
    let* level :=
      if within off GICD_ICFGR2 GICD_ICFGRL then
        let* v := on_state (load_bytes 4 reg) in ret (v =? 0)
      else ret false in
    if level : bool then ret tt
    else if within off GICD_IPRIORITYR0 GICD_IPRIORITYRL then ret tt
    else if within off GICD_ISENABLER0 GICD_ISENABLERL then
      let idx := u32 ((u32 off - GICD_ISENABLER0) * 8) in
      for_each (range 32) (fun i =>
        let* v := on_state (load_bytes 4 reg) in
        if negb (Z.land (Z.shiftr v i) 1 =? 0) then _enable_irq (idx + i)
        else ret tt)
    else if within off GICD_ICENABLER0 GICD_ICENABLERL then
      let idx := u32 ((u32 off - GICD_ICENABLER0) * 8) in
      for_each (range 32) (fun i =>
        let* v := on_state (load_bytes 4 reg) in
        if negb (Z.land (Z.shiftr v i) 1 =? 0) then _disable_irq (idx + i)
        else ret tt)
    else if off =? GICD_CTLR then
      let* v := on_state (load_bytes 4 reg) in
      modify (set_distr_enabled (negb (Z.land v 1 =? 0)))
    else throw UnsupportedGicOffset.

(** The [Gic] as a device: word accesses only. *)
Definition device (name : string) (addr size : Z) : Device :=
  Build_Device name addr size read write
    Device_base.not_allowed Device_base.not_allowed
    Device_base.not_allowed Device_base.not_allowed.

End Gic_mmio.

(** ** System registers as a device *)

Module Sys_regs.

Import System_register.

(** The access functions run on the member [_sys_regs]; a failure of
    theirs is the exception of the access. *)
Definition on_sys_regs {A} (f : t -> t * answer A) : M Vmm A := fun w =>
  match f (_sys_regs w) with
  | (r, Done a) => (set_sys_regs r w, Ok a)
  | (r, Failed e) => (set_sys_regs r w, Throw (SysRegs e))
  end.

(** [System_register::read (uint32_t *, uint64_t)]. *)
Definition read (reg : Ptr) (off : Z) : M Vmm unit :=
  let* v := on_sys_regs (System_register.read off) in
  on_state (store_bytes 4 reg v).

(** [System_register::write (uint32_t *, uint64_t)]; [*reg] is read in
    the cases that read it. *)
Definition write (reg : Ptr) (off : Z) : M Vmm unit :=
  let* v :=
    if (off =? SYS_CFGDATA) || (off =? SYS_CFGSTAT) || (off =? SYS_CFGCTRL)
    then on_state (load_bytes 4 reg)
    else ret 0 in
  on_sys_regs (System_register.write v off).

(** The [System_register] as a device: word accesses only. *)
Definition device (name : string) (addr size : Z) : Device :=
  Build_Device name addr size read write
    Device_base.not_allowed Device_base.not_allowed
    Device_base.not_allowed Device_base.not_allowed.

End Sys_regs.

(** ** PL011 UART *)

Module Pl011.

Definition UARTDR : Z := 0x0.
Definition UARTFR : Z := 0x18.
Definition UARTIBRD : Z := 0x24.
Definition UARTFBRD : Z := 0x28.
Definition UARTLCR_H : Z := 0x2c.
Definition UARTCR : Z := 0x30.
Definition UARTIFLS : Z := 0x34.
Definition UARTIMSC : Z := 0x38.
Definition UARTMIS : Z := 0x40.
Definition UARTICR : Z := 0x44.
Definition UARTPERIPHID0 : Z := 0xfe0.
Definition UARTPERIPHID1 : Z := 0xfe4.
Definition UARTPERIPHID2 : Z := 0xfe8.
Definition UARTPERIPHID3 : Z := 0xfec.
Definition UARTPCELLID0 : Z := 0xff0.
Definition UARTPCELLID1 : Z := 0xff4.
Definition UARTPCELLID2 : Z := 0xff8.
Definition UARTPCELLID3 : Z := 0xffc.

(** The default member initialisers. *)
Definition new : Pl011 := Build_Pl011 Ring_buffer.new 0 0 0 15 0 0x300.

Definition set_rx_buf (v : Ring_buffer.t) (u : Pl011) : Pl011 :=
  Build_Pl011 v (_ibrd u) (_fbrd u) (_lcr_h u) (_imsc u) (_ris u) (_cr u).
Definition set_ibrd (v : Z) (u : Pl011) : Pl011 :=
  Build_Pl011 (_rx_buf u) v (_fbrd u) (_lcr_h u) (_imsc u) (_ris u) (_cr u).
Definition set_fbrd (v : Z) (u : Pl011) : Pl011 :=
  Build_Pl011 (_rx_buf u) (_ibrd u) v (_lcr_h u) (_imsc u) (_ris u) (_cr u).
Definition set_lcr_h (v : Z) (u : Pl011) : Pl011 :=
  Build_Pl011 (_rx_buf u) (_ibrd u) (_fbrd u) v (_imsc u) (_ris u) (_cr u).
Definition set_imsc (v : Z) (u : Pl011) : Pl011 :=
  Build_Pl011 (_rx_buf u) (_ibrd u) (_fbrd u) (_lcr_h u) v (_ris u) (_cr u).
Definition set_ris (v : Z) (u : Pl011) : Pl011 :=
  Build_Pl011 (_rx_buf u) (_ibrd u) (_fbrd u) (_lcr_h u) (_imsc u) v (_cr u).
Definition set_cr (v : Z) (u : Pl011) : Pl011 :=
  Build_Pl011 (_rx_buf u) (_ibrd u) (_fbrd u) (_lcr_h u) (_imsc u) (_ris u) v.

Definition upd_uart (f : Pl011 -> Pl011) : M Vmm unit :=
  modify (fun w => set_uart (f (_uart w)) w).

(** [_terminal.write(p, 1)]: one byte more on the terminal. *)
Definition terminal_write (c : Z) : M Vmm unit :=
  modify (fun w => set_terminal_out (terminal_out w ++ [c]) w).

(** [Pl011::_out_char]. *)
Definition _out_char (c : Z) : M Vmm unit := terminal_write (u8 c).

(** [Pl011::_get_char], an [unsigned char]. *)
Definition _get_char : M Vmm Z :=
  let* u := gets _uart in
  if Ring_buffer.empty (_rx_buf u) then ret 0
  else
    let '(c, b) := Ring_buffer.get (_rx_buf u) in
    upd_uart (set_rx_buf b) ;;
    ret (u8 c).

(** [Pl011::_get], a [uint16_t]; [throw Wrong_offset()] is the
    [UartWrongOffset] that [read] turns it into. *)
Definition _get (off : Z) : M Vmm Z :=
  let* u := gets _uart in
  if off =? UARTDR then _get_char
  else if off =? UARTPERIPHID0 then ret 0x11
  else if off =? UARTPERIPHID1 then ret 0x10
  else if off =? UARTPERIPHID2 then ret 0x14
  else if off =? UARTPERIPHID3 then ret 0x0
  else if off =? UARTPCELLID0 then ret 0xd
  else if off =? UARTPCELLID1 then ret 0xf0
  else if off =? UARTPCELLID2 then ret 0x5
  else if off =? UARTPCELLID3 then ret 0xb1
  else if off =? UARTFR then
    ret (if Ring_buffer.empty (_rx_buf u) then 16 else 64)
  else if off =? UARTCR then ret (_cr u)
  else if off =? UARTIMSC then ret (_imsc u)
  else if off =? UARTMIS then ret (Z.land (_ris u) (_imsc u))
  else if off =? UARTFBRD then ret (_fbrd u)
  else if off =? UARTIBRD then ret (_ibrd u)
  else if off =? UARTLCR_H then ret (_lcr_h u)
  else throw UartWrongOffset.

Section Interrupts.

Context {board : Board}.

(** [Pl011::_mask_irqs]. *)
Definition _mask_irqs (mask : Z) : M Vmm unit :=
  (let* u := gets _uart in
   if negb (Z.land mask (Z.shiftl 1 5) =? 0)
      && (Z.land (_imsc u) (Z.shiftl 1 5) =? 0) then
     Gic.inject_irq PL011_0_IRQ ;;
     upd_uart (fun u => set_ris (u16 (Z.lor (_ris u) (Z.shiftl 1 5))) u)
   else ret tt) ;;
  (let* u := gets _uart in
   if negb (Z.land mask (Z.shiftl 1 4) =? 0)
      && (Z.land (_imsc u) (Z.shiftl 1 4) =? 0)
      && negb (Ring_buffer.empty (_rx_buf u)) then
     Gic.inject_irq PL011_0_IRQ ;;
     upd_uart (fun u => set_ris (u16 (Z.lor (_ris u) (Z.shiftl 1 4))) u)
   else ret tt) ;;
  upd_uart (set_imsc (u16 mask)).

(** The [while (_terminal.avail())] loop of [Pl011::_read], over the bytes
    the terminal holds. *)
Fixpoint _read_loop (avail : list Z) : M Vmm unit :=
  match avail with
  | [] => ret tt
  | c :: rest =>
      modify (set_terminal_in rest) ;;
      (let* u := gets _uart in
       match Ring_buffer.add (u8 c) (_rx_buf u) with
       | Some b => upd_uart (set_rx_buf b)
       | None => throw RingBufferOverflow
       end) ;;
      _read_loop rest
  end.

(** [Pl011::_read], run when the terminal signals input. *)
Definition _read : M Vmm unit :=
  let* avail := gets terminal_in in
  match avail with
  | [] => ret tt
  | _ =>
      _read_loop avail ;;
      Gic.inject_irq PL011_0_IRQ ;;
      upd_uart (fun u => set_ris (u16 (Z.lor (_ris u) (Z.shiftl 1 4))) u)
  end.

(** [Pl011::read (uint16_t *, uint64_t)] and the word read that
    forwards to it. *)
Definition read_u16 (reg : Ptr) (off : Z) : M Vmm unit :=
  let* v := _get off in
  on_state (store_bytes 2 reg v).

Definition read_u32 (reg : Ptr) (off : Z) : M Vmm unit := read_u16 reg off.

(** [Pl011::write (uint8_t *, uint64_t)]. *)
Definition write_u8 (reg : Ptr) (off : Z) : M Vmm unit :=
  if negb (off =? UARTDR) then throw UartWrongOffset
  else
    let* c := on_state (load_bytes 1 reg) in
    terminal_write c.

(** [Pl011::write (uint16_t *, uint64_t)]. *)
Definition write_u16 (reg : Ptr) (off : Z) : M Vmm unit :=
  if off =? UARTDR then
    let* c := on_state (load_bytes 1 reg) in
    terminal_write c
  else if off =? UARTFBRD then
    let* v := on_state (load_bytes 2 reg) in upd_uart (set_fbrd v)
  else if off =? UARTIMSC then
    let* v := on_state (load_bytes 2 reg) in _mask_irqs v
  else if off =? UARTIBRD then
    let* v := on_state (load_bytes 2 reg) in upd_uart (set_ibrd v)
  else if off =? UARTLCR_H then
    let* v := on_state (load_bytes 2 reg) in upd_uart (set_lcr_h v)
  else if off =? UARTICR then
    let* v := on_state (load_bytes 2 reg) in
    upd_uart (fun u => set_ris (Z.ldiff (_ris u) v) u)
  else if off =? UARTCR then
    let* v := on_state (load_bytes 2 reg) in upd_uart (set_cr v)
  else if off =? UARTIFLS then ret tt
  else throw UartWrongOffset.

(** The [Pl011] as a device. *)
Definition device (name : string) (addr size : Z) : Device :=
  Build_Device name addr size read_u32 Device_base.not_allowed
    read_u16 write_u16 Device_base.not_allowed write_u8.

End Interrupts.

End Pl011.

(** ** The monitor: trap decoder and exit handling *)

Module Vmm_handlers.

Section Handlers.

Context {modes : Mode_state.Mode} {board : Board}.

(** The members [_cp15] and [_device_tree] do not change once the monitor
    is constructed. *)
Variable _cp15 : Avl Coprocessor.Register.
Variable _device_tree : Avl Device.

(** [Vmm::_handle_hyper_call]. *)
Definition _handle_hyper_call : M Vmm unit := throw UnknownHyperCall.

(** [Vmm::_handle_data_abort]. *)
Definition _handle_data_abort : M Vmm unit :=
  let* s := gets _state in
  let ipa := Z.shiftl (u64 (hpfar s)) 8 in
  match Device_base.find_by_addr _device_tree ipa with
  | None => throw (NoDeviceAtIPA ipa)
  | Some device =>
      Device_base.handle_memory_access device ;;
      upd_state advance_ip
  end.

(** [Vmm::_handle_wfi]. *)
Definition _handle_wfi : M Vmm unit :=
  let* s := gets _state in
  if negb (Z.land (hsr s) 1 =? 0) then throw WfeNotImplemented
  else
    wait_for_interrupt ;;
    Generic_timer.schedule_timeout ;;
    upd_state advance_ip.

(** [Vmm::_handle_trap].  What [handle_trap] returns is dropped. *)
Definition _handle_trap : M Vmm unit :=
  let* s := gets _state in
  let ec := Bitfield.get Hsr.Ec (hsr s) in
  if ec =? Hsr.HVC then _handle_hyper_call
  else if ec =? Hsr.CP15 then
    let* _ := on_state (Coprocessor.handle_trap _cp15) in ret tt
  else if ec =? Hsr.DA then _handle_data_abort
  else if ec =? Hsr.WFI then _handle_wfi
  else throw UnknownTrap.

Definition IRQ : Z := 6.
Definition TRAP : Z := 8.

(** [Vmm::handle_vm], for the handler of the signal that arrived. *)
Definition handle_vm (handler : M Vmm unit) : M Vmm unit :=
  (let* a := gets _active in
   if a : bool then
     Vm_pause ;;
     let* s := gets _state in
     if cpu_exception s =? IRQ then Gic.irq_occured
     else if cpu_exception s =? TRAP then _handle_trap
     else throw UnexpectedException
   else ret tt) ;;
  handler ;;
  let* a := gets _active in
  if a : bool then Vm_run else ret tt.

(** [Vmm::_handle], the handler of the VCPU's exit signal. *)
Definition _handle : M Vmm unit := ret tt.

(** [Signal_handler::handle]: a [Vm::Exception] ends the dispatch; it is
    printed, the state is dumped, and the monitor goes on with the next
    signal. *)
Definition handle (handler : M Vmm unit) (w : Vmm) : Vmm :=
  state_after (handle_vm handler) w.

End Handlers.

End Vmm_handlers.

(** ** Construction *)

Module Vm.

Definition RAM_ADDRESS : Z := 0x80000000.
Definition MACH_TYPE : Z := 2272.
Definition KERNEL_OFFSET : Z := 0x8000.
Definition DTB_OFFSET : Z := 64 * 1024 * 1024.

(** [Vm::start], as far as the state block goes: the [memset] covers the
    [Cpu_state_modes] part, then come [_load_kernel], [_load_dtb] and the
    assignments.  The copies into guest memory are outside the block. *)
Definition start (s : State) : State :=
  let gp := replicate 16 0 in
  let gp := <[IP := u32 (RAM_ADDRESS + KERNEL_OFFSET)]> gp in
  let gp := <[2%nat := u32 (RAM_ADDRESS + DTB_OFFSET)]> gp in
  let gp := <[1%nat := MACH_TYPE]> gp in
  Build_State gp 0x93 0
    (replicate (length (mode s)) (Mode_state.Build 0 0 0))
    (hsr s) (hpfar s) (hdfar s)
    5 0x4c0000 0 (gic_misr s) (gic_eisr s) (gic_elrsr0 s)
    (<[3%nat := 0]> (<[2%nat := 0]> (<[1%nat := 0]> (<[0%nat := 0]>
       (gic_lr s)))))
    (gic_irq s) 0 0 false (cp15 s).

End Vm.

(** Modelled from the spec: the state block as the VCPU service hands it
    out, which no source file shows.  It is cleared, the array of banked
    sets has one entry per mode of the spec's table, and, as the spec has
    it for the initial state, [gic_elrsr0] has its low [NR_IRQ] bits set. *)
Definition fresh_State : State :=
  Build_State (replicate 16 0) 0 0 (replicate 5 (Mode_state.Build 0 0 0))
    0 0 0 0 0 0 0 0 (Z.ones (Z.of_nat NR_IRQ)) (replicate NR_IRQ 0) 0
    0 0 false (fun _ => 0).

Section Construction.

Context {board : Board}.

(** The constructor [Vmm(Genode::Env &)]: the members in the order of
    their declaration, then the body, which starts the machine.  The timer
    of the system registers is new: it has run 0 ms. *)
Definition new_Vmm (block : State) : Vmm :=
  let s := state_after Cp15.new block in
  let w := Build_Vmm s false true Gic.new_irqs false (System_register.new 0)
             Pl011.new [] [] [] in
  let w := state_after (Gic.register_irq VT_TIMER_IRQ Timer_dev true) w in
  let w := state_after (Gic.register_irq PL011_0_IRQ Uart_dev false) w in
  let w := set_state (Vm.start (_state w)) w in
  state_after Vm_run w.

(** The register tree of [_cp15] and the device tree the body fills, with
    the [Gic], the [System_register] and the [Pl011] in the order of their
    insertion.  The [Generic_timer] is not inserted. *)
Definition the_cp15 : Avl Coprocessor.Register :=
  match outcome Cp15.new fresh_State with
  | Ok t => t
  | Throw _ => Leaf
  end.

Definition the_device_tree : Avl Device :=
  let t := Leaf in
  let t := avl_insert Device_base.higher
             (Gic_mmio.device "Gic" 0x2c001000 0x2000) t in
  let t := avl_insert Device_base.higher
             (Sys_regs.device "System Register" 0x1c010000 0x1000) t in
  let t := avl_insert Device_base.higher
             (Pl011.device "Pl011" 0x1c090000 0x1000) t in
  t.

End Construction.

(** Modelled from the spec: an assignment of the parameters, for running
    the model.  The indices of the banked sets are those of the spec's
    table (FIQ 0, IRQ 1, SVC 2, ABT 3, UND 4); the two interrupt numbers
    are those of the Versatile Express board the spec's address map
    describes. *)
Definition spec_modes : Mode_state.Mode :=
  {| Mode_state.FIQ := 0; Mode_state.IRQ := 1; Mode_state.SVC := 2;
     Mode_state.ABORT := 3; Mode_state.UND := 4 |}.

Definition vea9x4_board : Board :=
  {| VT_MAINTAINANCE_IRQ := 25; PL011_0_IRQ := 37 |}.

(** ** Runs of the guest *)

(** Between two exits the guest runs and changes what it owns of the state
    block: its registers and its status register; the exit then carries
    its syndrome. *)
Record Guest_exit := Build_Guest_exit {
  exit_hsr  : Z;
  exit_cpsr : Z;
  exit_regs : list Z;
  exit_mode : list Mode_state.t
}.

Definition enter (x : Guest_exit) (s : State) : State :=
  set_hsr (exit_hsr x)
    (set_cpsr (exit_cpsr x)
       (set_regs (exit_regs x) (set_mode (exit_mode x) s))).

Section Cp15_traps.

Context {modes : Mode_state.Mode}.

(** The state after a sequence of CP15 traps, each handled by
    [handle_trap] on the register tree [t]. *)
Definition cp15_traps (t : Avl Coprocessor.Register) (xs : list Guest_exit)
    (s : State) : State :=
  fold_left (fun s x => state_after (Coprocessor.handle_trap t) (enter x s))
            xs s.

End Cp15_traps.

(** A trap that writes a CP15 register has the direction bit clear. *)
Definition is_cp15_write (x : Guest_exit) : Prop :=
  Bitfield.get Coprocessor.Iss.Direction (exit_hsr x) = 0.

(** ** Device trees *)

(** The device [d] serves the address [a]: [a] lies in
    [[base, base + size)]. *)
Definition serves (d : Device) (a : Z) : Prop :=
  addr d <= a < addr d + size d.

(** The order [Avl_tree::insert] keeps, by [Device::higher]: below a node
    the devices with a base that is not higher, above it those with a
    higher base. *)
Fixpoint search_tree (t : Avl Device) : Prop :=
  match t with
  | Leaf => True
  | Node l x h =>
      (forall y, In y (elements l) -> addr y <= addr x) /\
      (forall y, In y (elements h) -> addr x < addr y) /\
      search_tree l /\ search_tree h
  end.

(** A device tree as the spec's data model has it: ordered, every range
    non-empty and within 64 bits, and the ranges of two devices
    disjoint. *)
Definition device_tree_ok (t : Avl Device) : Prop :=
  search_tree t /\
  (forall d, In d (elements t) ->
     0 <= addr d /\ 0 < size d /\ addr d + size d < 2 ^ 64) /\
  (forall d1 d2, In d1 (elements t) -> In d2 (elements t) ->
     d1 = d2 \/ addr d1 + size d1 <= addr d2 \/ addr d2 + size d2 <= addr d1).

(** ** Guest reads of the UART *)

(** The bytes of a string, as the terminal delivers them. *)
Definition bytes_of (str : string) : list Z :=
  map (fun c => Z.of_N (Ascii.N_of_ascii c)) (String.list_ascii_of_string str).

(** The guest has trapped: the exit leaves the reason, a trap, in
    [cpu_exception], its syndrome in [hsr] and the two fault address
    registers in [hpfar] and [hdfar]. *)
Definition trapped (hsr hpfar hdfar : Z) (w : Vmm) : Vmm :=
  let s := _state w in
  set_state
    (Build_State (regs s) (cpsr s) 8 (mode s) hsr hpfar hdfar
       (gic_hcr s) (gic_vmcr s) (gic_apr s) (gic_misr s) (gic_eisr s)
       (gic_elrsr0 s) (gic_lr s) (gic_irq s) (timer_ctrl s) (timer_val s)
       (timer_irq s) (cp15 s))
    w.


Section Guest_reads.

Context {modes : Mode_state.Mode} {board : Board}.


End Guest_reads.

(** The terminal holds the bytes [input] and the RX ring buffer is
    empty. *)
Definition terminal_delivers (input : list Z) (w : Vmm) : Vmm :=
  set_terminal_in input (set_uart (Pl011.set_rx_buf [] (_uart w)) w).

(** ** List registers and interrupt table, as the properties see them *)

(** The arrays have the size the source declares for them. *)
Definition arrays_ok (w : Vmm) : Prop :=
  length (gic_lr (_state w)) = NR_IRQ /\
  Z.of_nat (length (_irqs w)) = Gic.MAX_IRQ + 1.

(** The content of list register [i]. *)
Definition lr_of (s : State) (i : Z) : Z := default 0 (at_index (gic_lr s) i).

(** List register [i] is occupied, its bit in [gic_elrsr0] being clear,
    and holds the virtual id [irq]: the test of the first loop of
    [_inject_irq]. *)
Definition in_flight (s : State) (irq i : Z) : bool :=
  negb (Gic.elrsr_bit s i)
  && (Bitfield.get Gic.Gich_lr.Virt_id (lr_of s i) =? irq).

(** List register [i] has [irq] in its virtual-id field, occupied or
    not. *)
Definition holds_id (s : State) (irq i : Z) : bool :=
  Bitfield.get Gic.Gich_lr.Virt_id (lr_of s i) =? irq.

(** What the second loop of [_inject_irq] does to the state when it takes
    list register [i]. *)
Definition take_lr (irq : Z) (eoi : bool) (i : Z) (w : Vmm) : Vmm :=
  set_state
    (set_gic_lr (<[Z.to_nat i := Gic.lr_value irq eoi]> (gic_lr (_state w)))
       (set_gic_elrsr0 (Z.clearbit (gic_elrsr0 (_state w)) i) (_state w)))
    w.

(** [state.timer_irq = false] when [irq] is the virtual-timer interrupt. *)
Definition clear_timer_irq (irq : Z) (w : Vmm) : Vmm :=
  if irq =? Gic.TIMER then set_state (set_timer_irq false (_state w)) w
  else w.

(** The entry of [irq] in the interrupt table, and what the properties ask
    of it. *)
Definition is_pending (w : Vmm) (irq : Z) : Prop :=
  exists e, at_index (_irqs w) irq = Some e /\ Irq.cpu_state e = Irq.PENDING.
Definition needs_eoi (w : Vmm) (irq : Z) : Prop :=
  exists e, at_index (_irqs w) irq = Some e /\ Irq.eoi e = true.
Definition is_enabled (w : Vmm) (irq : Z) : Prop :=
  exists e, at_index (_irqs w) irq = Some e
            /\ Irq.distr_state e = Irq.ENABLED.

(** Exactly one of the list registers is occupied and holds [irq]. *)
Definition exactly_one_in_flight (s : State) (irq : Z) : Prop :=
  exists i, 0 <= i < Z.of_nat NR_IRQ /\ in_flight s irq i = true /\
    forall j, 0 <= j < Z.of_nat NR_IRQ -> in_flight s irq j = true -> j = i.

(** What one round of the loop of [_handle_eoi] does to the state when
    bit [i] of [gic_eisr] is set and the virtual id found in list register
    [i] is within the interrupt table. *)
Definition retire_lr (i : Z) (w : Vmm) : Vmm :=
  let s := _state w in
  let irq := Bitfield.get Gic.Gich_lr.Virt_id (lr_of s i) in
  let s1 := set_gic_lr (<[Z.to_nat i := 0]> (gic_lr s)) s in
  let s2 := set_gic_elrsr0 (Z.setbit (gic_elrsr0 s) i) s1 in
  match at_index (_irqs w) irq with
  | Some e =>
      let raise :=
        (irq =? Gic.TIMER)
        && bool_decide (Irq.distr_state e = Irq.ENABLED) in
      let s3 := if raise then set_timer_irq true s2 else s2 in
      set_irqs (<[Z.to_nat irq := Irq.set_cpu_state Irq.INACTIVE e]> (_irqs w))
        (set_state s3 w)
  | None => w
  end.

(** What the maintenance interrupt has done, in the state [w], for the
    list register [k] as it was in the state [w0]: the register is zero,
    its bit in [gic_elrsr0] is set, the interrupt it held is INACTIVE, and
    [timer_irq] is raised if that was the virtual-timer interrupt and the
    distributor had it enabled. *)
Definition retired (w0 : Vmm) (k : Z) (w : Vmm) : Prop :=
  lr_of (_state w) k = 0 /\
  Z.testbit (gic_elrsr0 (_state w)) k = true /\
  (exists e,
     at_index (_irqs w)
       (Bitfield.get Gic.Gich_lr.Virt_id (lr_of (_state w0) k)) = Some e
     /\ Irq.cpu_state e = Irq.INACTIVE) /\
  (Bitfield.get Gic.Gich_lr.Virt_id (lr_of (_state w0) k) = Gic.TIMER ->
   is_enabled w0 Gic.TIMER -> timer_irq (_state w) = true).

(** The loop of [_handle_eoi], started in [w0], has reached [w] with the
    list registers below [n] behind it. *)
Definition eoi_progress (w0 : Vmm) (n : Z) (w : Vmm) : Prop :=
  arrays_ok w /\
  gic_eisr (_state w) = gic_eisr (_state w0) /\
  gic_misr (_state w) = gic_misr (_state w0) /\
  (forall irq, Irq.distr_state <$> at_index (_irqs w) irq
               = Irq.distr_state <$> at_index (_irqs w0) irq) /\
  (forall j, n <= j -> lr_of (_state w) j = lr_of (_state w0) j) /\
  (forall k, 0 <= k < n -> Z.testbit (gic_eisr (_state w0)) k = true ->
             retired w0 k w).

(** The list registers agree with the interrupt table: no two occupied
    list registers hold the same virtual id, and an interrupt that
    requires EOI and is PENDING is held by an occupied list register. *)
Definition in_flight_consistent (w : Vmm) : Prop :=
  arrays_ok w /\
  (forall irq i j,
     0 <= i < Z.of_nat NR_IRQ -> 0 <= j < Z.of_nat NR_IRQ ->
     in_flight (_state w) irq i = true -> in_flight (_state w) irq j = true ->
     i = j) /\
  (forall irq, needs_eoi w irq -> is_pending w irq ->
     exists i, 0 <= i < Z.of_nat NR_IRQ /\ in_flight (_state w) irq i = true).

(** [_irqs[irq].cpu_state = PENDING] when the interrupt requires EOI. *)
Definition mark_pending (irq : Z) (e : Irq.t) (w : Vmm) : Vmm :=
  if Irq.eoi e
  then set_irqs (<[Z.to_nat irq := Irq.set_cpu_state Irq.PENDING e]> (_irqs w)) w
  else w.

(** ** Sequences of injections and maintenance interrupts *)

(** What happens to the interrupt controller from outside: a device
    injects an interrupt, or the host delivers the maintenance interrupt,
    the hardware having put its status into [gic_misr] and [gic_eisr]. *)
Inductive Gic_event :=
  | Inject (irq : Z)
  | Maintenance (misr eisr : Z).

Definition gic_step (ev : Gic_event) : M Vmm unit :=
  match ev with
  | Inject irq => Gic.inject_irq irq
  | Maintenance misr eisr =>
      upd_state (fun s => set_gic_eisr eisr (set_gic_misr misr s)) ;;
      Gic._handle_eoi
  end.

(** A handler that raises an exception leaves the state as it is by then,
    and the monitor goes on with the next event. *)
Fixpoint gic_run (evs : list Gic_event) (w : Vmm) : Vmm :=
  match evs with
  | [] => w
  | ev :: evs' => gic_run evs' (state_after (gic_step ev) w)
  end.

(** Every injection of the sequence is of an interrupt that is enabled in
    the distributor at that moment, and none finds the list registers
    full. *)
Fixpoint all_delivered (evs : list Gic_event) (w : Vmm) : Prop :=
  match evs with
  | [] => True
  | ev :: evs' =>
      match ev with
      | Inject irq =>
          is_enabled w irq /\
          outcome (Gic.inject_irq irq) w <> Throw ListRegistersFull
      | Maintenance _ _ => True
      end
      /\ all_delivered evs' (state_after (gic_step ev) w)
  end.

(** ** Example states *)

(** The monitor as constructed on the Versatile Express board, before the
    guest has run. *)
Definition world0 : Vmm := @new_Vmm vea9x4_board fresh_State.

(** [world0] once the guest has enabled the virtual-timer interrupt in the
    distributor. *)
Definition world_timer_enabled : Vmm :=
  state_after (Gic._enable_irq VT_TIMER_IRQ) world0.

(** The virtual-timer interrupt has been injected into list register 0
    of [world_timer_enabled]; the guest has signalled its end, and the
    host reports it with [gic_misr = 1] and [gic_eisr = 0b1]. *)
Definition world_timer_eoi : Vmm :=
  state_after
    (upd_state (fun s => set_gic_eisr 1 (set_gic_misr 1 s)))
    (state_after (Gic.inject_irq VT_TIMER_IRQ) world_timer_enabled).

(** The guest has trapped with the syndrome [hsr], the fault address
    registers [hpfar] and [hdfar], in [world0]. *)
Definition world_trap (hsr hpfar hdfar : Z) : Vmm :=
  set_state
    (Build_State (regs (_state world0)) (cpsr (_state world0)) 8
       (mode (_state world0)) hsr hpfar hdfar
       (gic_hcr (_state world0)) (gic_vmcr (_state world0))
       (gic_apr (_state world0)) (gic_misr (_state world0))
       (gic_eisr (_state world0)) (gic_elrsr0 (_state world0))
       (gic_lr (_state world0)) (gic_irq (_state world0))
       (timer_ctrl (_state world0)) (timer_val (_state world0))
       (timer_irq (_state world0)) (cp15 (_state world0)))
    world0.

(** A device tree with one device of sixteen bytes that does not start
    on a page. *)
Definition unaligned_device_tree : Avl Device :=
  avl_insert Device_base.higher
    (Device_base.new "small" 0x1c090010 0x10) Leaf.

(** Two CP15 write traps: of [r0], which holds 7, to CSSELR, and of
    [r0] to MIDR. *)
Definition two_cp15_writes : list Guest_exit :=
  [ Build_Guest_exit 0x0C008000 0x93 (replicate 16 7)
      (replicate 5 (Mode_state.Build 0 0 0));
    Build_Guest_exit 0x0C000000 0x93 (replicate 16 7)
      (replicate 5 (Mode_state.Build 0 0 0)) ].

(** ** Vocabulary of the proofs *)

(** [keeps f m]: whatever [m] does and however it ends, the part [f] of
    the state is afterwards what it was. *)
Definition keeps {S A B} (f : S -> B) (m : M S A) : Prop :=
  forall s, f (fst (m s)) = f s.

(** The register [reg] is not writeable, [reg'] is, and one member of the
    state backs both. *)
Definition shared_field (reg reg' : Coprocessor.Register) : bool :=
  negb (Coprocessor._writeable reg) && Coprocessor._writeable reg'
  && bool_decide (Coprocessor._r reg = Coprocessor._r reg').

(** The members of the state in which the read-only registers live hold
    their reset values. *)
Definition read_only_intact (s : State) : Prop :=
  forall reg, In reg Cp15._regs -> Coprocessor._writeable reg = false ->
              cp15 s (Coprocessor._r reg) = Coprocessor._init_value reg.

(** The consistency of list registers and interrupt table is a matter of
    the list registers, [gic_elrsr0] and the table alone. *)
Definition gic_view (w : Vmm) : list Z * Z * list Irq.t :=
  (gic_lr (_state w), gic_elrsr0 (_state w), _irqs w).

(** ** More of the register file, as the properties see it *)

(** The order [Avl_tree::insert] keeps in a register tree, by
    [Register::higher], when no two registers share an encoding: below a
    node the lower encodings, above it the higher ones. *)
Fixpoint encoding_ordered (t : Avl Coprocessor.Register) : Prop :=
  match t with
  | Leaf => True
  | Node l x h =>
      (forall y, In y (elements l) ->
         Coprocessor._encoding y < Coprocessor._encoding x) /\
      (forall y, In y (elements h) ->
         Coprocessor._encoding x < Coprocessor._encoding y) /\
      encoding_ordered l /\ encoding_ordered h
  end.

(** A check that a register tree is ordered by encoding, with every
    encoding strictly between [lo] and [hi]. *)
Fixpoint encoding_within (lo hi : Z) (t : Avl Coprocessor.Register) : bool :=
  match t with
  | Leaf => true
  | Node l x h =>
      (lo <? Coprocessor._encoding x) && (Coprocessor._encoding x <? hi)
      && encoding_within lo (Coprocessor._encoding x) l
      && encoding_within (Coprocessor._encoding x) hi h
  end.


(** ** Guest registers and device offsets, as the properties see them *)

(** The value the register at [l] holds, when [l] lies inside the state. *)
Definition value_at (l : Reg_loc) (s : State) : option Z :=
  match outcome (load l) s with
  | Ok v => Some v
  | Throw _ => None
  end.

Section Access.

Context {modes : Mode_state.Mode}.

(** The register the syndrome of a data abort names, and the offset
    [handle_memory_access] hands to the access functions of [d]. *)
Definition access_register (s : State) : Reg_loc :=
  r s (Bitfield.get Device_base.Iss.Register (hsr s)).

Definition access_offset (d : Device) (s : State) : Z :=
  u64 (Z.shiftl (u64 (hpfar s)) 8 - addr d
       + Z.land (hdfar s) (Z.shiftl 1 13 - 1)).

End Access.

(** The [n] bytes the pointer [p] points at, when it points into the
    state. *)
Definition bytes_at (n : Z) (p : Ptr) (s : State) : option Z :=
  match outcome (load_bytes n p) s with
  | Ok v => Some v
  | Throw _ => None
  end.

(** The monitor once the bytes [l] of the terminal have gone into the
    receive buffer of the UART. *)
Definition received (l : list Z) (w : Vmm) : Vmm :=
  set_terminal_in []
    (set_uart (Pl011.set_rx_buf (_rx_buf (_uart w) ++ map u8 l) (_uart w)) w).

(** ** Calls of the interrupt controller *)

(** What reaches the interrupt controller: the events from outside, and
    the guest's stores to the enable registers of the distributor. *)
Inductive Gic_call :=
  | Event (ev : Gic_event)
  | Enable (irq : Z)
  | Disable (irq : Z).

Definition gic_call (c : Gic_call) : M Vmm unit :=
  match c with
  | Event ev => gic_step ev
  | Enable irq => Gic._enable_irq irq
  | Disable irq => Gic._disable_irq irq
  end.

(** As with [gic_run], a call that raises an exception leaves the state
    as it is by then. *)
Fixpoint gic_calls (cs : list Gic_call) (w : Vmm) : Vmm :=
  match cs with
  | [] => w
  | c :: cs' => gic_calls cs' (state_after (gic_call c) w)
  end.

(** The interrupt [irq] of some device is PENDING while none of the list
    registers has it in its virtual-id field. *)
Definition lost (w : Vmm) (irq : Z) : Prop :=
  arrays_ok w /\
  (exists e, at_index (_irqs w) irq = Some e
             /\ Irq.cpu_state e = Irq.PENDING /\ Irq.device e <> None) /\
  (forall i, 0 <= i < Z.of_nat NR_IRQ -> holds_id (_state w) irq i = false).

(** Every list register holds a virtual id within the interrupt table,
    and the arrays have their size. *)
Definition ids_in_table (w : Vmm) : Prop :=
  forall i, 0 <= i < Z.of_nat NR_IRQ ->
    Bitfield.get Gic.Gich_lr.Virt_id (lr_of (_state w) i) <= Gic.MAX_IRQ.

Definition table_ok (w : Vmm) : Prop := arrays_ok w /\ ids_in_table w.

(** The interrupt [j] is one of the 32 from [idx] on, and its bit is set
    in the word [v]: a store of [v] to the enable register that starts at
    [idx] names it. *)
Definition named_by (idx v j : Z) : bool :=
  (idx <=? j) && (j <? idx + 32) && Z.testbit v (j - idx).

(** The entry of an interrupt after such a store, which puts the
    interrupts it names into the state [st]. *)
Definition after_store (st : Irq.Distr_state) (idx v j : Z) (e : Irq.t)
    : Irq.t :=
  if named_by idx v j then Irq.set_distr_state st e else e.

(** The distributor has the interrupt [irq] ENABLED, as a test. *)
Definition enabled_in (w : Vmm) (irq : Z) : bool :=
  match at_index (_irqs w) irq with
  | Some e => bool_decide (Irq.distr_state e = Irq.ENABLED)
  | None => false
  end.

(** ** Further example states *)

(** The guest loads the word at offset 0x18 of the UART, its flag
    register, into r2, and stores the low byte of r1 to offset 0, the data
    register, in [world0], where r1 holds the machine type and r2 the
    address of the device tree. *)
Definition world_uart_load : Vmm := world_trap 0x91820000 0x1c0900 0x18.
Definition world_uart_store : Vmm := world_trap 0x91010040 0x1c0900 0.

(** [world0] with the general-purpose registers [l]. *)
Definition world_regs (l : list Z) : Vmm :=
  set_state (set_regs l (_state world0)) world0.

(** [world0] with the byte 65 waiting in the receive buffer of the UART
    and every interrupt of the UART masked. *)
Definition world_rx_waiting : Vmm :=
  set_uart (Pl011.set_imsc 0 (Pl011.set_rx_buf [65] Pl011.new)) world0.

(** [world0] once the guest has enabled the interrupt of the UART. *)
Definition world_uart_enabled : Vmm :=
  state_after (Gic._enable_irq (@PL011_0_IRQ vea9x4_board)) world0.

(** The guest sleeps, the virtual-timer interrupt being enabled. *)
Definition world_asleep : Vmm := set_active false world_timer_enabled.

(** The virtual-timer interrupt, enabled, has been injected and the guest
    has not yet signalled its end. *)
Definition world_timer_injected : Vmm :=
  state_after (Gic.inject_irq VT_TIMER_IRQ) world_timer_enabled.

(** The interrupt of the UART, enabled, has been injected; then the guest
    has executed WFI (syndrome 0x04000000) and sleeps, list register 0
    still holding the interrupt. *)
Definition world_uart_in_flight : Vmm :=
  state_after (Gic.inject_irq (@PL011_0_IRQ vea9x4_board)) world_uart_enabled.

Definition world_uart_asleep : Vmm :=
  @Vmm_handlers.handle spec_modes vea9x4_board the_cp15
    (@the_device_tree vea9x4_board) Vmm_handlers._handle
    (trapped 0x04000000 0 0 world_uart_in_flight).


(** The entries of the virtual-timer interrupt and of the interrupt of the
    UART as the constructor leaves them. *)
Definition timer_entry : Irq.t :=
  Irq.Build Irq.INACTIVE Irq.DISABLED (Some Timer_dev) true.
Definition uart_entry : Irq.t :=
  Irq.Build Irq.INACTIVE Irq.DISABLED (Some Uart_dev) false.

(** * Properties *)

(** ** What a call leaves alone *)

Lemma keeps_ret {S A B} (f : S -> B) (a : A) : keeps f (ret a).
Proof. intros s. reflexivity. Qed.

Lemma keeps_throw {S A B} (f : S -> B) e : keeps f (@throw S A e).
Proof. intros s. reflexivity. Qed.

Lemma keeps_gets {S A B} (f : S -> B) (g : S -> A) : keeps f (gets g).
Proof. intros s. reflexivity. Qed.

Lemma keeps_bind {S A B C} (f : S -> C) (m : M S A) (k : A -> M S B) :
  keeps f m -> (forall a, keeps f (k a)) -> keeps f (bind m k).
Proof.
  intros Hm Hk s. unfold bind. specialize (Hm s).
  destruct (m s) as [s' [a|e]]; simpl in *.
  - rewrite Hk. exact Hm.
  - exact Hm.
Qed.

Lemma keeps_modify {S B} (f : S -> B) (g : S -> S) :
  (forall s, f (g s) = f s) -> keeps f (modify g).
Proof. intros H s. apply H. Qed.

Lemma keeps_for_each {S B} (f : S -> B) l (body : Z -> M S unit) :
  (forall i, keeps f (body i)) -> keeps f (for_each l body).
Proof.
  intros H. induction l as [|i l IH]; simpl.
  - apply keeps_ret.
  - apply keeps_bind; auto.
Qed.

Lemma keeps_for_until {S B} (f : S -> B) l (body : Z -> M S bool) :
  (forall i, keeps f (body i)) -> keeps f (for_until l body).
Proof.
  intros H. induction l as [|i l IH]; simpl.
  - apply keeps_ret.
  - apply keeps_bind; auto. intros [|]; [apply keeps_ret | exact IH].
Qed.

Lemma keeps_if {S A B} (f : S -> B) (b : bool) (m1 m2 : M S A) :
  keeps f m1 -> keeps f m2 -> keeps f (if b then m1 else m2).
Proof. destruct b; auto. Qed.

Lemma keeps_upd_state {B} (f : Vmm -> B) (g : State -> State) :
  (forall w, f (set_state (g (_state w)) w) = f w) -> keeps f (upd_state g).
Proof. intros H w. apply H. Qed.

Lemma keeps_irq_at {B} (f : Vmm -> B) irq : keeps f (Gic.irq_at irq).
Proof. intros w. unfold Gic.irq_at. destruct (at_index _ _); reflexivity. Qed.

Lemma keeps_lr_at {B} (f : Vmm -> B) i : keeps f (Gic.lr_at i).
Proof. intros w. unfold Gic.lr_at. destruct (at_index _ _); reflexivity. Qed.

Lemma keeps_update_irq {B} (f : Vmm -> B) irq g :
  (forall w l, f (set_irqs l w) = f w) -> keeps f (Gic.update_irq irq g).
Proof.
  intros H w. unfold Gic.update_irq. destruct (at_index _ _); simpl; auto.
Qed.

Lemma keeps_set_lr {B} (f : Vmm -> B) i v :
  (forall w l, f (set_state (set_gic_lr l (_state w)) w) = f w) ->
  keeps f (Gic.set_lr i v).
Proof.
  intros H w. unfold Gic.set_lr. destruct (at_index _ _); simpl; auto.
Qed.

(** Breaking a call down into the steps above. *)
Ltac keeps_step :=
  first
    [ apply keeps_ret | apply keeps_throw | apply keeps_gets
    | apply keeps_irq_at | apply keeps_lr_at
    | apply keeps_for_each; intros ? | apply keeps_for_until; intros ?
    | apply keeps_bind; [| intros ?]
    | apply keeps_if
    | apply keeps_update_irq; intros ? ?; reflexivity
    | apply keeps_set_lr; intros ? ?; reflexivity
    | apply keeps_upd_state; intros ?; reflexivity
    | apply keeps_modify; intros ?; reflexivity
    | match goal with
      | |- keeps _ (match ?x with _ => _ end) => destruct x
      end ].

Ltac keeps_tac := repeat keeps_step.

Lemma inject_irq_keeps_timer irq :
  keeps (fun w => (timer_ctrl (_state w), timer_val (_state w)))
        (Gic.inject_irq irq).
Proof.
  unfold Gic.inject_irq, Gic._inject_irq, Gic._inject_irq_scan,
    Gic._inject_irq_fill, interrupt.
  keeps_tac.
Qed.

Lemma set_state_id (w : Vmm) : set_state (_state w) w = w.
Proof. destruct w; reflexivity. Qed.

Lemma on_state_unchanged {A} (m : M State A) (w : Vmm) (a : result A) :
  m (_state w) = (_state w, a) -> on_state m w = (w, a).
Proof. intros H. unfold on_state. rewrite H, set_state_id. reflexivity. Qed.

Lemma bind_ok {S A B} (m : M S A) (k : A -> M S B) s s' a :
  m s = (s', Ok a) -> bind m k s = k a s'.
Proof. intros H. unfold bind. rewrite H. reflexivity. Qed.

Lemma bind_throw {S A B} (m : M S A) (k : A -> M S B) s s' e :
  m s = (s', Throw e) -> bind m k s = (s', Throw e).
Proof. intros H. unfold bind. rewrite H. reflexivity. Qed.

(** ** Banked registers *)

Section Banked_registers.

Context {modes : Mode_state.Mode}.

(** A register other than 13 and 14 is the general-purpose register of
    that number, whatever the mode. *)
Lemma r_gp (s : State) (i : Z) : i <> 13 -> i <> 14 -> r s i = Gp i.
Proof.
  intros H13 H14. unfold r.
  destruct (Z.eqb_spec i 13); [contradiction|].
  destruct (Z.eqb_spec i 14); [contradiction|]. reflexivity.
Qed.

(** In a mode for which [mode_offset] names a banked set, 13 and 14 are
    the [sp] and [lr] of that set. *)
Lemma r_banked (s : State) :
  0 <= mode_offset (cpsr s) < 2 ^ 32 ->
  r s 13 = Mode_sp (mode_offset (cpsr s)) /\
  r s 14 = Mode_lr (mode_offset (cpsr s)).
Proof.
  intros H. unfold r, u32. rewrite Z.mod_small by exact H.
  destruct (Z.ltb_spec (mode_offset (cpsr s)) 0); [lia|]. split; reflexivity.
Qed.

(** In every other mode [mode_offset] is -1, which the [unsigned] local of
    [r] holds as 4294967295: the test [mo < 0] fails and 13 and 14 are
    taken from [mode[4294967295]]. *)
Lemma r_unbanked (s : State) :
  mode_offset (cpsr s) = -1 ->
  r s 13 = Mode_sp 4294967295 /\ r s 14 = Mode_lr 4294967295.
Proof. intros H. unfold r. rewrite H. split; reflexivity. Qed.

(** C1, where the code departs from it: in USR mode (CPSR 0x10) and in SYS
    mode (CPSR 0x1f) the accessor does not resolve 13 and 14 to the
    top-level [sp] and [lr] but to the [sp] and [lr] of entry 4294967295
    of the banked sets, whatever the indices of the five banked sets
    are. *)
Theorem r_usr_sys_not_top_level (s : State) :
  r (set_cpsr 0x10 s) 13 = Mode_sp 4294967295 /\
  r (set_cpsr 0x10 s) 14 = Mode_lr 4294967295 /\
  r (set_cpsr 0x1f s) 13 = Mode_sp 4294967295 /\
  r (set_cpsr 0x1f s) 14 = Mode_lr 4294967295 /\
  Mode_sp 4294967295 <> top_sp /\ Mode_lr 4294967295 <> top_lr.
Proof. repeat split; discriminate. Qed.

End Banked_registers.

(** ** Timer *)


(** ** Trap decoder *)

Section Trap_decoder.

Context {modes : Mode_state.Mode}.

Variable _cp15 : Avl Coprocessor.Register.
Variable _device_tree : Avl Device.

(** C10: a trap of class WFI whose syndrome has bit 0 set raises the
    exception at once: nothing of the state has changed, so the VCPU has
    not been halted, no timeout has been asked for and the PC is where it
    was. *)
Theorem wfe_raises_before_any_effect (w : Vmm) :
  Bitfield.get Hsr.Ec (hsr (_state w)) = Hsr.WFI ->
  Z.land (hsr (_state w)) 1 <> 0 ->
  Vmm_handlers._handle_trap _cp15 _device_tree w = (w, Throw WfeNotImplemented)
  /\ _active (state_after (Vmm_handlers._handle_trap _cp15 _device_tree) w)
     = _active w
  /\ timer_once (state_after (Vmm_handlers._handle_trap _cp15 _device_tree) w)
     = timer_once w
  /\ ip (_state (state_after (Vmm_handlers._handle_trap _cp15 _device_tree) w))
     = ip (_state w).
Proof.
  intros Hec Hbit.
  assert (Vmm_handlers._handle_trap _cp15 _device_tree w
          = (w, Throw WfeNotImplemented)) as E.
  { unfold Vmm_handlers._handle_trap, bind, gets. rewrite Hec. simpl.
    unfold Vmm_handlers._handle_wfi, bind, gets.
    destruct (Z.eqb_spec (Z.land (hsr (_state w)) 1) 0); [contradiction|].
    reflexivity. }
  unfold state_after. rewrite E. repeat split; reflexivity.
Qed.

(** C6, where the code departs from it: for a CP15 trap whose encoding is
    not in the register file, and for a write to a register that is not
    writeable, [handle_trap] answers [false] and [_handle_trap] drops the
    answer.  No exception is raised and the dispatch goes on; the state,
    and with it the PC, is unchanged. *)
Theorem cp15_failure_is_dropped (w : Vmm) :
  Bitfield.get Hsr.Ec (hsr (_state w)) = Hsr.CP15 ->
  (Coprocessor.find_by_encoding _cp15
     (Coprocessor.Iss.mask_encoding (hsr (_state w))) = None
   \/ exists reg,
        Coprocessor.find_by_encoding _cp15
          (Coprocessor.Iss.mask_encoding (hsr (_state w))) = Some reg
        /\ Coprocessor._writeable reg = false
        /\ Bitfield.get Coprocessor.Iss.Direction (hsr (_state w)) = 0) ->
  Coprocessor.handle_trap _cp15 (_state w) = (_state w, Ok false) /\
  Vmm_handlers._handle_trap _cp15 _device_tree w = (w, Ok tt).
Proof.
  intros Hec Hcase.
  assert (Coprocessor.handle_trap _cp15 (_state w) = (_state w, Ok false))
    as E.
  { unfold Coprocessor.handle_trap, bind, gets.
    destruct Hcase as [Hnone | (reg & Hreg & Hw & Hdir)].
    - rewrite Hnone. reflexivity.
    - rewrite Hreg, Hdir, Hw. reflexivity. }
  split; [exact E|].
  unfold Vmm_handlers._handle_trap, bind, gets. rewrite Hec. simpl.
  rewrite (on_state_unchanged _ _ _ E). reflexivity.
Qed.

End Trap_decoder.

(** ** CP15 register file *)

Lemma find_by_encoding_In (t : Avl Coprocessor.Register) e reg :
  Coprocessor.find_by_encoding t e = Some reg -> In reg (elements t).
Proof.
  induction t as [|l IHl x h IHh]; simpl; [discriminate|].
  intros H. apply in_or_app. simpl.
  destruct (e =? Coprocessor._encoding x).
  - injection H as ->. right. left. reflexivity.
  - destruct (e >? Coprocessor._encoding x); simpl in H; auto.
Qed.

(** No member of the state backs both a register that is writeable and one
    that is not. *)
Lemma no_shared_field reg reg' :
  In reg Cp15._regs -> In reg' Cp15._regs ->
  Coprocessor._writeable reg = false -> Coprocessor._writeable reg' = true ->
  Coprocessor._r reg <> Coprocessor._r reg'.
Proof.
  intros Hin Hin' Hro Hrw Heq.
  assert (existsb (fun a => existsb (shared_field a) Cp15._regs) Cp15._regs
          = false) as Hnone by (vm_compute; reflexivity).
  assert (existsb (fun a => existsb (shared_field a) Cp15._regs) Cp15._regs
          = true) as Hsome.
  { apply existsb_exists. exists reg. split; [exact Hin|].
    apply existsb_exists. exists reg'. split; [exact Hin'|].
    unfold shared_field. rewrite Hro, Hrw. simpl.
    apply bool_decide_eq_true. exact Heq. }
  congruence.
Qed.

(** The constructor leaves every register's reset value in its member. *)
Lemma Cp15_new_reset_values (block : State) :
  Forall (fun reg => cp15 (state_after Cp15.new block) (Coprocessor._r reg)
                     = Coprocessor._init_value reg) Cp15._regs.
Proof. repeat constructor. Qed.

Lemma load_keeps_cp15 l : keeps cp15 (load l).
Proof.
  intros s. unfold load.
  destruct l; destruct (at_index _ _); reflexivity.
Qed.

Lemma store_keeps_cp15 l v : keeps cp15 (store l v).
Proof.
  intros s. unfold store.
  destruct l; destruct (at_index _ _); reflexivity.
Qed.

Section Cp15_write_protection.

Context {modes : Mode_state.Mode}.

Variable t : Avl Coprocessor.Register.
Hypothesis t_regs : forall reg, In reg (elements t) -> In reg Cp15._regs.

Lemma handle_trap_read_only_intact (s : State) :
  read_only_intact s ->
  read_only_intact (state_after (Coprocessor.handle_trap t) s).
Proof.
  intros Hs reg Hin Hro. rewrite <- (Hs reg Hin Hro).
  unfold state_after, Coprocessor.handle_trap, bind, gets.
  destruct (Coprocessor.find_by_encoding t _) as [reg'|] eqn:Hfind;
    [|reflexivity].
  apply find_by_encoding_In, t_regs in Hfind.
  destruct (negb (_ =? 0)).
  - unfold Coprocessor.read, gets.
    pose proof (store_keeps_cp15
      (r s (Bitfield.get Coprocessor.Iss.Register (hsr s)))
      (cp15 s (Coprocessor._r reg')) s) as Hk.
    destruct (store _ _ s) as [s' [[]|e]]; simpl in *; rewrite <- Hk;
      reflexivity.
  - destruct (Coprocessor._writeable reg') eqn:Hrw; simpl; [|reflexivity].
    pose proof (load_keeps_cp15
      (r s (Bitfield.get Coprocessor.Iss.Register (hsr s))) s) as Hk.
    destruct (load _ s) as [s' [v|e]]; simpl in *; rewrite <- Hk;
      [|reflexivity].
    unfold write_field. simpl.
    destruct (decide (Coprocessor._r reg = Coprocessor._r reg')) as [E|];
      [|reflexivity].
    exfalso. exact (no_shared_field reg reg' Hin Hfind Hro Hrw E).
Qed.

Lemma cp15_traps_read_only_intact xs (s : State) :
  read_only_intact s -> read_only_intact (cp15_traps t xs s).
Proof.
  revert s. induction xs as [|x xs IH]; intros s Hs; [exact Hs|].
  simpl. apply IH. apply handle_trap_read_only_intact.
  intros reg Hin Hro. exact (Hs reg Hin Hro).
Qed.

(** C7: the registers that are not writeable are the ten the spec lists,
    and after the constructor and any sequence of CP15 write traps, each
    on whatever registers and mode the guest has by then, the member of
    the state that backs such a register holds its reset value. *)
Theorem read_only_registers_keep_reset_value
    (xs : list Guest_exit) (block : State) (reg : Coprocessor.Register) :
  Forall is_cp15_write xs ->
  In reg Cp15._regs ->
  Coprocessor._writeable reg = false ->
  cp15 (cp15_traps t xs (state_after Cp15.new block)) (Coprocessor._r reg)
    = Coprocessor._init_value reg
  /\ map Coprocessor._name
       (filter (fun reg => Coprocessor._writeable reg = false) Cp15._regs)
     = ["MIDR"; "MPIDR"; "CTR"; "CCSIDR"; "CLIDR"; "PFR0"; "MMFR0"; "ISAR0";
        "ISAR3"; "ISAR4"]%string.
Proof.
  intros _ Hin Hro. split; [|reflexivity].
  apply cp15_traps_read_only_intact; [|exact Hin|exact Hro].
  intros reg' Hin' _.
  pose proof (Cp15_new_reset_values block) as Hall.
  rewrite Forall_forall in Hall. apply Hall. apply list_elem_of_In. exact Hin'.
Qed.

End Cp15_write_protection.

(** ** Data aborts *)

Lemma find_by_addr_sound (t : Avl Device) a d :
  (forall x, In x (elements t) ->
     0 <= addr x /\ 0 < size x /\ addr x + size x < 2 ^ 64) ->
  Device_base.find_by_addr t a = Some d ->
  In d (elements t) /\ serves d a.
Proof.
  induction t as [|l IHl x h IHh]; simpl; [discriminate|].
  intros Hok H.
  assert (forall y, In y (elements l) -> In y (elements l ++ x :: elements h))
    as Hl by (intros; apply in_or_app; left; assumption).
  assert (forall y, In y (elements h) -> In y (elements l ++ x :: elements h))
    as Hh by (intros; apply in_or_app; right; right; assumption).
  assert (In x (elements l ++ x :: elements h))
    as Hx by (apply in_or_app; right; left; reflexivity).
  destruct ((a >=? addr x) && (a <? u64 (addr x + size x))) eqn:Hin.
  - injection H as <-. split; [exact Hx|].
    apply andb_true_iff in Hin as [H1 H2].
    destruct (Hok x Hx) as (? & ? & ?).
    unfold u64 in H2. rewrite Z.mod_small in H2 by lia.
    unfold serves. lia.
  - destruct (a >? addr x); simpl in H.
    + destruct (IHh (fun y Hy => Hok y (Hh y Hy)) H). auto.
    + destruct (IHl (fun y Hy => Hok y (Hl y Hy)) H). auto.
Qed.

Lemma find_by_addr_complete (t : Avl Device) a d :
  device_tree_ok t -> In d (elements t) -> serves d a ->
  Device_base.find_by_addr t a = Some d.
Proof.
  induction t as [|l IHl x h IHh]; simpl; [contradiction|].
  intros (Hord & Hok & Hdisj) Hd Hserves.
  destruct Hord as (Hlow & Hhigh & Hsl & Hsh).
  assert (forall y, In y (elements l) -> In y (elements l ++ x :: elements h))
    as Hl by (intros; apply in_or_app; left; assumption).
  assert (forall y, In y (elements h) -> In y (elements l ++ x :: elements h))
    as Hh by (intros; apply in_or_app; right; right; assumption).
  assert (In x (elements l ++ x :: elements h))
    as Hx by (apply in_or_app; right; left; reflexivity).
  destruct (Hok x Hx) as (Hx0 & Hx1 & Hx2).
  destruct (Hok d Hd) as (Hd0 & Hd1 & Hd2).
  unfold serves in Hserves.
  unfold u64. rewrite Z.mod_small by lia.
  destruct (Z.geb_spec a (addr x)) as [Hge|Hlt];
    [destruct (Z.ltb_spec a (addr x + size x)) as [Hin|Hout]|]; simpl.
  - (* the root serves [a]: it is [d] *)
    destruct (Hdisj d x Hd Hx) as [->|[?|?]]; [reflexivity|lia|lia].
  - (* [a] lies beyond the root *)
    assert (In d (elements h)) as Hdh.
    { apply in_app_or in Hd as [Hd|[->|Hd]]; [|lia|exact Hd].
      pose proof (Hlow d Hd).
      destruct (Hdisj d x (Hl d Hd) Hx) as [->|[?|?]]; lia. }
    destruct (Z.gtb_spec a (addr x)) as [_|?]; [|lia]. simpl.
    apply IHh; [|exact Hdh|exact Hserves].
    split; [exact Hsh|]. split; intros; auto.
  - (* [a] lies before the root *)
    assert (In d (elements l)) as Hdl.
    { apply in_app_or in Hd as [Hd|[->|Hd]]; [exact Hd|lia|].
      pose proof (Hhigh d Hd). lia. }
    destruct (Z.gtb_spec a (addr x)) as [?|_]; [lia|]. simpl.
    apply IHl; [|exact Hdl|exact Hserves].
    split; [exact Hsl|]. split; intros; auto.
Qed.

Lemma find_by_addr_none (t : Avl Device) a :
  device_tree_ok t ->
  (forall d, In d (elements t) -> ~ serves d a) ->
  Device_base.find_by_addr t a = None.
Proof.
  intros (_ & Hok & _) Hnone.
  destruct (Device_base.find_by_addr t a) as [d|] eqn:Hfind; [|reflexivity].
  destruct (find_by_addr_sound t a d Hok Hfind) as [Hin Hserves].
  exfalso. exact (Hnone d Hin Hserves).
Qed.

Section Data_abort.

Context {modes : Mode_state.Mode}.

(** C5, amended: the address the handler looks up is [hpfar << 8], the
    base of the faulting page, with nothing of [hdfar] in it.  On a device
    tree that is ordered and whose ranges are disjoint, the handler fails
    with [NoDeviceAtIPA], the state untouched, when no device serves that
    address; when the device [d] serves it, the handler is
    [handle_memory_access] of [d] on the whole state, followed on success
    by the advance of the PC. *)
Theorem data_abort_dispatch (t : Avl Device) (w : Vmm) :
  device_tree_ok t ->
  ((forall d, In d (elements t) ->
      ~ serves d (Z.shiftl (u64 (hpfar (_state w))) 8)) ->
   Vmm_handlers._handle_data_abort t w
   = (w, Throw (NoDeviceAtIPA (Z.shiftl (u64 (hpfar (_state w))) 8))))
  /\
  (forall d, In d (elements t) ->
     serves d (Z.shiftl (u64 (hpfar (_state w))) 8) ->
     Vmm_handlers._handle_data_abort t w
     = (Device_base.handle_memory_access d ;; upd_state advance_ip) w).
Proof.
  intros Hok. split.
  - intros Hnone. unfold Vmm_handlers._handle_data_abort, bind, gets.
    rewrite (find_by_addr_none t _ Hok Hnone). reflexivity.
  - intros d Hin Hserves.
    unfold Vmm_handlers._handle_data_abort, bind, gets.
    rewrite (find_by_addr_complete t _ d Hok Hin Hserves). reflexivity.
Qed.

End Data_abort.

(** ** UART *)



Lemma inject_irq_keeps_uart irq : keeps _uart (Gic.inject_irq irq).
Proof.
  unfold Gic.inject_irq, Gic._inject_irq, Gic._inject_irq_scan,
    Gic._inject_irq_fill, interrupt.
  keeps_tac.
Qed.

Section Uart_reads.

Context {board : Board}.


End Uart_reads.

(** ** Bits *)

Lemma land_bit_testbit (a i : Z) :
  0 <= i -> (Z.land a (Z.shiftl 1 i) =? 0) = negb (Z.testbit a i).
Proof.
  intros Hi. rewrite Z.shiftl_1_l.
  destruct (Z.testbit a i) eqn:Hb; simpl.
  - apply Z.eqb_neq. intros H0.
    assert (Z.testbit (Z.land a (2 ^ i)) i = true) as Hbit.
    { rewrite Z.land_spec, Hb, Z.pow2_bits_true by lia. reflexivity. }
    rewrite H0, Z.bits_0 in Hbit. discriminate.
  - apply Z.eqb_eq. apply Z.bits_inj'. intros n Hn.
    rewrite Z.land_spec, Z.bits_0, Z.pow2_bits_eqb by lia.
    destruct (Z.eqb_spec i n) as [->|?].
    + rewrite Hb. reflexivity.
    + apply andb_false_r.
Qed.

Lemma elrsr_bit_testbit (s : State) (i : Z) :
  0 <= i -> Gic.elrsr_bit s i = Z.testbit (gic_elrsr0 s) i.
Proof.
  intros Hi. unfold Gic.elrsr_bit. rewrite land_bit_testbit by exact Hi.
  apply negb_involutive.
Qed.

Lemma testbit_setbit (a i j : Z) :
  0 <= i -> 0 <= j ->
  Z.testbit (Z.lor a (Z.shiftl 1 i)) j = Z.testbit a j || (i =? j).
Proof.
  intros Hi Hj. rewrite Z.lor_spec, Z.shiftl_1_l, Z.pow2_bits_eqb by lia.
  reflexivity.
Qed.

Lemma testbit_clearbit (a i j : Z) :
  0 <= i -> 0 <= j ->
  Z.testbit (Z.ldiff a (Z.shiftl 1 i)) j = Z.testbit a j && negb (i =? j).
Proof.
  intros Hi Hj. rewrite Z.ldiff_spec, Z.shiftl_1_l, Z.pow2_bits_eqb by lia.
  reflexivity.
Qed.

(** Indices of a loop. *)
Lemma in_range (n : nat) (i : Z) : In i (range n) <-> 0 <= i < Z.of_nat n.
Proof.
  unfold range. rewrite in_map_iff. split.
  - intros (k & <- & Hk). apply in_seq in Hk. lia.
  - intros Hi. exists (Z.to_nat i). split; [lia|]. apply in_seq. lia.
Qed.

Lemma at_index_Some {A} (l : list A) (i : Z) :
  0 <= i < Z.of_nat (length l) -> exists x, at_index l i = Some x.
Proof.
  intros Hi. unfold at_index.
  destruct (Z.leb_spec 0 i); [|lia].
  destruct (Z.ltb_spec i (Z.of_nat (length l))); [|lia]. simpl.
  apply lookup_lt_is_Some. lia.
Qed.

Lemma at_index_range {A} (l : list A) (i : Z) x :
  at_index l i = Some x -> 0 <= i < Z.of_nat (length l).
Proof.
  unfold at_index.
  destruct (Z.leb_spec 0 i); [|discriminate].
  destruct (Z.ltb_spec i (Z.of_nat (length l))); [|discriminate]. lia.
Qed.

Lemma at_index_insert {A} (l : list A) (i j : Z) (x : A) :
  0 <= i < Z.of_nat (length l) -> 0 <= j ->
  at_index (<[Z.to_nat i := x]> l) j =
    if i =? j then Some x else at_index l j.
Proof.
  intros Hi Hj. unfold at_index. rewrite length_insert.
  destruct (Z.eqb_spec i j) as [->|Hne].
  - destruct (Z.leb_spec 0 j); [|lia].
    destruct (Z.ltb_spec j (Z.of_nat (length l))); [|lia]. simpl.
    apply list_lookup_insert_eq. lia.
  - destruct ((0 <=? j) && (j <? Z.of_nat (length l))); [|reflexivity].
    apply list_lookup_insert_ne. lia.
Qed.

(** The fields of the value [_inject_irq] writes. *)
Lemma lr_value_fields (irq : Z) (eoi : bool) :
  0 <= irq < 1024 ->
  Bitfield.get Gic.Gich_lr.Virt_id (Gic.lr_value irq eoi) = irq /\
  Bitfield.get Gic.Gich_lr.Phys_id (Gic.lr_value irq eoi)
    = (if eoi then Z.shiftl 1 9 else 0) /\
  Bitfield.get Gic.Gich_lr.Prio (Gic.lr_value irq eoi) = 0 /\
  Bitfield.get Gic.Gich_lr.State (Gic.lr_value irq eoi) = 1 /\
  Bitfield.get Gic.Gich_lr.Hw (Gic.lr_value irq eoi) = 0.
Proof.
  intros Hirq.
  assert (forallb (fun irq => forallb (fun eoi =>
            (Bitfield.get Gic.Gich_lr.Virt_id (Gic.lr_value irq eoi) =? irq)
            && (Bitfield.get Gic.Gich_lr.Phys_id (Gic.lr_value irq eoi)
                =? (if eoi then Z.shiftl 1 9 else 0))
            && (Bitfield.get Gic.Gich_lr.Prio (Gic.lr_value irq eoi) =? 0)
            && (Bitfield.get Gic.Gich_lr.State (Gic.lr_value irq eoi) =? 1)
            && (Bitfield.get Gic.Gich_lr.Hw (Gic.lr_value irq eoi) =? 0))
            [true; false]) (range 1024) = true) as Hall
    by (vm_compute; reflexivity).
  rewrite forallb_forall in Hall.
  specialize (Hall irq (proj2 (in_range 1024 irq) Hirq)).
  rewrite forallb_forall in Hall.
  assert (In eoi [true; false]) as Heoi by (destruct eoi; simpl; auto).
  specialize (Hall eoi Heoi).
  repeat (apply andb_true_iff in Hall as [Hall ?]).
  repeat split; apply Z.eqb_eq; assumption.
Qed.

(** ** Injection into a list register *)

Lemma lr_at_ok (w : Vmm) (i : Z) :
  0 <= i < Z.of_nat (length (gic_lr (_state w))) ->
  Gic.lr_at i w = (w, Ok (lr_of (_state w) i)).
Proof.
  intros Hi. unfold Gic.lr_at, lr_of.
  destruct (at_index_Some (gic_lr (_state w)) i Hi) as [v ->]. reflexivity.
Qed.

Lemma set_lr_ok (w : Vmm) (i v : Z) :
  0 <= i < Z.of_nat (length (gic_lr (_state w))) ->
  Gic.set_lr i v w =
    (set_state (set_gic_lr (<[Z.to_nat i := v]> (gic_lr (_state w)))
                  (_state w)) w, Ok tt).
Proof.
  intros Hi. unfold Gic.set_lr.
  destruct (at_index_Some (gic_lr (_state w)) i Hi) as [x ->]. reflexivity.
Qed.

Lemma scan_spec (irq : Z) (l : list Z) (w : Vmm) :
  (forall i, In i l -> 0 <= i < Z.of_nat (length (gic_lr (_state w)))) ->
  for_until l (Gic._inject_irq_scan irq) w
  = (w, Ok (existsb (in_flight (_state w) irq) l)).
Proof.
  induction l as [|i l IH]; intros Hl; [reflexivity|].
  simpl. unfold bind at 1.
  assert (Gic._inject_irq_scan irq i w = (w, Ok (in_flight (_state w) irq i)))
    as ->.
  { unfold Gic._inject_irq_scan, in_flight, bind, gets.
    destruct (Gic.elrsr_bit (_state w) i); simpl; [reflexivity|].
    rewrite lr_at_ok by (apply Hl; left; reflexivity).
    destruct (_ =? irq); reflexivity. }
  destruct (in_flight (_state w) irq i); simpl; [reflexivity|].
  apply IH. intros j Hj. apply Hl. right. exact Hj.
Qed.

Lemma fill_spec (irq : Z) (eoi : bool) (l : list Z) (w : Vmm) :
  (forall i, In i l -> 0 <= i < Z.of_nat (length (gic_lr (_state w)))) ->
  for_until l (Gic._inject_irq_fill irq eoi) w
  = match find (Gic.elrsr_bit (_state w)) l with
    | Some i => (take_lr irq eoi i w, Ok true)
    | None => (w, Ok false)
    end.
Proof.
  induction l as [|i l IH]; intros Hl; [reflexivity|].
  simpl. unfold bind at 1.
  unfold Gic._inject_irq_fill at 1. unfold bind at 1, gets.
  destruct (Gic.elrsr_bit (_state w) i) eqn:Hbit; simpl.
  - unfold bind, upd_state, modify.
    rewrite set_lr_ok by (simpl; apply Hl; left; reflexivity).
    reflexivity.
  - apply IH. intros j Hj. apply Hl. right. exact Hj.
Qed.

Lemma find_ext_in {A} (f g : A -> bool) (l : list A) :
  (forall x, In x l -> f x = g x) -> find f l = find g l.
Proof.
  induction l as [|x l IH]; intros H; [reflexivity|]. simpl.
  rewrite (H x (or_introl eq_refl)). destruct (g x); [reflexivity|].
  apply IH. intros y Hy. apply H. right. exact Hy.
Qed.

Lemma existsb_ext_in {A} (f g : A -> bool) (l : list A) :
  (forall x, In x l -> f x = g x) -> existsb f l = existsb g l.
Proof.
  induction l as [|x l IH]; intros H; [reflexivity|]. simpl.
  rewrite (H x (or_introl eq_refl)). f_equal.
  apply IH. intros y Hy. apply H. right. exact Hy.
Qed.

Lemma elrsr_bit_clear_timer irq w i :
  Gic.elrsr_bit (_state (clear_timer_irq irq w)) i = Gic.elrsr_bit (_state w) i.
Proof. unfold clear_timer_irq. destruct (irq =? Gic.TIMER); reflexivity. Qed.

Lemma in_flight_clear_timer irq irq' w i :
  in_flight (_state (clear_timer_irq irq w)) irq' i
  = in_flight (_state w) irq' i.
Proof. unfold clear_timer_irq. destruct (irq =? Gic.TIMER); reflexivity. Qed.

Lemma gic_lr_clear_timer irq w :
  gic_lr (_state (clear_timer_irq irq w)) = gic_lr (_state w).
Proof. unfold clear_timer_irq. destruct (irq =? Gic.TIMER); reflexivity. Qed.

(** [_inject_irq] in one piece. *)
Lemma _inject_irq_spec (irq : Z) (eoi : bool) (w : Vmm) :
  length (gic_lr (_state w)) = NR_IRQ ->
  Gic._inject_irq irq eoi w =
    if existsb (in_flight (_state w) irq) (range NR_IRQ)
    then (clear_timer_irq irq w, Ok tt)
    else match find (Z.testbit (gic_elrsr0 (_state w))) (range NR_IRQ) with
         | Some i => (take_lr irq eoi i (clear_timer_irq irq w), Ok tt)
         | None => (clear_timer_irq irq w, Throw ListRegistersFull)
         end.
Proof.
  intros Hlen.
  assert (forall i, In i (range NR_IRQ) ->
            0 <= i < Z.of_nat (length (gic_lr (_state (clear_timer_irq irq w)))))
    as Hidx.
  { intros i Hi. rewrite gic_lr_clear_timer, Hlen. apply in_range. exact Hi. }
  unfold Gic._inject_irq. unfold bind at 1.
  assert ((if irq =? Gic.TIMER then upd_state (set_timer_irq false)
           else ret tt) w = (clear_timer_irq irq w, Ok tt)) as ->.
  { unfold clear_timer_irq. destruct (irq =? Gic.TIMER); reflexivity. }
  unfold bind at 1. rewrite (scan_spec irq _ _ Hidx).
  rewrite (existsb_ext_in _ (in_flight (_state w) irq))
    by (intros; apply in_flight_clear_timer).
  destruct (existsb _ _); [reflexivity|].
  unfold bind. rewrite (fill_spec irq eoi _ _ Hidx).
  rewrite (find_ext_in _ (Z.testbit (gic_elrsr0 (_state w)))).
  - destruct (find _ _); reflexivity.
  - intros i Hi. rewrite elrsr_bit_clear_timer.
    apply elrsr_bit_testbit. apply in_range in Hi. lia.
Qed.

Lemma find_first (P : Z -> bool) (len start k : nat) :
  (start <= k < start + len)%nat ->
  P (Z.of_nat k) = true ->
  (forall j, (start <= j < k)%nat -> P (Z.of_nat j) = false) ->
  find P (map Z.of_nat (seq start len)) = Some (Z.of_nat k).
Proof.
  revert start. induction len as [|len IH]; intros start Hk Hp Hbefore;
    [lia|].
  simpl. destruct (Nat.eq_dec start k) as [->|Hne].
  - rewrite Hp. reflexivity.
  - rewrite (Hbefore start) by lia. apply IH; [lia|exact Hp|].
    intros j Hj. apply Hbefore. lia.
Qed.

Lemma find_first_range (P : Z -> bool) (n : nat) (i : Z) :
  0 <= i < Z.of_nat n ->
  P i = true ->
  (forall j, 0 <= j < i -> P j = false) ->
  find P (range n) = Some i.
Proof.
  intros Hi Hp Hbefore. unfold range.
  rewrite <- (Z2Nat.id i) by lia. apply find_first.
  - lia.
  - rewrite Z2Nat.id by lia. exact Hp.
  - intros j Hj. apply Hbefore. lia.
Qed.

Lemma find_none_range (P : Z -> bool) (n : nat) :
  (forall j, 0 <= j < Z.of_nat n -> P j = false) -> find P (range n) = None.
Proof.
  intros H.
  destruct (find P (range n)) as [i|] eqn:Hfind; [|reflexivity].
  apply find_some in Hfind as [Hin Hp].
  apply in_range in Hin. rewrite (H i Hin) in Hp. discriminate.
Qed.

Lemma existsb_range_false (P : Z -> bool) (n : nat) :
  (forall j, 0 <= j < Z.of_nat n -> P j = false) ->
  existsb P (range n) = false.
Proof.
  intros H. destruct (existsb P (range n)) eqn:Hex; [|reflexivity].
  apply existsb_exists in Hex as (i & Hin & Hp).
  apply in_range in Hin. rewrite (H i Hin) in Hp. discriminate.
Qed.

Lemma existsb_range_true (P : Z -> bool) (n : nat) (i : Z) :
  0 <= i < Z.of_nat n -> P i = true -> existsb P (range n) = true.
Proof.
  intros Hi Hp. apply existsb_exists. exists i. split; [|exact Hp].
  apply in_range. exact Hi.
Qed.

Lemma take_lr_lr_of irq eoi i j w :
  0 <= i < Z.of_nat (length (gic_lr (_state w))) -> 0 <= j ->
  lr_of (_state (take_lr irq eoi i w)) j =
    if i =? j then Gic.lr_value irq eoi else lr_of (_state w) j.
Proof.
  intros Hi Hj. unfold lr_of, take_lr. simpl.
  rewrite at_index_insert by assumption.
  destruct (i =? j); reflexivity.
Qed.

Lemma take_lr_elrsr irq eoi i j w :
  0 <= i -> 0 <= j ->
  Z.testbit (gic_elrsr0 (_state (take_lr irq eoi i w))) j =
    Z.testbit (gic_elrsr0 (_state w)) j && negb (i =? j).
Proof. intros Hi Hj. apply testbit_clearbit; assumption. Qed.

(** ** Maintenance interrupt *)

Lemma virt_id_range (v : Z) :
  0 <= Bitfield.get Gic.Gich_lr.Virt_id v < 1024.
Proof.
  unfold Bitfield.get, Bitfield.mask. simpl Bitfield.width.
  rewrite Z.land_ones by lia. apply Z.mod_pos_bound. lia.
Qed.

Lemma irq_at_ok (w : Vmm) (irq : Z) (e : Irq.t) :
  at_index (_irqs w) irq = Some e -> Gic.irq_at irq w = (w, Ok e).
Proof. intros H. unfold Gic.irq_at. rewrite H. reflexivity. Qed.

Lemma update_irq_ok (w : Vmm) (irq : Z) (e : Irq.t) f :
  at_index (_irqs w) irq = Some e ->
  Gic.update_irq irq f w
  = (set_irqs (<[Z.to_nat irq := f e]> (_irqs w)) w, Ok tt).
Proof. intros H. unfold Gic.update_irq. rewrite H. reflexivity. Qed.

Lemma eoi_body_skip (i : Z) (w : Vmm) :
  0 <= i -> Z.testbit (gic_eisr (_state w)) i = false ->
  Gic._handle_eoi_body i w = (w, Ok tt).
Proof.
  intros Hi Hbit. unfold Gic._handle_eoi_body, bind, gets.
  rewrite land_bit_testbit, Hbit by exact Hi. reflexivity.
Qed.

Lemma eoi_body_retire (i : Z) (w : Vmm) :
  arrays_ok w -> 0 <= i < Z.of_nat NR_IRQ ->
  Z.testbit (gic_eisr (_state w)) i = true ->
  Bitfield.get Gic.Gich_lr.Virt_id (lr_of (_state w) i) <= Gic.MAX_IRQ ->
  Gic._handle_eoi_body i w = (retire_lr i w, Ok tt).
Proof.
  intros [Hlr Hirqs] Hi Hbit Hmax.
  pose proof (virt_id_range (lr_of (_state w) i)) as Hv.
  destruct (at_index_Some (_irqs w)
              (Bitfield.get Gic.Gich_lr.Virt_id (lr_of (_state w) i)))
    as [e He]; [lia|].
  unfold Gic._handle_eoi_body, retire_lr.
  erewrite bind_ok by reflexivity. cbv beta.
  rewrite land_bit_testbit, Hbit by lia. cbn [negb].
  erewrite bind_ok by (apply lr_at_ok; rewrite Hlr; exact Hi).
  destruct (Z.gtb_spec (Bitfield.get Gic.Gich_lr.Virt_id (lr_of (_state w) i))
              Gic.MAX_IRQ); [lia|].
  erewrite bind_ok by (apply set_lr_ok; rewrite Hlr; exact Hi).
  erewrite bind_ok by reflexivity.
  rewrite He.
  destruct (_ =? Gic.TIMER) eqn:Htimer.
  - destruct (bool_decide (Irq.distr_state e = Irq.ENABLED)) eqn:Hen;
      cbn [andb];
      (erewrite bind_ok;
         [|erewrite bind_ok;
             [|erewrite bind_ok by (apply irq_at_ok; exact He); reflexivity];
           rewrite Hen; reflexivity]);
      rewrite (update_irq_ok _ _ e) by exact He; reflexivity.
  - erewrite bind_ok by reflexivity.
    rewrite (update_irq_ok _ _ e) by exact He. reflexivity.
Qed.

Lemma eoi_progress_start (w0 : Vmm) : arrays_ok w0 -> eoi_progress w0 0 w0.
Proof.
  intros Hok. repeat split; try reflexivity; try apply Hok; intros; lia.
Qed.

Lemma eoi_progress_step (w0 w : Vmm) (n : Z) :
  eoi_progress w0 n w -> 0 <= n < Z.of_nat NR_IRQ ->
  (Z.testbit (gic_eisr (_state w0)) n = true ->
   Bitfield.get Gic.Gich_lr.Virt_id (lr_of (_state w0) n) <= Gic.MAX_IRQ) ->
  exists w', Gic._handle_eoi_body n w = (w', Ok tt)
             /\ eoi_progress w0 (n + 1) w'.
Proof.
  intros (Hok & Heisr & Hmisr & Hdistr & Hlater & Hdone) Hn Hmax.
  destruct (Z.testbit (gic_eisr (_state w0)) n) eqn:Hbit.
  - (* list register [n] is retired *)
    specialize (Hmax eq_refl).
    assert (lr_of (_state w) n = lr_of (_state w0) n) as Hlrn
      by (apply Hlater; lia).
    exists (retire_lr n w). split.
    { apply eoi_body_retire; [exact Hok|exact Hn| |].
      - rewrite Heisr. exact Hbit.
      - rewrite Hlrn. exact Hmax. }
    destruct Hok as [Hlr Hirqs].
    pose proof (virt_id_range (lr_of (_state w0) n)) as Hv.
    destruct (at_index_Some (_irqs w)
                (Bitfield.get Gic.Gich_lr.Virt_id (lr_of (_state w0) n)))
      as [e He]; [lia|].
    assert (0 <= Bitfield.get Gic.Gich_lr.Virt_id (lr_of (_state w0) n)
            < Z.of_nat (length (_irqs w))) as Hvi by lia.
    assert (0 <= n < Z.of_nat (length (gic_lr (_state w)))) as Hni
      by (rewrite Hlr; exact Hn).
    unfold retire_lr. rewrite Hlrn, He.
    set (raise := (_ =? Gic.TIMER) && bool_decide _).
    split; [|split; [|split; [|split; [|split]]]].
    + split; simpl.
      * destruct raise; simpl; rewrite length_insert; exact Hlr.
      * rewrite length_insert. exact Hirqs.
    + destruct raise; exact Heisr.
    + destruct raise; exact Hmisr.
    + intros irq. simpl. rewrite <- Hdistr.
      destruct (Z.le_gt_cases 0 irq) as [Hirq|Hirq].
      * rewrite at_index_insert by assumption.
        destruct (Z.eqb_spec
                    (Bitfield.get Gic.Gich_lr.Virt_id (lr_of (_state w0) n))
                    irq) as [<-|_]; [|reflexivity].
        rewrite He. reflexivity.
      * unfold at_index. destruct (Z.leb_spec 0 irq); [lia|]. reflexivity.
    + intros j Hj. rewrite <- (Hlater j) by lia.
      unfold lr_of. destruct raise; simpl;
        rewrite at_index_insert by lia;
        destruct (Z.eqb_spec n j); try lia; reflexivity.
    + intros k Hk Hbitk.
      destruct (Z.eq_dec k n) as [->|Hne].
      * (* the register just retired *)
        split; [|split; [|split]].
        -- unfold lr_of. destruct raise; simpl;
             rewrite at_index_insert by lia; rewrite Z.eqb_refl; reflexivity.
        -- assert (Z.testbit (Z.setbit (gic_elrsr0 (_state w)) n) n = true)
             as Hset by (apply Z.setbit_eq; lia).
           destruct raise; exact Hset.
        -- exists (Irq.set_cpu_state Irq.INACTIVE e). split; [|reflexivity].
           simpl. rewrite at_index_insert by lia.
           rewrite Z.eqb_refl. reflexivity.
        -- intros Htimer (e0 & He0 & Hen0).
           assert (raise = true) as ->.
           { unfold raise. rewrite Htimer, Z.eqb_refl. simpl.
             apply bool_decide_eq_true.
             pose proof (Hdistr Gic.TIMER) as Hd.
             rewrite <- Htimer, He in Hd. rewrite <- Htimer in He0.
             rewrite He0 in Hd. simpl in Hd. congruence. }
           reflexivity.
      * (* a register retired before *)
        destruct (Hdone k ltac:(lia) Hbitk) as (Hz & Hb & (ek & Hek & Hin) & Ht).
        split; [|split; [|split]].
        -- rewrite <- Hz. unfold lr_of. destruct raise; simpl;
             rewrite at_index_insert by lia;
             destruct (Z.eqb_spec n k); try lia; reflexivity.
        -- assert (Z.testbit (Z.setbit (gic_elrsr0 (_state w)) n) k = true)
             as Hset by (rewrite Z.setbit_neq by lia; exact Hb).
           destruct raise; exact Hset.
        -- simpl. rewrite at_index_insert
             by (pose proof (virt_id_range (lr_of (_state w0) k)); lia).
           destruct (Bitfield.get Gic.Gich_lr.Virt_id (lr_of (_state w0) n)
                     =? Bitfield.get Gic.Gich_lr.Virt_id (lr_of (_state w0) k)).
           ++ exists (Irq.set_cpu_state Irq.INACTIVE e). split; reflexivity.
           ++ exists ek. split; assumption.
        -- intros Htimer Hen. specialize (Ht Htimer Hen).
           destruct raise; [reflexivity|exact Ht].
  - (* bit [n] of [gic_eisr] is clear *)
    exists w. split.
    { apply eoi_body_skip; [lia|]. rewrite Heisr. exact Hbit. }
    split; [exact Hok|]. split; [exact Heisr|]. split; [exact Hmisr|].
    split; [exact Hdistr|]. split.
    + intros j Hj. apply Hlater. lia.
    + intros k Hk Hbitk. destruct (Z.eq_dec k n) as [->|Hne].
      * rewrite Hbit in Hbitk. discriminate.
      * apply Hdone; [lia|exact Hbitk].
Qed.

Lemma eoi_loop (w0 : Vmm) (len start : nat) (w : Vmm) :
  (start + len = NR_IRQ)%nat ->
  eoi_progress w0 (Z.of_nat start) w ->
  (forall i, 0 <= i < Z.of_nat NR_IRQ ->
     Z.testbit (gic_eisr (_state w0)) i = true ->
     Bitfield.get Gic.Gich_lr.Virt_id (lr_of (_state w0) i) <= Gic.MAX_IRQ) ->
  exists w', for_each (map Z.of_nat (seq start len)) Gic._handle_eoi_body w
             = (w', Ok tt)
             /\ eoi_progress w0 (Z.of_nat NR_IRQ) w'.
Proof.
  revert start w. induction len as [|len IH]; intros start w Hlen Hprog Hmax.
  - exists w. split; [reflexivity|].
    replace NR_IRQ with start by lia. exact Hprog.
  - destruct (eoi_progress_step w0 w (Z.of_nat start) Hprog) as (w1 & Hbody & H1).
    + lia.
    + intros Hbit. apply Hmax; [lia|exact Hbit].
    + destruct (IH (S start) w1) as (w' & Hloop & H').
      * lia.
      * replace (Z.of_nat (S start)) with (Z.of_nat start + 1) by lia.
        exact H1.
      * exact Hmax.
      * exists w'. split; [|exact H'].
        simpl. erewrite bind_ok by exact Hbody. exact Hloop.
Qed.

(** C4: when [gic_misr & 1] holds, the handling of the maintenance
    interrupt ends without exception and with [gic_misr] zero, and every
    list register whose bit of [gic_eisr] is set has been retired: it is
    zero, its bit of [gic_elrsr0] is set, the interrupt whose id it held
    is INACTIVE, and [timer_irq] is raised if that was the virtual-timer
    interrupt and the distributor has it enabled.  The list registers are
    the [NR_IRQ] of the state block, and those the host flags hold virtual
    ids within the interrupt table, as every list register does in the
    states the monitor reaches ([table_ok_calls] below): the monitor
    writes there the id of an interrupt of the table, or zero. *)
Theorem maintenance_retires_list_registers (w : Vmm) :
  arrays_ok w ->
  Z.land (gic_misr (_state w)) 1 <> 0 ->
  (forall i, 0 <= i < Z.of_nat NR_IRQ ->
     Z.testbit (gic_eisr (_state w)) i = true ->
     Bitfield.get Gic.Gich_lr.Virt_id (lr_of (_state w) i) <= Gic.MAX_IRQ) ->
  outcome Gic._handle_eoi w = Ok tt /\
  gic_misr (_state (state_after Gic._handle_eoi w)) = 0 /\
  forall i, 0 <= i < Z.of_nat NR_IRQ ->
    Z.testbit (gic_eisr (_state w)) i = true ->
    retired w i (state_after Gic._handle_eoi w).
Proof.
  intros Hok Hmisr Hmax.
  destruct (eoi_loop w NR_IRQ 0 w eq_refl (eoi_progress_start w Hok) Hmax)
    as (w' & Hloop & Hprog).
  assert (Gic._handle_eoi w = (set_state (set_gic_misr 0 (_state w')) w', Ok tt))
    as E.
  { unfold Gic._handle_eoi. erewrite bind_ok by reflexivity. cbv beta.
    destruct (Z.eqb_spec (Z.land (gic_misr (_state w)) 1) 0); [contradiction|].
    erewrite bind_ok by exact Hloop. reflexivity. }
  unfold outcome, state_after. rewrite E. simpl.
  split; [reflexivity|]. split; [reflexivity|].
  intros i Hi Hbit.
  destruct Hprog as (_ & _ & _ & _ & _ & Hdone).
  exact (Hdone i Hi Hbit).
Qed.

(** Without [gic_misr & 1] the handling does nothing at all. *)
Lemma maintenance_without_misr (w : Vmm) :
  Z.land (gic_misr (_state w)) 1 = 0 -> Gic._handle_eoi w = (w, Ok tt).
Proof.
  intros H. unfold Gic._handle_eoi. erewrite bind_ok by reflexivity.
  cbv beta. rewrite H. reflexivity.
Qed.

(** ** Pending interrupts and list registers *)

Lemma state_mark_pending irq e w : _state (mark_pending irq e w) = _state w.
Proof. unfold mark_pending. destruct (Irq.eoi e); reflexivity. Qed.

(** [inject_irq] in one piece. *)
Lemma inject_irq_spec (irq : Z) (e : Irq.t) (w : Vmm) :
  arrays_ok w -> at_index (_irqs w) irq = Some e ->
  Gic.inject_irq irq w =
    match Irq.device e with
    | None => (w, Throw UnknownInjection)
    | Some _ =>
        if bool_decide (Irq.cpu_state e = Irq.PENDING)
        then (w, Throw DoubleInject)
        else if bool_decide (Irq.distr_state e = Irq.DISABLED)
        then (mark_pending irq e w, Ok tt)
        else if existsb (in_flight (_state w) irq) (range NR_IRQ)
        then (set_active true (clear_timer_irq irq (mark_pending irq e w)),
              Ok tt)
        else match find (Z.testbit (gic_elrsr0 (_state w))) (range NR_IRQ) with
             | Some i =>
                 (set_active true
                    (take_lr irq (Irq.eoi e) i
                       (clear_timer_irq irq (mark_pending irq e w))), Ok tt)
             | None =>
                 (clear_timer_irq irq (mark_pending irq e w),
                  Throw ListRegistersFull)
             end
    end.
Proof.
  intros [Hlr Hirqs] He. unfold Gic.inject_irq.
  erewrite bind_ok by (apply irq_at_ok; exact He).
  destruct (Irq.device e); [|reflexivity].
  destruct (bool_decide (Irq.cpu_state e = Irq.PENDING)); [reflexivity|].
  assert ((if Irq.eoi e
           then Gic.update_irq irq (Irq.set_cpu_state Irq.PENDING)
           else ret tt) w = (mark_pending irq e w, Ok tt)) as Hmark.
  { unfold mark_pending. destruct (Irq.eoi e); [|reflexivity].
    apply update_irq_ok. exact He. }
  erewrite bind_ok by exact Hmark.
  destruct (bool_decide (Irq.distr_state e = Irq.DISABLED)); [reflexivity|].
  unfold bind. rewrite _inject_irq_spec
    by (rewrite state_mark_pending; exact Hlr).
  rewrite state_mark_pending.
  destruct (existsb _ _); [reflexivity|].
  destruct (find _ _); reflexivity.
Qed.

(** C3, amended.  Injecting an interrupt that is registered and enabled
    in the distributor: if it is already PENDING, the injection fails with
    [DoubleInject] and changes nothing.  Otherwise an interrupt that
    requires EOI is marked PENDING and [timer_irq] is cleared for the
    virtual-timer interrupt; then, if one of the list registers is
    occupied and holds this virtual id, the injection leaves the list
    registers and [gic_elrsr0] as they are and returns, but not without a
    change of state: the machine is marked active, and for an interrupt
    that neither requires EOI nor is the virtual-timer interrupt that is
    the only change; otherwise, if no bit of a list register is set in
    [gic_elrsr0], it fails with [ListRegistersFull]; otherwise the free
    list register [i] of lowest number receives virtual id [irq], physical
    id [1 << 9] if the interrupt requires EOI and 0 if not, priority 0 and
    state pending (1), bit [i] of [gic_elrsr0] is cleared, the other list
    registers and bits stay as they were, and the machine is marked
    active. *)
Theorem inject_irq_list_registers (w : Vmm) (irq : Z) (e : Irq.t) :
  arrays_ok w ->
  at_index (_irqs w) irq = Some e ->
  Irq.device e <> None ->
  Irq.distr_state e = Irq.ENABLED ->
  (Irq.cpu_state e = Irq.PENDING ->
   Gic.inject_irq irq w = (w, Throw DoubleInject))
  /\
  (Irq.cpu_state e <> Irq.PENDING ->
   let w0 := clear_timer_irq irq (mark_pending irq e w) in
   ((exists i, 0 <= i < Z.of_nat NR_IRQ /\ in_flight (_state w) irq i = true) ->
    Gic.inject_irq irq w = (set_active true w0, Ok tt)
    /\ gic_lr (_state w0) = gic_lr (_state w)
    /\ gic_elrsr0 (_state w0) = gic_elrsr0 (_state w)
    /\ (Irq.eoi e = false -> irq <> Gic.TIMER -> w0 = w))
   /\
   ((forall i, 0 <= i < Z.of_nat NR_IRQ -> in_flight (_state w) irq i = false) ->
    (forall i, 0 <= i < Z.of_nat NR_IRQ ->
       Z.testbit (gic_elrsr0 (_state w)) i = false) ->
    Gic.inject_irq irq w = (w0, Throw ListRegistersFull))
   /\
   (forall i,
      (forall j, 0 <= j < Z.of_nat NR_IRQ ->
         in_flight (_state w) irq j = false) ->
      0 <= i < Z.of_nat NR_IRQ ->
      Z.testbit (gic_elrsr0 (_state w)) i = true ->
      (forall j, 0 <= j < i -> Z.testbit (gic_elrsr0 (_state w)) j = false) ->
      let w' := state_after (Gic.inject_irq irq) w in
      outcome (Gic.inject_irq irq) w = Ok tt /\
      w' = set_active true (take_lr irq (Irq.eoi e) i w0) /\
      Bitfield.get Gic.Gich_lr.Virt_id (lr_of (_state w') i) = irq /\
      Bitfield.get Gic.Gich_lr.Phys_id (lr_of (_state w') i)
        = (if Irq.eoi e then Z.shiftl 1 9 else 0) /\
      Bitfield.get Gic.Gich_lr.Prio (lr_of (_state w') i) = 0 /\
      Bitfield.get Gic.Gich_lr.State (lr_of (_state w') i) = 1 /\
      Z.testbit (gic_elrsr0 (_state w')) i = false /\
      (forall j, 0 <= j -> j <> i ->
         lr_of (_state w') j = lr_of (_state w) j /\
         Z.testbit (gic_elrsr0 (_state w')) j
           = Z.testbit (gic_elrsr0 (_state w)) j))).
Proof.
  intros Hok He Hdev Hen.
  pose proof (inject_irq_spec irq e w Hok He) as Hspec.
  destruct (Irq.device e) as [d|]; [clear Hdev|contradiction].
  rewrite Hen in Hspec.
  change (bool_decide (Irq.ENABLED = Irq.DISABLED)) with false in Hspec.
  split.
  { intros Hp. rewrite Hspec, Hp. reflexivity. }
  intros Hnp w0.
  assert (bool_decide (Irq.cpu_state e = Irq.PENDING) = false) as Hnp'
    by (apply bool_decide_eq_false; exact Hnp).
  rewrite Hnp' in Hspec. cbv iota in Hspec. fold w0 in Hspec.
  assert (gic_lr (_state w0) = gic_lr (_state w)) as Hlr0
    by (unfold w0; rewrite gic_lr_clear_timer, state_mark_pending; reflexivity).
  assert (gic_elrsr0 (_state w0) = gic_elrsr0 (_state w)) as Hel0.
  { unfold w0, clear_timer_irq.
    destruct (irq =? Gic.TIMER); cbn [_state set_state gic_elrsr0 set_timer_irq];
      rewrite state_mark_pending; reflexivity. }
  assert (0 <= irq < 1024) as Hirq
    by (pose proof (at_index_range _ _ _ He); destruct Hok as [_ Hn];
        unfold Gic.MAX_IRQ in *; lia).
  split; [|split].
  - intros (i & Hi & Hheld). rewrite Hspec.
    rewrite (existsb_range_true _ _ i Hi Hheld).
    split; [reflexivity|]. split; [exact Hlr0|]. split; [exact Hel0|].
    intros Heoi Hnt. unfold w0, mark_pending, clear_timer_irq.
    rewrite Heoi. destruct (Z.eqb_spec irq Gic.TIMER); [contradiction|].
    reflexivity.
  - intros Hnone Hfull. rewrite Hspec.
    rewrite (existsb_range_false _ _ Hnone).
    rewrite (find_none_range _ _ Hfull). reflexivity.
  - intros i Hnone Hi Hfree Hfirst w'.
    assert (Gic.inject_irq irq w
            = (set_active true (take_lr irq (Irq.eoi e) i w0), Ok tt)) as E.
    { rewrite Hspec. rewrite (existsb_range_false _ _ Hnone).
      rewrite (find_first_range _ _ i Hi Hfree Hfirst). reflexivity. }
    assert (w' = set_active true (take_lr irq (Irq.eoi e) i w0)) as Ew'
      by (unfold w', state_after; rewrite E; reflexivity).
    assert (0 <= i < Z.of_nat (length (gic_lr (_state w0)))) as Hi'
      by (rewrite Hlr0; destruct Hok as [-> _]; exact Hi).
    destruct (lr_value_fields irq (Irq.eoi e) Hirq) as (Hv & Hp & Hpr & Hst & _).
    split; [unfold outcome; rewrite E; reflexivity|].
    split; [exact Ew'|].
    rewrite Ew'. cbn [_state set_active].
    rewrite (take_lr_lr_of irq (Irq.eoi e) i i _ Hi') by lia.
    rewrite Z.eqb_refl.
    split; [exact Hv|]. split; [exact Hp|]. split; [exact Hpr|].
    split; [exact Hst|]. split.
    + rewrite take_lr_elrsr by lia. rewrite Z.eqb_refl. apply andb_false_r.
    + intros j Hj Hne. split.
      * rewrite (take_lr_lr_of irq (Irq.eoi e) i j _ Hi') by lia.
        destruct (Z.eqb_spec i j); [lia|].
        unfold lr_of. rewrite Hlr0. reflexivity.
      * rewrite take_lr_elrsr by lia.
        destruct (Z.eqb_spec i j); [lia|]. simpl. rewrite andb_true_r.
        rewrite Hel0. reflexivity.
Qed.

Lemma in_flight_view (s s' : State) irq i :
  gic_lr s = gic_lr s' -> gic_elrsr0 s = gic_elrsr0 s' ->
  in_flight s irq i = in_flight s' irq i.
Proof.
  intros Hlr Hel. unfold in_flight, Gic.elrsr_bit, lr_of.
  rewrite Hlr, Hel. reflexivity.
Qed.

Lemma in_flight_consistent_view (w w' : Vmm) :
  gic_view w = gic_view w' ->
  in_flight_consistent w -> in_flight_consistent w'.
Proof.
  unfold gic_view. intros Hview (Hok & Hdistinct & Hheld).
  injection Hview as Hlr Hel Hirqs.
  assert (forall irq i, in_flight (_state w') irq i = in_flight (_state w) irq i)
    as Hsame by (intros; symmetry; apply in_flight_view; assumption).
  split; [|split].
  - unfold arrays_ok in *. rewrite <- Hlr, <- Hirqs. exact Hok.
  - intros irq i j Hi Hj. rewrite !Hsame. apply Hdistinct; assumption.
  - intros irq Heoi Hpend. unfold needs_eoi, is_pending in *.
    rewrite <- Hirqs in Heoi, Hpend.
    destruct (Hheld irq Heoi Hpend) as (i & Hi & Hin).
    exists i. split; [exact Hi|]. rewrite Hsame. exact Hin.
Qed.

Lemma mark_pending_entry irq e w irq' e' :
  at_index (_irqs w) irq = Some e ->
  at_index (_irqs (mark_pending irq e w)) irq' = Some e' ->
  (irq' = irq /\ Irq.eoi e' = Irq.eoi e)
  \/ (irq' <> irq /\ at_index (_irqs w) irq' = Some e')
  \/ (Irq.eoi e = false /\ at_index (_irqs w) irq' = Some e').
Proof.
  intros He He'. unfold mark_pending in He'.
  destruct (Irq.eoi e) eqn:Heoi; [|right; right; auto].
  simpl in He'.
  pose proof (at_index_range _ _ _ He) as Hirq.
  destruct (Z.le_gt_cases 0 irq') as [Hpos|Hneg].
  - rewrite at_index_insert in He' by lia.
    destruct (Z.eqb_spec irq irq') as [->|Hne].
    + injection He' as <-. left. split; [reflexivity|exact Heoi].
    + right. left. split; [congruence|exact He'].
  - unfold at_index in He'. destruct (Z.leb_spec 0 irq'); [lia|].
    discriminate.
Qed.

Lemma mark_pending_arrays irq e w :
  arrays_ok w -> arrays_ok (mark_pending irq e w).
Proof.
  intros [Hlr Hirqs]. unfold mark_pending, arrays_ok.
  destruct (Irq.eoi e); simpl; [|auto].
  rewrite length_insert. auto.
Qed.

(** The interrupt is marked and a list register already holds it. *)
Lemma consistent_mark_pending_held irq e w :
  in_flight_consistent w -> at_index (_irqs w) irq = Some e ->
  (exists i, 0 <= i < Z.of_nat NR_IRQ /\ in_flight (_state w) irq i = true) ->
  in_flight_consistent (mark_pending irq e w).
Proof.
  intros (Hok & Hdistinct & Hheld) He Hex.
  split; [apply mark_pending_arrays; exact Hok|].
  rewrite state_mark_pending. split; [exact Hdistinct|].
  intros irq' (e1 & He1 & Heoi1) (e2 & He2 & Hpend2).
  rewrite He1 in He2. injection He2 as <-.
  destruct (mark_pending_entry irq e w irq' e1 He He1)
    as [[-> _]|[[Hne Hold]|[_ Hold]]].
  - exact Hex.
  - apply Hheld; exists e1; auto.
  - apply Hheld; exists e1; auto.
Qed.

Lemma in_flight_take_lr irq eoi i w irq' j :
  0 <= i < Z.of_nat (length (gic_lr (_state w))) -> 0 <= irq < 1024 ->
  0 <= j ->
  in_flight (_state (take_lr irq eoi i w)) irq' j =
    if i =? j then irq =? irq' else in_flight (_state w) irq' j.
Proof.
  intros Hi Hirq Hj. unfold in_flight.
  rewrite !elrsr_bit_testbit by lia.
  rewrite take_lr_elrsr by lia. rewrite take_lr_lr_of by lia.
  destruct (Z.eqb_spec i j) as [->|Hne]; simpl.
  - rewrite andb_false_r. simpl.
    destruct (lr_value_fields irq eoi Hirq) as [-> _]. reflexivity.
  - rewrite andb_true_r. reflexivity.
Qed.

(** The interrupt is marked and takes the free list register [i]. *)
Lemma consistent_take_lr irq eoi e i w :
  in_flight_consistent w -> at_index (_irqs w) irq = Some e ->
  (forall j, 0 <= j < Z.of_nat NR_IRQ -> in_flight (_state w) irq j = false) ->
  0 <= i < Z.of_nat NR_IRQ ->
  Z.testbit (gic_elrsr0 (_state w)) i = true ->
  in_flight_consistent (take_lr irq eoi i (mark_pending irq e w)).
Proof.
  intros (Hok & Hdistinct & Hheld) He Hnone Hi Hfree.
  pose proof Hok as [Hlr Hirqs].
  assert (0 <= irq < 1024) as Hirq
    by (pose proof (at_index_range _ _ _ He); unfold Gic.MAX_IRQ in *; lia).
  assert (0 <= i < Z.of_nat (length (gic_lr (_state (mark_pending irq e w)))))
    as Hi' by (rewrite state_mark_pending, Hlr; exact Hi).
  assert (forall irq', in_flight (_state w) irq' i = false) as Hifree.
  { intros irq'. unfold in_flight.
    rewrite elrsr_bit_testbit, Hfree by lia. reflexivity. }
  split; [|split].
  - destruct (mark_pending_arrays irq e w Hok) as [Hlr' Hirqs'].
    split; simpl; [rewrite length_insert; exact Hlr'|exact Hirqs'].
  - intros irq' a b Ha Hb.
    rewrite !in_flight_take_lr by (assumption || lia).
    rewrite state_mark_pending.
    destruct (Z.eqb_spec i a) as [<-|Hna]; destruct (Z.eqb_spec i b) as [<-|Hnb].
    + reflexivity.
    + intros Heq Hb'. apply Z.eqb_eq in Heq as <-.
      rewrite Hnone in Hb' by exact Hb. discriminate.
    + intros Ha' Heq. apply Z.eqb_eq in Heq as <-.
      rewrite Hnone in Ha' by exact Ha. discriminate.
    + apply Hdistinct; assumption.
  - intros irq' (e1 & He1 & Heoi1) (e2 & He2 & Hpend2).
    simpl in He1, He2. rewrite He1 in He2. injection He2 as <-.
    assert (irq' = irq \/
            exists j, 0 <= j < Z.of_nat NR_IRQ
                      /\ in_flight (_state w) irq' j = true) as [->|Hold].
    { destruct (mark_pending_entry irq e w irq' e1 He He1)
        as [[-> _]|[[Hne Hold]|[_ Hold]]]; [left; reflexivity| |];
        right; apply Hheld; exists e1; auto. }
    + exists i. split; [exact Hi|].
      rewrite in_flight_take_lr by (assumption || lia).
      rewrite Z.eqb_refl. apply Z.eqb_refl.
    + destruct Hold as (j & Hj & Hin). exists j. split; [exact Hj|].
      rewrite in_flight_take_lr by (assumption || lia).
      rewrite state_mark_pending.
      destruct (Z.eqb_spec i j) as [<-|_]; [|exact Hin].
      rewrite Hifree in Hin. discriminate.
Qed.

Lemma in_flight_retire_lr i w e irq' j :
  0 <= i < Z.of_nat (length (gic_lr (_state w))) -> 0 <= j ->
  at_index (_irqs w)
    (Bitfield.get Gic.Gich_lr.Virt_id (lr_of (_state w) i)) = Some e ->
  in_flight (_state (retire_lr i w)) irq' j =
    if i =? j then false else in_flight (_state w) irq' j.
Proof.
  intros Hi Hj He. unfold retire_lr. rewrite He.
  set (raise := (_ =? Gic.TIMER) && bool_decide _).
  unfold in_flight. rewrite !elrsr_bit_testbit by lia.
  assert (Z.testbit (Z.setbit (gic_elrsr0 (_state w)) i) j
          = Z.testbit (gic_elrsr0 (_state w)) j || (i =? j)) as Hset
    by (apply testbit_setbit; lia).
  unfold lr_of.
  destruct raise; simpl; rewrite Hset, at_index_insert by lia;
    destruct (Z.eqb_spec i j); simpl;
    rewrite ?orb_true_r, ?orb_false_r; reflexivity.
Qed.

(** A list register is retired. *)
Lemma consistent_retire_lr i w :
  in_flight_consistent w -> 0 <= i < Z.of_nat NR_IRQ ->
  in_flight_consistent (retire_lr i w).
Proof.
  intros (Hok & Hdistinct & Hheld) Hi.
  pose proof Hok as [Hlr Hirqs].
  assert (0 <= i < Z.of_nat (length (gic_lr (_state w)))) as Hi'
    by (rewrite Hlr; exact Hi).
  destruct (at_index (_irqs w)
              (Bitfield.get Gic.Gich_lr.Virt_id (lr_of (_state w) i)))
    as [e|] eqn:He.
  2:{ unfold retire_lr. rewrite He. repeat split; assumption. }
  pose proof (at_index_range _ _ _ He) as Hrange.
  assert (forall irq' j, 0 <= j ->
            in_flight (_state (retire_lr i w)) irq' j =
              if i =? j then false else in_flight (_state w) irq' j) as Hfl
    by (intros; apply in_flight_retire_lr with (e := e); assumption).
  split; [|split].
  - unfold retire_lr. rewrite He.
    set (raise := (_ =? Gic.TIMER) && bool_decide _).
    split; simpl.
    + destruct raise; simpl; rewrite length_insert; exact Hlr.
    + rewrite length_insert. exact Hirqs.
  - intros irq' a b Ha Hb. rewrite !Hfl by lia.
    destruct (i =? a); [discriminate|]. destruct (i =? b); [discriminate|].
    apply Hdistinct; assumption.
  - intros irq' (e1 & He1 & Heoi1) (e2 & He2 & Hpend2).
    rewrite He1 in He2. injection He2 as <-.
    assert (_irqs (retire_lr i w)
            = <[Z.to_nat (Bitfield.get Gic.Gich_lr.Virt_id (lr_of (_state w) i))
                := Irq.set_cpu_state Irq.INACTIVE e]> (_irqs w)) as Hirqs'
      by (unfold retire_lr; rewrite He; reflexivity).
    rewrite Hirqs' in He1.
    assert (0 <= irq') as Hpos.
    { destruct (Z.le_gt_cases 0 irq') as [?|Hneg]; [assumption|].
      unfold at_index in He1. destruct (Z.leb_spec 0 irq'); [lia|].
      discriminate. }
    rewrite at_index_insert in He1 by lia.
    destruct (Z.eqb_spec (Bitfield.get Gic.Gich_lr.Virt_id (lr_of (_state w) i))
                irq') as [Heq|Hne].
    + injection He1 as <-. simpl in Hpend2. discriminate.
    + destruct (Hheld irq') as (j & Hj & Hin).
      * exists e1. auto.
      * exists e1. auto.
      * exists j. split; [exact Hj|]. rewrite Hfl by lia.
        destruct (Z.eqb_spec i j) as [<-|_]; [|exact Hin].
        unfold in_flight in Hin. apply andb_true_iff in Hin as [_ Hid].
        apply Z.eqb_eq in Hid. contradiction.
Qed.

Lemma eoi_body_throw (i : Z) (w : Vmm) :
  arrays_ok w -> 0 <= i < Z.of_nat NR_IRQ ->
  Z.testbit (gic_eisr (_state w)) i = true ->
  Gic.MAX_IRQ < Bitfield.get Gic.Gich_lr.Virt_id (lr_of (_state w) i) ->
  Gic._handle_eoi_body i w = (w, Throw IRQOutOfBounds).
Proof.
  intros [Hlr Hirqs] Hi Hbit Hmax. unfold Gic._handle_eoi_body.
  erewrite bind_ok by reflexivity. cbv beta.
  rewrite land_bit_testbit, Hbit by lia. cbn [negb].
  erewrite bind_ok by (apply lr_at_ok; rewrite Hlr; exact Hi).
  destruct (Z.gtb_spec (Bitfield.get Gic.Gich_lr.Virt_id (lr_of (_state w) i))
              Gic.MAX_IRQ); [reflexivity|lia].
Qed.

Lemma eoi_body_consistent (i : Z) (w : Vmm) :
  in_flight_consistent w -> 0 <= i < Z.of_nat NR_IRQ ->
  in_flight_consistent (fst (Gic._handle_eoi_body i w)).
Proof.
  intros Hinv Hi. pose proof Hinv as (Hok & _).
  destruct (Z.testbit (gic_eisr (_state w)) i) eqn:Hbit.
  - destruct (Z.le_gt_cases
                (Bitfield.get Gic.Gich_lr.Virt_id (lr_of (_state w) i))
                Gic.MAX_IRQ) as [Hle|Hgt].
    + rewrite eoi_body_retire by assumption. simpl.
      apply consistent_retire_lr; assumption.
    + rewrite eoi_body_throw by assumption. exact Hinv.
  - rewrite eoi_body_skip by (lia || assumption). exact Hinv.
Qed.

Lemma for_each_preserves {S} (P : S -> Prop) (l : list Z)
    (body : Z -> M S unit) :
  (forall i s, In i l -> P s -> P (fst (body i s))) ->
  forall s, P s -> P (fst (for_each l body s)).
Proof.
  induction l as [|i l IH]; intros Hbody s Hs; [exact Hs|].
  simpl. unfold bind.
  pose proof (Hbody i s (or_introl eq_refl) Hs) as H1.
  destruct (body i s) as [s1 [[]|e]]; simpl in *; [|exact H1].
  apply IH; [|exact H1]. intros j s' Hj. apply Hbody. right. exact Hj.
Qed.

Lemma handle_eoi_consistent (w : Vmm) :
  in_flight_consistent w -> in_flight_consistent (fst (Gic._handle_eoi w)).
Proof.
  intros Hinv. unfold Gic._handle_eoi. erewrite bind_ok by reflexivity.
  cbv beta. destruct (_ =? 0); [exact Hinv|].
  unfold bind.
  pose proof (for_each_preserves in_flight_consistent (range NR_IRQ)
                Gic._handle_eoi_body) as Hloop.
  specialize (Hloop (fun i s Hi Hs =>
    eoi_body_consistent i s Hs (proj1 (in_range NR_IRQ i) Hi)) w Hinv).
  destruct (for_each _ _ w) as [w1 [[]|e]]; simpl in *; [|exact Hloop].
  revert Hloop. apply in_flight_consistent_view. reflexivity.
Qed.

Lemma gic_step_consistent (ev : Gic_event) (w : Vmm) :
  in_flight_consistent w ->
  match ev with
  | Inject irq =>
      is_enabled w irq /\
      outcome (Gic.inject_irq irq) w <> Throw ListRegistersFull
  | Maintenance _ _ => True
  end ->
  in_flight_consistent (state_after (gic_step ev) w).
Proof.
  intros Hinv Hev. destruct ev as [irq|misr eisr]; unfold state_after;
    cbn [gic_step].
  - destruct Hev as [(e & He & Hen) Hnotfull].
    pose proof Hinv as (Hok & _ & _).
    unfold outcome in Hnotfull.
    rewrite (inject_irq_spec irq e w Hok He) in Hnotfull |- *.
    destruct (Irq.device e); [|exact Hinv].
    destruct (bool_decide (Irq.cpu_state e = Irq.PENDING)); [exact Hinv|].
    rewrite Hen in Hnotfull |- *.
    change (bool_decide (Irq.ENABLED = Irq.DISABLED)) with false
      in Hnotfull |- *.
    cbv iota in Hnotfull |- *.
    destruct (existsb (in_flight (_state w) irq) (range NR_IRQ)) eqn:Hheld.
    + cbn [fst]. apply existsb_exists in Hheld as (i & Hi & Hin).
      apply in_range in Hi.
      assert (in_flight_consistent (mark_pending irq e w)) as H1
        by (apply consistent_mark_pending_held; eauto).
      revert H1. apply in_flight_consistent_view.
      unfold gic_view, clear_timer_irq.
      destruct (irq =? Gic.TIMER); reflexivity.
    + destruct (find (Z.testbit (gic_elrsr0 (_state w))) (range NR_IRQ))
        as [i|] eqn:Hfind; [|exfalso; apply Hnotfull; reflexivity].
      cbn [fst]. apply find_some in Hfind as [Hi Hfree]. apply in_range in Hi.
      assert (in_flight_consistent
                (take_lr irq (Irq.eoi e) i (mark_pending irq e w))) as H1.
      { apply consistent_take_lr; try assumption.
        intros j Hj. destruct (in_flight (_state w) irq j) eqn:Hin;
          [|reflexivity].
        rewrite <- Hheld. symmetry. apply existsb_exists.
        exists j. split; [apply in_range; exact Hj|exact Hin]. }
      revert H1. apply in_flight_consistent_view.
      unfold gic_view, take_lr, clear_timer_irq.
      destruct (irq =? Gic.TIMER); reflexivity.
  - unfold bind, upd_state, modify.
    apply handle_eoi_consistent.
    revert Hinv. apply in_flight_consistent_view. reflexivity.
Qed.

Lemma gic_run_consistent (evs : list Gic_event) (w : Vmm) :
  in_flight_consistent w -> all_delivered evs w ->
  in_flight_consistent (gic_run evs w).
Proof.
  revert w. induction evs as [|ev evs IH]; intros w Hinv Hdel; [exact Hinv|].
  destruct Hdel as [Hev Hrest]. simpl. apply IH; [|exact Hrest].
  apply gic_step_consistent; assumption.
Qed.

(** C2, amended: start from a state in which the list registers agree
    with the interrupt table, as they do when the monitor is constructed,
    and run any sequence of injections and maintenance interrupts in which
    every injection is of an interrupt that is enabled in the distributor
    and none finds the list registers full.  Then for every interrupt
    that requires EOI and is PENDING, exactly one list register is
    occupied and holds its virtual id. *)
Theorem pending_is_in_one_list_register
    (evs : list Gic_event) (w : Vmm) (irq : Z) :
  in_flight_consistent w ->
  all_delivered evs w ->
  needs_eoi (gic_run evs w) irq ->
  is_pending (gic_run evs w) irq ->
  exactly_one_in_flight (_state (gic_run evs w)) irq.
Proof.
  intros Hinv Hdel Heoi Hpend.
  destruct (gic_run_consistent evs w Hinv Hdel) as (_ & Hdistinct & Hheld).
  destruct (Hheld irq Heoi Hpend) as (i & Hi & Hin).
  exists i. split; [exact Hi|]. split; [exact Hin|].
  intros j Hj Hjn. apply (Hdistinct irq); assumption.
Qed.

(** When no list register is occupied and no interrupt is PENDING, the
    list registers agree with the interrupt table. *)
Lemma consistent_when_idle (w : Vmm) :
  arrays_ok w ->
  (forall i, 0 <= i < Z.of_nat NR_IRQ ->
     Z.testbit (gic_elrsr0 (_state w)) i = true) ->
  forallb (fun e => bool_decide (Irq.cpu_state e = Irq.INACTIVE)) (_irqs w)
    = true ->
  in_flight_consistent w.
Proof.
  intros Hok Hfree Hidle.
  assert (forall irq i, 0 <= i < Z.of_nat NR_IRQ ->
            in_flight (_state w) irq i = false) as Hnone.
  { intros irq i Hi. unfold in_flight.
    rewrite elrsr_bit_testbit, (Hfree i Hi) by lia. reflexivity. }
  split; [exact Hok|]. split.
  - intros irq i j Hi _ Hin. rewrite (Hnone irq i Hi) in Hin. discriminate.
  - intros irq _ (e & He & Hpend). exfalso.
    rewrite forallb_forall in Hidle.
    assert (In e (_irqs w)) as Hin.
    { unfold at_index in He. destruct (_ && _); [|discriminate].
      apply list_elem_of_In. eapply list_elem_of_lookup_2. exact He. }
    specialize (Hidle e Hin). apply bool_decide_eq_true in Hidle. congruence.
Qed.

Lemma four_cases (i : Z) :
  0 <= i < Z.of_nat NR_IRQ -> i = 0 \/ i = 1 \/ i = 2 \/ i = 3.
Proof. unfold NR_IRQ. lia. Qed.

(** The freshly constructed monitor is such a state, and still is once the
    guest has enabled the virtual-timer interrupt. *)
Lemma world0_consistent : in_flight_consistent world0.
Proof.
  apply consistent_when_idle.
  - split; reflexivity.
  - intros i Hi.
    destruct (four_cases i Hi) as [->|[->|[->| ->]]]; reflexivity.
  - vm_compute. reflexivity.
Qed.

Lemma world_timer_enabled_consistent : in_flight_consistent world_timer_enabled.
Proof.
  apply consistent_when_idle.
  - split; reflexivity.
  - intros i Hi.
    destruct (four_cases i Hi) as [->|[->|[->| ->]]]; reflexivity.
  - vm_compute. reflexivity.
Qed.

Lemma the_cp15_regs (reg : Coprocessor.Register) :
  In reg (elements the_cp15) -> In reg Cp15._regs.
Proof.
  intros H. vm_compute in H.
  repeat (destruct H as [<-|H];
          [vm_compute; repeat (first [left; reflexivity | right])|]).
  destruct H.
Qed.

Lemma the_device_tree_ok : device_tree_ok (@the_device_tree vea9x4_board).
Proof.
  split; [|split].
  - simpl. repeat split; intros y Hy; simpl in Hy;
      repeat (destruct Hy as [<-|Hy]; [simpl; lia|]); destruct Hy.
  - intros d Hd. simpl in Hd.
    repeat (destruct Hd as [<-|Hd]; [simpl; lia|]). destruct Hd.
  - intros d1 d2 H1 H2. simpl in H1, H2.
    destruct H1 as [<-|[<-|[<-|[]]]]; destruct H2 as [<-|[<-|[<-|[]]]];
      solve [left; reflexivity | right; simpl; lia].
Qed.

(** ** Guest loads from the UART *)





Section Guest_loads.

Context {modes : Mode_state.Mode} {board : Board}.









End Guest_loads.

(** ** The properties at concrete states *)

(** C10 at a WFE trap (syndrome 0x04000001) in the freshly constructed
    monitor. *)
Lemma wfe_raises_before_any_effect_witness :
  Bitfield.get Hsr.Ec (hsr (_state (world_trap 0x04000001 0 0))) = Hsr.WFI /\
  Z.land (hsr (_state (world_trap 0x04000001 0 0))) 1 <> 0 /\
  @Vmm_handlers._handle_trap spec_modes the_cp15
     (@the_device_tree vea9x4_board) (world_trap 0x04000001 0 0)
  = (world_trap 0x04000001 0 0, Throw WfeNotImplemented).
Proof.
  split; [reflexivity|]. split; [discriminate|].
  apply (@wfe_raises_before_any_effect spec_modes the_cp15
           (@the_device_tree vea9x4_board) (world_trap 0x04000001 0 0));
    [reflexivity|discriminate].
Defined.

(** C6 at the failing inputs: a write to c15 (syndrome 0x0C003C00), which
    is no register of the file, and a write to MIDR (syndrome 0x0C000000):
    no exception either time. *)
Lemma cp15_failure_is_dropped_witness :
  (Bitfield.get Hsr.Ec (hsr (_state (world_trap 0x0C003C00 0 0))) = Hsr.CP15 /\
   Coprocessor.find_by_encoding the_cp15
     (Coprocessor.Iss.mask_encoding (hsr (_state (world_trap 0x0C003C00 0 0))))
   = None /\
   @Vmm_handlers._handle_trap spec_modes the_cp15
      (@the_device_tree vea9x4_board) (world_trap 0x0C003C00 0 0)
   = (world_trap 0x0C003C00 0 0, Ok tt))
  /\
  (Bitfield.get Hsr.Ec (hsr (_state (world_trap 0x0C000000 0 0))) = Hsr.CP15 /\
   Coprocessor.find_by_encoding the_cp15
     (Coprocessor.Iss.mask_encoding (hsr (_state (world_trap 0x0C000000 0 0))))
   = Some (Coprocessor.new_Register 0 0 0 0 "MIDR" false midr 0x412fc0f1) /\
   @Vmm_handlers._handle_trap spec_modes the_cp15
      (@the_device_tree vea9x4_board) (world_trap 0x0C000000 0 0)
   = (world_trap 0x0C000000 0 0, Ok tt)).
Proof.
  split.
  - split; [reflexivity|]. split; [reflexivity|].
    apply (@cp15_failure_is_dropped spec_modes the_cp15
             (@the_device_tree vea9x4_board) (world_trap 0x0C003C00 0 0));
      [reflexivity|left; reflexivity].
  - split; [reflexivity|]. split; [reflexivity|].
    apply (@cp15_failure_is_dropped spec_modes the_cp15
             (@the_device_tree vea9x4_board) (world_trap 0x0C000000 0 0));
      [reflexivity|].
    right. exists (Coprocessor.new_Register 0 0 0 0 "MIDR" false midr 0x412fc0f1).
    repeat split; reflexivity.
Defined.

(** C7 at two write traps, the second of them to MIDR, on the register
    tree the constructor builds. *)
Lemma read_only_registers_keep_reset_value_witness :
  (forall reg, In reg (elements the_cp15) -> In reg Cp15._regs) /\
  Forall is_cp15_write two_cp15_writes /\
  In (Coprocessor.new_Register 0 0 0 0 "MIDR" false midr 0x412fc0f1)
     Cp15._regs /\
  Coprocessor._writeable
    (Coprocessor.new_Register 0 0 0 0 "MIDR" false midr 0x412fc0f1) = false /\
  cp15 (@cp15_traps spec_modes the_cp15 two_cp15_writes
          (state_after Cp15.new fresh_State)) midr = 0x412fc0f1.
Proof.
  assert (Forall is_cp15_write two_cp15_writes) as Hw
    by (repeat constructor).
  assert (In (Coprocessor.new_Register 0 0 0 0 "MIDR" false midr 0x412fc0f1)
             Cp15._regs) as Hin by (left; reflexivity).
  split; [exact the_cp15_regs|].
  split; [exact Hw|]. split; [exact Hin|]. split; [reflexivity|].
  exact (proj1 (@read_only_registers_keep_reset_value spec_modes the_cp15
                  the_cp15_regs two_cp15_writes fresh_State _ Hw Hin eq_refl)).
Defined.

(** C5 at a word read of the UART's flag register: the fault is in the
    page 0x1c090000 ([hpfar = 0x1c0900]) at [hdfar = 0x18]. *)
Lemma data_abort_dispatch_witness :
  device_tree_ok (@the_device_tree vea9x4_board) /\
  serves (@Pl011.device vea9x4_board "Pl011" 0x1c090000 0x1000) 0x1c090000 /\
  @Vmm_handlers._handle_data_abort spec_modes (@the_device_tree vea9x4_board)
     (world_trap 0x91850000 0x1c0900 0x18)
  = (@Device_base.handle_memory_access spec_modes
       (@Pl011.device vea9x4_board "Pl011" 0x1c090000 0x1000) ;;
     upd_state advance_ip) (world_trap 0x91850000 0x1c0900 0x18).
Proof.
  assert (serves (@Pl011.device vea9x4_board "Pl011" 0x1c090000 0x1000)
            0x1c090000) as Hs by (unfold serves; simpl; lia).
  split; [exact the_device_tree_ok|]. split; [exact Hs|].
  apply (proj2 (@data_abort_dispatch spec_modes (@the_device_tree vea9x4_board)
                  (world_trap 0x91850000 0x1c0900 0x18) the_device_tree_ok)).
  - right. left. reflexivity.
  - exact Hs.
Defined.

(** C3 at the spec's scenario, the first injection of the enabled
    virtual-timer interrupt: list register 0 is taken, with the virtual id
    27, the physical id [1 << 9] and the state pending, and bit 0 of
    [gic_elrsr0] is cleared. *)
Lemma inject_irq_list_registers_witness :
  arrays_ok world_timer_enabled /\
  at_index (_irqs world_timer_enabled) VT_TIMER_IRQ
  = Some (Irq.Build Irq.INACTIVE Irq.ENABLED (Some Timer_dev) true) /\
  outcome (Gic.inject_irq VT_TIMER_IRQ) world_timer_enabled = Ok tt /\
  lr_of (_state (state_after (Gic.inject_irq VT_TIMER_IRQ) world_timer_enabled))
    0 = 0x1008001b /\
  Z.testbit
    (gic_elrsr0
       (_state (state_after (Gic.inject_irq VT_TIMER_IRQ) world_timer_enabled)))
    0 = false.
Proof.
  assert (arrays_ok world_timer_enabled) as Hok by (split; reflexivity).
  assert (at_index (_irqs world_timer_enabled) VT_TIMER_IRQ
          = Some (Irq.Build Irq.INACTIVE Irq.ENABLED (Some Timer_dev) true))
    as He by (vm_compute; reflexivity).
  split; [exact Hok|]. split; [exact He|].
  destruct (inject_irq_list_registers world_timer_enabled VT_TIMER_IRQ _
              Hok He ltac:(discriminate) eq_refl) as [_ H].
  destruct (H ltac:(discriminate)) as (_ & _ & Hfill).
  destruct (Hfill 0) as (Hout & _ & _ & _ & _ & _ & Hbit & _).
  - intros j Hj.
    destruct (four_cases j Hj) as [->|[->|[->| ->]]]; vm_compute; reflexivity.
  - unfold NR_IRQ. lia.
  - vm_compute. reflexivity.
  - intros j Hj. lia.
  - split; [exact Hout|]. split; [vm_compute; reflexivity|exact Hbit].
Defined.


(** C4 at the spec's scenario: the virtual-timer interrupt sits in list
    register 0 and the host reports its end. *)
Lemma maintenance_retires_list_registers_witness :
  arrays_ok world_timer_eoi /\
  Z.land (gic_misr (_state world_timer_eoi)) 1 <> 0 /\
  outcome Gic._handle_eoi world_timer_eoi = Ok tt /\
  gic_misr (_state (state_after Gic._handle_eoi world_timer_eoi)) = 0 /\
  retired world_timer_eoi 0 (state_after Gic._handle_eoi world_timer_eoi).
Proof.
  assert (arrays_ok world_timer_eoi) as Hok by (split; reflexivity).
  assert (Z.land (gic_misr (_state world_timer_eoi)) 1 <> 0) as Hmisr
    by discriminate.
  split; [exact Hok|]. split; [exact Hmisr|].
  destruct (maintenance_retires_list_registers world_timer_eoi Hok Hmisr)
    as (Hout & Hz & Hret).
  - intros i Hi Hbit.
    destruct (four_cases i Hi) as [->|[->|[->| ->]]];
      solve [discriminate Hbit | vm_compute; discriminate].
  - split; [exact Hout|]. split; [exact Hz|].
    apply Hret; [unfold NR_IRQ; lia|reflexivity].
Defined.

(** C2 at the injection of the enabled virtual-timer interrupt. *)
Lemma pending_is_in_one_list_register_witness :
  in_flight_consistent world_timer_enabled /\
  all_delivered [Inject VT_TIMER_IRQ] world_timer_enabled /\
  needs_eoi (gic_run [Inject VT_TIMER_IRQ] world_timer_enabled) VT_TIMER_IRQ /\
  is_pending (gic_run [Inject VT_TIMER_IRQ] world_timer_enabled) VT_TIMER_IRQ /\
  exactly_one_in_flight
    (_state (gic_run [Inject VT_TIMER_IRQ] world_timer_enabled)) VT_TIMER_IRQ.
Proof.
  assert (all_delivered [Inject VT_TIMER_IRQ] world_timer_enabled) as Hdel.
  { split; [|exact I]. split.
    - exists (Irq.Build Irq.INACTIVE Irq.ENABLED (Some Timer_dev) true).
      split; reflexivity.
    - discriminate. }
  assert (needs_eoi (gic_run [Inject VT_TIMER_IRQ] world_timer_enabled)
            VT_TIMER_IRQ) as Heoi.
  { exists (Irq.Build Irq.PENDING Irq.ENABLED (Some Timer_dev) true).
    split; reflexivity. }
  assert (is_pending (gic_run [Inject VT_TIMER_IRQ] world_timer_enabled)
            VT_TIMER_IRQ) as Hpend.
  { exists (Irq.Build Irq.PENDING Irq.ENABLED (Some Timer_dev) true).
    split; reflexivity. }
  split; [exact world_timer_enabled_consistent|].
  split; [exact Hdel|]. split; [exact Heoi|]. split; [exact Hpend|].
  exact (pending_is_in_one_list_register [Inject VT_TIMER_IRQ]
           world_timer_enabled VT_TIMER_IRQ world_timer_enabled_consistent
           Hdel Heoi Hpend).
Defined.

(** The spec's scenario of a CP15 read of MIDR into [r5] (syndrome
    0x0C0000A1): afterwards [r5] holds 0x412fc0f1 and the PC has advanced
    by 4. *)
Example midr_read_scenario :
  let w := world_trap 0x0C0000A1 0 0 in
  let w' := state_after
              (@Vmm_handlers._handle_trap spec_modes the_cp15
                 (@the_device_tree vea9x4_board)) w in
  regs (_state w') !! 5%nat = Some 0x412fc0f1 /\
  ip (_state w') = ip (_state w) + 4.
Proof. split; reflexivity. Qed.

(** The spec's scenario of WFI (syndrome 0x04000000) with the timer set
    to 1000 ticks: the VCPU is halted, the host timer is asked for
    1000 / 24 = 41 microseconds and the PC has advanced past the WFI; when
    the timeout has come and the interrupt is enabled, the injection
    re-activates the VCPU. *)
Example wfi_scenario :
  let w := set_state (set_timer_val 1000 (_state world_timer_enabled))
             world_timer_enabled in
  let w := set_state (set_hsr 0x04000000 (_state w)) w in
  let w' := state_after
              (@Vmm_handlers._handle_trap spec_modes the_cp15
                 (@the_device_tree vea9x4_board)) w in
  _active w' = false /\ timer_once w' = [41] /\
  ip (_state w') = ip (_state w) + 4 /\
  _active (state_after Generic_timer._timeout w') = true /\
  lr_of (_state (state_after Generic_timer._timeout w')) 0
  = Gic.lr_value VT_TIMER_IRQ true.
Proof. repeat split; reflexivity. Qed.

(** A word load of the guest from the processor id of the system
    registers (page 0x1c010000, offset 0x84) into [r3] (syndrome
    0x91830000): the device tree finds the system registers, [r3] holds
    0x14000237 afterwards and the PC has advanced by 4. *)
Example procid_read_scenario :
  let w := world_trap 0x91830000 0x1c0100 0x84 in
  let h := @Vmm_handlers._handle_data_abort spec_modes
             (@the_device_tree vea9x4_board) in
  outcome h w = Ok tt /\
  regs (_state (state_after h w)) !! 3%nat = Some 0x14000237 /\
  ip (_state (state_after h w)) = ip (_state w) + 4.
Proof. vm_compute. repeat split; reflexivity. Qed.

(** ** Where the spec's wording does not hold *)

(** C2 as stated fails: the virtual-timer interrupt requires EOI; injected
    while the distributor has it disabled, as in the freshly constructed
    monitor, it becomes PENDING and no list register holds its id, be it
    occupied or free. *)
Lemma pending_without_list_register :
  needs_eoi (gic_run [Inject VT_TIMER_IRQ] world0) VT_TIMER_IRQ /\
  is_pending (gic_run [Inject VT_TIMER_IRQ] world0) VT_TIMER_IRQ /\
  List.filter
    (holds_id (_state (gic_run [Inject VT_TIMER_IRQ] world0)) VT_TIMER_IRQ)
    (range NR_IRQ) = [] /\
  ~ exactly_one_in_flight
      (_state (gic_run [Inject VT_TIMER_IRQ] world0)) VT_TIMER_IRQ.
Proof.
  split; [|split; [|split]].
  - exists (Irq.Build Irq.PENDING Irq.DISABLED (Some Timer_dev) true).
    split; reflexivity.
  - exists (Irq.Build Irq.PENDING Irq.DISABLED (Some Timer_dev) true).
    split; reflexivity.
  - reflexivity.
  - intros (i & Hi & Hin & _).
    destruct (four_cases i Hi) as [->|[->|[->| ->]]]; discriminate Hin.
Qed.

Lemma differ_in_active {A} (p q : Vmm * result A) :
  _active (fst p) <> _active (fst q) -> p <> q.
Proof. intros H E. apply H. rewrite E. reflexivity. Qed.

(** C3 as stated fails, on states the monitor reaches.  With
    the virtual-timer interrupt injected and not yet ended, list register
    0 is occupied and holds its id: a second injection does not return but
    fails with [DoubleInject].  With the interrupt of the UART in list
    register 0 and the guest asleep after a WFI, the next injection takes
    the dedup path and returns, and the machine is awake: the state has
    changed. *)
Lemma dedup_wakes_the_machine :
  (at_index (_irqs world_timer_injected) VT_TIMER_IRQ
   = Some (Irq.Build Irq.PENDING Irq.ENABLED (Some Timer_dev) true) /\
   in_flight (_state world_timer_injected) VT_TIMER_IRQ 0 = true /\
   Gic.inject_irq VT_TIMER_IRQ world_timer_injected
   = (world_timer_injected, Throw DoubleInject))
  /\
  (at_index (_irqs world_uart_asleep) (@PL011_0_IRQ vea9x4_board)
   = Some (Irq.Build Irq.INACTIVE Irq.ENABLED (Some Uart_dev) false) /\
   in_flight (_state world_uart_asleep) (@PL011_0_IRQ vea9x4_board) 0 = true /\
   _active world_uart_asleep = false /\
   outcome (Gic.inject_irq (@PL011_0_IRQ vea9x4_board)) world_uart_asleep
   = Ok tt /\
   _active (state_after (Gic.inject_irq (@PL011_0_IRQ vea9x4_board))
              world_uart_asleep) = true /\
   Gic.inject_irq (@PL011_0_IRQ vea9x4_board) world_uart_asleep
   <> (world_uart_asleep, Ok tt)).
Proof.
  split.
  - split; [vm_compute; reflexivity|]. split; [vm_compute; reflexivity|].
    vm_compute. reflexivity.
  - split; [vm_compute; reflexivity|]. split; [vm_compute; reflexivity|].
    split; [vm_compute; reflexivity|]. split; [vm_compute; reflexivity|].
    split; [vm_compute; reflexivity|].
    apply differ_in_active. vm_compute. discriminate.
Qed.

(** C5 as stated fails.  For a fault at [hpfar = 0x100000],
    [hdfar = 0x18], where the monitor has no device, the address the
    handler reports is 0x10000000, not the 0x10000018 of the spec's
    formula.  And on a tree with a device at [0x1c090010, 0x1c090020), a
    fault at [hpfar = 0x1c0900], [hdfar = 0x18] finds no device although
    the device serves the address of the spec's formula. *)
Lemma data_abort_looks_up_page_base :
  outcome (@Vmm_handlers._handle_data_abort spec_modes
             (@the_device_tree vea9x4_board))
          (world_trap 0x91850000 0x100000 0x18)
  = Throw (NoDeviceAtIPA 0x10000000) /\
  Z.lor (Z.shiftl 0x100000 8) (Z.land 0x18 0xFFF) = 0x10000018 /\
  serves (Device_base.new "small" 0x1c090010 0x10)
    (Z.lor (Z.shiftl 0x1c0900 8) (Z.land 0x18 0xFFF)) /\
  device_tree_ok unaligned_device_tree /\
  outcome (@Vmm_handlers._handle_data_abort spec_modes unaligned_device_tree)
          (world_trap 0x91850000 0x1c0900 0x18)
  = Throw (NoDeviceAtIPA 0x1c090000).
Proof.
  split; [reflexivity|]. split; [reflexivity|].
  split; [split; [vm_compute; discriminate|vm_compute; reflexivity]|].
  split; [|reflexivity].
  split; [|split].
  - simpl. repeat split; intros y [].
  - intros d [<-|[]]. simpl. lia.
  - intros d1 d2 [<-|[]] [<-|[]]. left. reflexivity.
Qed.


(** * Further properties of the code *)

(** ** Bit fields *)

Lemma testbit_get (f : Bitfield.t) (v n : Z) :
  0 <= Bitfield.shift f -> 0 <= Bitfield.width f -> 0 <= n ->
  Z.testbit (Bitfield.get f v) n
  = Z.testbit v (n + Bitfield.shift f) && (n <? Bitfield.width f).
Proof.
  intros Hs Hw Hn. unfold Bitfield.get, Bitfield.mask.
  rewrite Z.land_spec, Z.shiftr_spec, Z.testbit_ones_nonneg by lia.
  reflexivity.
Qed.

Lemma testbit_masked (f : Bitfield.t) (v n : Z) :
  0 <= Bitfield.shift f -> 0 <= Bitfield.width f -> 0 <= n ->
  Z.testbit (Bitfield.masked f v) n
  = Z.testbit v n
    && ((Bitfield.shift f <=? n) && (n <? Bitfield.shift f + Bitfield.width f)).
Proof.
  intros Hs Hw Hn. unfold Bitfield.masked, Bitfield.reg_mask, Bitfield.mask.
  rewrite Z.land_spec, Z.shiftl_spec by lia.
  destruct (Z.leb_spec (Bitfield.shift f) n).
  - rewrite Z.testbit_ones_nonneg by lia.
    f_equal. simpl.
    destruct (Z.ltb_spec (n - Bitfield.shift f) (Bitfield.width f)),
             (Z.ltb_spec n (Bitfield.shift f + Bitfield.width f));
      try reflexivity; exfalso; lia.
  - rewrite (Z.testbit_neg_r _ (n - Bitfield.shift f)) by lia.
    simpl. rewrite !andb_false_r. reflexivity.
Qed.

Lemma testbit_set (f : Bitfield.t) (v x n : Z) :
  0 <= Bitfield.shift f -> 0 <= Bitfield.width f -> 0 <= n ->
  Z.testbit (Bitfield.set f v x) n
  = if (Bitfield.shift f <=? n) && (n <? Bitfield.shift f + Bitfield.width f)
    then Z.testbit x (n - Bitfield.shift f) else Z.testbit v n.
Proof.
  intros Hs Hw Hn.
  unfold Bitfield.set, Bitfield.clear, Bitfield.bits, Bitfield.reg_mask,
    Bitfield.mask.
  rewrite Z.lor_spec, Z.ldiff_spec, !Z.shiftl_spec, Z.land_spec by lia.
  destruct (Z.leb_spec (Bitfield.shift f) n); simpl.
  - rewrite !Z.testbit_ones_nonneg by lia.
    destruct (Z.ltb_spec (n - Bitfield.shift f) (Bitfield.width f)),
             (Z.ltb_spec n (Bitfield.shift f + Bitfield.width f));
      try (exfalso; lia); simpl.
    + rewrite andb_false_r, andb_true_r. reflexivity.
    + rewrite andb_true_r, andb_false_r, orb_false_r. reflexivity.
  - rewrite !(Z.testbit_neg_r _ (n - Bitfield.shift f)) by lia. simpl.
    rewrite andb_true_r, orb_false_r. reflexivity.
Qed.

(** Case analysis on the comparisons of a bit index with field bounds. *)
Ltac split_cmp :=
  repeat match goal with
         | |- context [?a <=? ?b] => destruct (Z.leb_spec a b)
         | |- context [?a <? ?b] => destruct (Z.ltb_spec a b)
         end.

Ltac field_bounds :=
  cbn [Bitfield.shift Bitfield.width
       Coprocessor.Iss.Crn Coprocessor.Iss.Crm Coprocessor.Iss.Opcode1
       Coprocessor.Iss.Opcode2 Coprocessor.Iss.Direction
       Coprocessor.Iss.Register Hsr.Ec].

(** ** More of the CP15 register file *)

(** X1: the key under which [handle_trap] looks a register up is the
    encoding [Iss::value] builds from the four fields of the syndrome;
    the direction bit, the guest register and the exception class do not
    enter it. *)
Theorem lookup_key_is_encoding_of_fields (v : Z) :
  Coprocessor.Iss.mask_encoding v =
  Coprocessor.Iss.value
    (Bitfield.get Coprocessor.Iss.Crn v)
    (Bitfield.get Coprocessor.Iss.Opcode1 v)
    (Bitfield.get Coprocessor.Iss.Crm v)
    (Bitfield.get Coprocessor.Iss.Opcode2 v).
Proof.
  apply Z.bits_inj'. intros n Hn.
  unfold Coprocessor.Iss.mask_encoding, Coprocessor.Iss.value.
  rewrite !Z.lor_spec, !testbit_masked, !testbit_set by (simpl; lia).
  rewrite Z.bits_0. field_bounds.
  split_cmp; try (exfalso; lia); cbn [andb orb];
    rewrite ?testbit_get by (simpl; lia); field_bounds;
    rewrite ?andb_false_r, ?orb_false_r, ?andb_true_r; try reflexivity.
  all: split_cmp; try (exfalso; lia); cbn [andb orb];
    rewrite ?andb_false_r, ?orb_false_r, ?andb_true_r; try (f_equal; lia).
Qed.

Lemma get_range (f : Bitfield.t) (v : Z) :
  0 <= Bitfield.width f ->
  0 <= Bitfield.get f v < 2 ^ Bitfield.width f.
Proof.
  intros Hw. unfold Bitfield.get, Bitfield.mask.
  rewrite Z.land_ones by exact Hw. apply Z.mod_pos_bound.
  apply Z.pow_pos_nonneg; lia.
Qed.

Lemma find_by_encoding_encoding (t : Avl Coprocessor.Register) e reg :
  Coprocessor.find_by_encoding t e = Some reg -> Coprocessor._encoding reg = e.
Proof.
  induction t as [|l IHl x h IHh]; simpl; [discriminate|].
  destruct (Z.eqb_spec e (Coprocessor._encoding x)) as [->|_].
  - intros H. injection H as <-. reflexivity.
  - destruct (e >? Coprocessor._encoding x); simpl; auto.
Qed.

(** X2: in a register tree ordered by encoding, the lookup by an encoding
    answers with a register exactly when the tree holds that register
    under that encoding; it answers nothing exactly when the tree holds
    no register of that encoding. *)
Theorem find_by_encoding_finds (t : Avl Coprocessor.Register) (e : Z) :
  encoding_ordered t ->
  (forall reg,
     Coprocessor.find_by_encoding t e = Some reg <->
     In reg (elements t) /\ Coprocessor._encoding reg = e)
  /\ (Coprocessor.find_by_encoding t e = None <->
      forall reg, In reg (elements t) -> Coprocessor._encoding reg <> e).
Proof.
  intros Hord.
  assert (forall reg, In reg (elements t) -> Coprocessor._encoding reg = e ->
                      Coprocessor.find_by_encoding t e = Some reg) as Hfound.
  { induction t as [|l IHl x h IHh]; simpl; [contradiction|].
    destruct Hord as (Hlow & Hhigh & Hl & Hh).
    intros reg Hin Henc. apply in_app_or in Hin.
    destruct (Z.eqb_spec e (Coprocessor._encoding x)) as [Heq|Hne].
    - destruct Hin as [Hin|[<-|Hin]]; [|reflexivity|].
      + specialize (Hlow reg Hin). lia.
      + specialize (Hhigh reg Hin). lia.
    - destruct Hin as [Hin|[<-|Hin]]; [|congruence|].
      + specialize (Hlow reg Hin).
        destruct (Z.gtb_spec e (Coprocessor._encoding x)); [lia|]. simpl.
        apply IHl; assumption.
      + specialize (Hhigh reg Hin).
        destruct (Z.gtb_spec e (Coprocessor._encoding x)); [|lia]. simpl.
        apply IHh; assumption. }
  split.
  - intros reg. split.
    + intros H. split; [exact (find_by_encoding_In t e reg H)|].
      exact (find_by_encoding_encoding t e reg H).
    + intros [Hin Henc]. apply Hfound; assumption.
  - split.
    + intros Hnone reg Hin Henc.
      rewrite (Hfound reg Hin Henc) in Hnone. discriminate.
    + intros Hno.
      destruct (Coprocessor.find_by_encoding t e) as [reg|] eqn:Hf;
        [|reflexivity].
      exfalso. apply (Hno reg).
      * exact (find_by_encoding_In t e reg Hf).
      * exact (find_by_encoding_encoding t e reg Hf).
Qed.

Lemma encoding_within_ok (lo hi : Z) (t : Avl Coprocessor.Register) :
  encoding_within lo hi t = true ->
  encoding_ordered t /\
  forall y, In y (elements t) -> lo < Coprocessor._encoding y < hi.
Proof.
  revert lo hi. induction t as [|l IHl x h IHh]; intros lo hi H; simpl in *.
  - split; [exact I|]. intros y [].
  - apply andb_true_iff in H as [H Hh]. apply andb_true_iff in H as [H Hl].
    apply andb_true_iff in H as [Hlo Hhi].
    apply Z.ltb_lt in Hlo, Hhi.
    destruct (IHl _ _ Hl) as [Hol Hbl]. destruct (IHh _ _ Hh) as [Hoh Hbh].
    split.
    + repeat split; try assumption.
      * intros y Hy. apply Hbl. exact Hy.
      * intros y Hy. apply Hbh. exact Hy.
    + intros y Hy. apply in_app_or in Hy as [Hy|[<-|Hy]].
      * specialize (Hbl y Hy). lia.
      * lia.
      * specialize (Hbh y Hy). lia.
Qed.

(** The tree the constructor of [Cp15] builds is ordered by encoding. *)
Lemma the_cp15_ordered : encoding_ordered the_cp15.
Proof.
  apply (encoding_within_ok (-1) (2 ^ 32)). vm_compute. reflexivity.
Qed.

Lemma the_cp15_holds (reg : Coprocessor.Register) :
  In reg Cp15._regs -> In reg (elements the_cp15).
Proof.
  intros H. vm_compute in H.
  repeat (destruct H as [<-|H];
          [vm_compute; repeat (first [left; reflexivity | right])|]).
  destruct H.
Qed.

Lemma find_by_encoding_finds_witness :
  encoding_ordered the_cp15 /\
  (Coprocessor.find_by_encoding the_cp15 (Coprocessor.Iss.value 3 0 0 0)
   = Some (Coprocessor.new_Register 3 0 0 0 "DACR" true dacr 0x55555555)) /\
  Coprocessor.find_by_encoding the_cp15 (Coprocessor.Iss.value 15 0 0 0) = None.
Proof.
  split; [exact the_cp15_ordered|]. split.
  - apply (proj1 (find_by_encoding_finds the_cp15 _ the_cp15_ordered)).
    split; [|reflexivity].
    apply the_cp15_holds. vm_compute.
    repeat (first [left; reflexivity | right]).
  - apply (proj2 (find_by_encoding_finds the_cp15 _ the_cp15_ordered)).
    intros reg Hin. apply the_cp15_regs in Hin.
    vm_compute in Hin.
    repeat (destruct Hin as [<-|Hin]; [vm_compute; discriminate|]).
    destruct Hin.
Defined.

Lemma at_index_lookup {A} (l : list A) (i : Z) (x : A) :
  at_index l i = Some x -> l !! Z.to_nat i = Some x.
Proof.
  unfold at_index. destruct (_ && _); [auto|discriminate].
Qed.


Lemma cp15_rt_range (v : Z) :
  0 <= Bitfield.get Coprocessor.Iss.Register v < 16.
Proof.
  pose proof (get_range Coprocessor.Iss.Register v) as H.
  simpl in H. apply H. lia.
Qed.

Section Cp15_access.

Context {modes : Mode_state.Mode}.

Variable t : Avl Coprocessor.Register.

(** A CP15 read trap of a register of the file, into a guest register
    other than 13 and 14 that lies within [regs]. *)
Lemma cp15_read_call (s : State) (reg : Coprocessor.Register) :
  Coprocessor.find_by_encoding t (Coprocessor.Iss.mask_encoding (hsr s))
    = Some reg ->
  Bitfield.get Coprocessor.Iss.Direction (hsr s) <> 0 ->
  Bitfield.get Coprocessor.Iss.Register (hsr s) <> 13 ->
  Bitfield.get Coprocessor.Iss.Register (hsr s) <> 14 ->
  Bitfield.get Coprocessor.Iss.Register (hsr s) < Z.of_nat (length (regs s)) ->
  Coprocessor.handle_trap t s =
    (advance_ip
       (set_regs
          (<[Z.to_nat (Bitfield.get Coprocessor.Iss.Register (hsr s))
             := cp15 s (Coprocessor._r reg)]> (regs s)) s),
     Ok true).
Proof.
  intros Hfind Hdir H13 H14 Hlen.
  pose proof (cp15_rt_range (hsr s)) as Hrt.
  unfold Coprocessor.handle_trap.
  erewrite bind_ok by reflexivity. cbv beta. rewrite Hfind.
  destruct (Z.eqb_spec (Bitfield.get Coprocessor.Iss.Direction (hsr s)) 0);
    [contradiction|]. cbn [negb].
  destruct (at_index_Some (regs s)
              (Bitfield.get Coprocessor.Iss.Register (hsr s)))
    as [old Hold]; [lia|].
  erewrite bind_ok; [reflexivity|].
  erewrite bind_ok by reflexivity. cbv beta.
  erewrite bind_ok by reflexivity.
  rewrite r_gp by assumption.
  unfold store. rewrite Hold. reflexivity.
Qed.

(** X3: a CP15 read trap of a register of the file, into a guest
    register other than 13 and 14, puts the register's value into the
    guest register and then advances the PC by four, read-only registers
    included; nothing else of the state changes, and the answer is
    [true].  (Into register 15 the value goes first and the advance
    applies to it.) *)
Theorem cp15_read_trap (s : State) (reg : Coprocessor.Register) :
  Coprocessor.find_by_encoding t (Coprocessor.Iss.mask_encoding (hsr s))
    = Some reg ->
  Bitfield.get Coprocessor.Iss.Direction (hsr s) <> 0 ->
  Bitfield.get Coprocessor.Iss.Register (hsr s) <> 13 ->
  Bitfield.get Coprocessor.Iss.Register (hsr s) <> 14 ->
  length (regs s) = 16%nat ->
  Coprocessor.handle_trap t s =
    (advance_ip
       (set_regs
          (<[Z.to_nat (Bitfield.get Coprocessor.Iss.Register (hsr s))
             := cp15 s (Coprocessor._r reg)]> (regs s)) s),
     Ok true).
Proof.
  intros Hfind Hdir H13 H14 Hlen.
  pose proof (cp15_rt_range (hsr s)) as Hrt.
  apply cp15_read_call; try assumption.
  rewrite Hlen. simpl. lia.
Qed.



End Cp15_access.

Lemma cp15_read_trap_witness :
  let s := _state (world_trap 0x0C0000A1 0 0) in
  Coprocessor.find_by_encoding the_cp15 (Coprocessor.Iss.mask_encoding (hsr s))
    = Some (Coprocessor.new_Register 0 0 0 0 "MIDR" false midr 0x412fc0f1) /\
  Bitfield.get Coprocessor.Iss.Register (hsr s) = 5 /\
  regs (state_after (@Coprocessor.handle_trap spec_modes the_cp15) s) !! 5%nat
  = Some 0x412fc0f1.
Proof.
  intros s. split; [reflexivity|]. split; [reflexivity|].
  unfold state_after.
  rewrite (@cp15_read_trap spec_modes the_cp15 s
             (Coprocessor.new_Register 0 0 0 0 "MIDR" false midr 0x412fc0f1)
             eq_refl);
    [reflexivity|discriminate|discriminate|discriminate|reflexivity].
Defined.


(** ** More of the device base *)

Section Memory_access.

Context {modes : Mode_state.Mode}.

(** X5: [handle_memory_access] of any device refuses a syndrome that is
    not valid ([Valid] clear or [Sign_extend] set) with [MalformedHSR],
    and a valid one whose access size is 3 with [UnalignedAccess]; the
    state is untouched and no access function of the device runs. *)
Theorem memory_access_rejects_syndrome (d : Device) (w : Vmm) :
  (Device_base.Iss.valid (hsr (_state w)) = false ->
   Device_base.handle_memory_access d w = (w, Throw MalformedHSR))
  /\
  (Device_base.Iss.valid (hsr (_state w)) = true ->
   Bitfield.get Device_base.Iss.Access_size (hsr (_state w)) = 3 ->
   Device_base.handle_memory_access d w = (w, Throw UnalignedAccess)).
Proof.
  split.
  - intros Hv. unfold Device_base.handle_memory_access.
    erewrite bind_ok by reflexivity. cbv beta. rewrite Hv. reflexivity.
  - intros Hv Hsz. unfold Device_base.handle_memory_access.
    erewrite bind_ok by reflexivity. cbv beta. rewrite Hv, Hsz. reflexivity.
Qed.

Lemma access_size_cases (v : Z) :
  Bitfield.get Device_base.Iss.Access_size v = 0
  \/ Bitfield.get Device_base.Iss.Access_size v = 1
  \/ Bitfield.get Device_base.Iss.Access_size v = 2
  \/ Bitfield.get Device_base.Iss.Access_size v = 3.
Proof.
  pose proof (get_range Device_base.Iss.Access_size v) as H.
  simpl in H. specialize (H ltac:(lia)). lia.
Qed.

End Memory_access.

Section Access_widths.

Context {modes : Mode_state.Mode} {board : Board}.

(** X6: a device is only ever accessed in the widths it implements.  On a
    valid syndrome, the interrupt controller refuses every byte and
    halfword access, the UART every word write and every byte read, and
    a device with the access functions of the base class every access,
    all with [UnsupportedAccessWidth] and the state untouched. *)
Theorem unsupported_widths_are_refused
    (name : string) (addr size : Z) (w : Vmm) :
  Device_base.Iss.valid (hsr (_state w)) = true ->
  (Bitfield.get Device_base.Iss.Access_size (hsr (_state w)) <> 2 ->
   Bitfield.get Device_base.Iss.Access_size (hsr (_state w)) <> 3 ->
   Device_base.handle_memory_access (Gic_mmio.device name addr size) w
   = (w, Throw UnsupportedAccessWidth))
  /\
  (Bitfield.get Device_base.Iss.Access_size (hsr (_state w)) = 2 ->
   Bitfield.get Device_base.Iss.Write (hsr (_state w)) <> 0 ->
   Device_base.handle_memory_access (Pl011.device name addr size) w
   = (w, Throw UnsupportedAccessWidth))
  /\
  (Bitfield.get Device_base.Iss.Access_size (hsr (_state w)) = 0 ->
   Bitfield.get Device_base.Iss.Write (hsr (_state w)) = 0 ->
   Device_base.handle_memory_access (Pl011.device name addr size) w
   = (w, Throw UnsupportedAccessWidth))
  /\
  (Bitfield.get Device_base.Iss.Access_size (hsr (_state w)) <> 3 ->
   Device_base.handle_memory_access (Device_base.new name addr size) w
   = (w, Throw UnsupportedAccessWidth)).
Proof.
  intros Hv.
  split; [|split; [|split]].
  - intros H2 H3. unfold Device_base.handle_memory_access.
    erewrite bind_ok by reflexivity. cbv beta. rewrite Hv. cbn [negb].
    destruct (access_size_cases (hsr (_state w))) as [E|[E|[E|E]]];
      try contradiction; rewrite E; cbn;
      destruct (negb _); reflexivity.
  - intros H2 Hwr. unfold Device_base.handle_memory_access.
    erewrite bind_ok by reflexivity. cbv beta. rewrite Hv, H2. cbn.
    destruct (Z.eqb_spec (Bitfield.get Device_base.Iss.Write (hsr (_state w))) 0);
      [contradiction|]. reflexivity.
  - intros H0 Hrd. unfold Device_base.handle_memory_access.
    erewrite bind_ok by reflexivity. cbv beta. rewrite Hv, H0, Hrd. reflexivity.
  - intros H3. unfold Device_base.handle_memory_access.
    erewrite bind_ok by reflexivity. cbv beta. rewrite Hv. cbn [negb].
    destruct (access_size_cases (hsr (_state w))) as [E|[E|[E|E]]];
      try contradiction; rewrite E; cbn;
      destruct (negb _); reflexivity.
Qed.

End Access_widths.

Lemma memory_access_rejects_syndrome_witness :
  Device_base.Iss.valid (hsr (_state (world_trap 0x90000000 0x1c0900 0))) = false
  /\ @Device_base.handle_memory_access spec_modes
       (@Pl011.device vea9x4_board "Pl011" 0x1c090000 0x1000)
       (world_trap 0x90000000 0x1c0900 0)
     = (world_trap 0x90000000 0x1c0900 0, Throw MalformedHSR)
  /\ Bitfield.get Device_base.Iss.Access_size
       (hsr (_state (world_trap 0x91C00000 0x1c0900 0))) = 3
  /\ @Device_base.handle_memory_access spec_modes
       (@Pl011.device vea9x4_board "Pl011" 0x1c090000 0x1000)
       (world_trap 0x91C00000 0x1c0900 0)
     = (world_trap 0x91C00000 0x1c0900 0, Throw UnalignedAccess).
Proof.
  split; [reflexivity|]. split.
  - apply (proj1 (@memory_access_rejects_syndrome spec_modes _ _)).
    reflexivity.
  - split; [reflexivity|].
    apply (proj2 (@memory_access_rejects_syndrome spec_modes _ _));
      reflexivity.
Defined.

Lemma unsupported_widths_are_refused_witness :
  Device_base.Iss.valid (hsr (_state (world_trap 0x91050000 0x2c0010 0))) = true
  /\ @Device_base.handle_memory_access spec_modes
       (Gic_mmio.device "Gic" 0x2c001000 0x2000)
       (world_trap 0x91050000 0x2c0010 0)
     = (world_trap 0x91050000 0x2c0010 0, Throw UnsupportedAccessWidth).
Proof.
  split; [reflexivity|].
  apply (proj1 (@unsupported_widths_are_refused spec_modes vea9x4_board
                  "Gic" 0x2c001000 0x2000
                  (world_trap 0x91050000 0x2c0010 0) eq_refl));
    discriminate.
Defined.

(** ** More of the UART *)

Lemma get_keeps_state off : keeps _state (Pl011._get off).
Proof.
  unfold Pl011._get, Pl011._get_char, Pl011.upd_uart.
  keeps_tac.
Qed.

Lemma get_keeps_rest off :
  keeps (fun w => (_state w, vcpu_running w, _active w, _irqs w,
                   _distr_enabled w, timer_once w, terminal_out w,
                   terminal_in w))
        (Pl011._get off).
Proof.
  unfold Pl011._get, Pl011._get_char, Pl011.upd_uart.
  keeps_tac.
Qed.

Lemma value_at_load (l : Reg_loc) (s : State) (v : Z) :
  value_at l s = Some v -> load l s = (s, Ok v).
Proof.
  unfold value_at, outcome, load.
  destruct l; destruct (at_index _ _); simpl; congruence.
Qed.

Lemma value_at_store (l : Reg_loc) (s : State) (old x : Z) :
  value_at l s = Some old ->
  exists s', store l x s = (s', Ok tt) /\ value_at l s' = Some x.
Proof.
  unfold value_at, outcome, load, store.
  destruct l as [i|mo|mo].
  - destruct (at_index (regs s) i) eqn:E; [|discriminate]. intros _.
    eexists; split; [reflexivity|]. simpl.
    pose proof (at_index_range _ _ _ E) as Hr.
    rewrite at_index_insert by lia. rewrite Z.eqb_refl. reflexivity.
  - destruct (at_index (mode s) mo) eqn:E; [|discriminate]. intros _.
    eexists; split; [reflexivity|]. simpl.
    pose proof (at_index_range _ _ _ E) as Hr.
    rewrite at_index_insert by lia. rewrite Z.eqb_refl. reflexivity.
  - destruct (at_index (mode s) mo) eqn:E; [|discriminate]. intros _.
    eexists; split; [reflexivity|]. simpl.
    pose proof (at_index_range _ _ _ E) as Hr.
    rewrite at_index_insert by lia. rewrite Z.eqb_refl. reflexivity.
Qed.

Lemma bytes_at_load (n : Z) (p : Ptr) (s : State) (v : Z) :
  bytes_at n p s = Some v -> load_bytes n p s = (s, Ok v).
Proof.
  unfold bytes_at, outcome, load_bytes, bind.
  destruct (load (p_loc p) s) as [s' [x|e]] eqn:E; simpl; [|discriminate].
  intros [= <-]. unfold ret.
  assert (s' = s) as ->; [|reflexivity].
  unfold load in E.
  destruct (p_loc p); destruct (at_index _ _); congruence.
Qed.

Lemma on_state_load_bytes (n : Z) (p : Ptr) (w : Vmm) (v : Z) :
  bytes_at n p (_state w) = Some v ->
  on_state (load_bytes n p) w = (w, Ok v).
Proof.
  intros H. apply on_state_unchanged, bytes_at_load, H.
Qed.

Lemma value_at_bytes_at (n : Z) (l : Reg_loc) (s : State) (old : Z) :
  value_at l s = Some old ->
  bytes_at n (Build_Ptr l 0) s = Some (Z.land old (Z.ones (8 * n))).
Proof.
  intros H. unfold bytes_at, outcome, load_bytes. simpl.
  erewrite bind_ok by (apply value_at_load, H). simpl.
  rewrite Z.shiftr_0_r. reflexivity.
Qed.

Section Uart_access.

Context {modes : Mode_state.Mode} {board : Board}.

(** X7: a word load from the UART fills only the low half of the guest's
    register.  The word [read] forwards to the halfword [read] through a
    cast of the pointer, so the register the syndrome names gets the low
    16 bits of what [_get] returns and keeps its own upper 16 bits. *)
Theorem uart_word_read_fills_low_half
    (name : string) (addr size : Z) (w w1 : Vmm) (old v : Z) :
  let d := Pl011.device name addr size in
  Device_base.Iss.valid (hsr (_state w)) = true ->
  Bitfield.get Device_base.Iss.Access_size (hsr (_state w))
    = Device_base.Iss.WORD ->
  Bitfield.get Device_base.Iss.Write (hsr (_state w)) = 0 ->
  value_at (access_register (_state w)) (_state w) = Some old ->
  Pl011._get (access_offset d (_state w)) w = (w1, Ok v) ->
  exists w',
    Device_base.handle_memory_access d w = (w', Ok tt)
    /\ value_at (access_register (_state w)) (_state w')
       = Some (Z.lor (Z.ldiff old 0xffff) (Z.land v 0xffff))
    /\ _uart w' = _uart w1.
Proof.
  intros d Hv Hsz Hwr Hold Hget.
  pose proof (get_keeps_state (access_offset d (_state w)) w) as Hs.
  rewrite Hget in Hs. simpl in Hs.
  destruct (value_at_store _ _ _
              (Z.lor (Z.ldiff old 0xffff) (Z.land v 0xffff)) Hold)
    as (s' & Hst & Hnew).
  exists (set_state s' w1). split; [|split; [exact Hnew | reflexivity]].
  unfold Device_base.handle_memory_access.
  erewrite bind_ok by reflexivity. cbv beta.
  rewrite Hv, Hsz, Hwr. cbn [negb Z.eqb Device_base.Iss.BYTE
    Device_base.Iss.HALFWORD Device_base.Iss.WORD Pos.eqb].
  cbv zeta. change (read_u32 d) with Pl011.read_u32.
  unfold Pl011.read_u32, Pl011.read_u16.
  erewrite bind_ok by exact Hget.
  unfold on_state, store_bytes. rewrite Hs. cbn [p_loc p_byte].
  erewrite bind_ok by (apply value_at_load, Hold).
  change (Z.shiftl (Z.ones (8 * 2)) (8 * 0)) with 0xffff.
  change (Z.ones (8 * 2)) with 0xffff.
  change (8 * 0) with 0. rewrite Z.shiftl_0_r.
  fold (access_register (_state w)).
  rewrite Hst. reflexivity.
Qed.

(** X8: a byte or halfword store to the data register sends the low byte
    of the guest's register to the terminal, after what was sent before,
    and changes nothing else. *)
Theorem uart_data_write_reaches_terminal
    (name : string) (addr size : Z) (w : Vmm) (old : Z) :
  let d := Pl011.device name addr size in
  Device_base.Iss.valid (hsr (_state w)) = true ->
  Bitfield.get Device_base.Iss.Access_size (hsr (_state w))
    = Device_base.Iss.BYTE
  \/ Bitfield.get Device_base.Iss.Access_size (hsr (_state w))
    = Device_base.Iss.HALFWORD ->
  Bitfield.get Device_base.Iss.Write (hsr (_state w)) <> 0 ->
  access_offset d (_state w) = Pl011.UARTDR ->
  value_at (access_register (_state w)) (_state w) = Some old ->
  Device_base.handle_memory_access d w
  = (set_terminal_out (terminal_out w ++ [Z.land old 0xff]) w, Ok tt).
Proof.
  intros d Hv Hsz Hwr Hoff Hold.
  pose proof (value_at_bytes_at 1 _ _ _ Hold) as Hb.
  change (Z.ones (8 * 1)) with 0xff in Hb.
  unfold Device_base.handle_memory_access.
  erewrite bind_ok by reflexivity. cbv beta.
  rewrite Hv. cbn [negb]. cbv zeta.
  fold (access_offset d (_state w)). rewrite Hoff.
  fold (access_register (_state w)).
  destruct (Z.eqb_spec (Bitfield.get Device_base.Iss.Write (hsr (_state w))) 0)
    as [E|_]; [contradiction|]. cbn [negb].
  destruct Hsz as [-> | ->]; cbn.
  - unfold Pl011.write_u8. cbn.
    erewrite bind_ok by (apply on_state_load_bytes, Hb). reflexivity.
  - unfold Pl011.write_u16. cbn.
    erewrite bind_ok by (apply on_state_load_bytes, Hb). reflexivity.
Qed.

End Uart_access.

Section Uart_registers.

Context {board : Board}.

(** X9: the halfword registers of the UART.  What the guest stores to
    UARTFBRD, UARTIBRD, UARTLCR_H or UARTCR is what it loads from there
    afterwards.  UARTIFLS takes any store and drops it, but cannot be
    loaded; UARTICR clears in the raw interrupt status the bits stored,
    which shows in UARTMIS, and cannot be loaded either; UARTMIS cannot
    be stored to. *)
Theorem uart_register_round_trip (reg : Ptr) (w : Vmm) (v : Z) :
  bytes_at 2 reg (_state w) = Some v ->
  (forall off,
     In off [Pl011.UARTFBRD; Pl011.UARTIBRD; Pl011.UARTLCR_H; Pl011.UARTCR] ->
     exists w', Pl011.write_u16 reg off w = (w', Ok tt)
                /\ Pl011._get off w' = (w', Ok v))
  /\ Pl011.write_u16 reg Pl011.UARTIFLS w = (w, Ok tt)
  /\ Pl011._get Pl011.UARTIFLS w = (w, Throw UartWrongOffset)
  /\ (exists w', Pl011.write_u16 reg Pl011.UARTICR w = (w', Ok tt)
                 /\ Pl011._get Pl011.UARTMIS w'
                    = (w', Ok (Z.land (Z.ldiff (_ris (_uart w)) v)
                                      (_imsc (_uart w)))))
  /\ Pl011._get Pl011.UARTICR w = (w, Throw UartWrongOffset)
  /\ Pl011.write_u16 reg Pl011.UARTMIS w = (w, Throw UartWrongOffset).
Proof.
  intros Hb.
  pose proof (on_state_load_bytes _ _ _ _ Hb) as Hl.
  repeat split.
  - intros off Hin. simpl in Hin.
    destruct Hin as [<-|[<-|[<-|[<-|[]]]]];
      (eexists; split;
       [unfold Pl011.write_u16; cbn;
        erewrite bind_ok by exact Hl; reflexivity
       | reflexivity]).
  - eexists; split.
    + unfold Pl011.write_u16; cbn.
      erewrite bind_ok by exact Hl. reflexivity.
    + reflexivity.
Qed.

(** X10: a store to the interrupt mask UARTIMSC.  Where neither bit 5 nor
    bit 4 goes from clear to set (the latter counting only while received
    bytes wait), the mask is replaced and nothing else happens.  Where
    bit 4 goes from clear to set while bytes wait, and bit 5 does not, the
    UART interrupt is injected once, bit 4 of the raw status is set and
    the mask replaced; if that injection fails, the failure is passed on
    and the mask is left as it was. *)
Theorem uart_unmask_injects (mask : Z) (w : Vmm) :
  (Z.testbit mask 5 = true -> Z.testbit (_imsc (_uart w)) 5 = true) ->
  ((Z.testbit mask 4 = true ->
    Z.testbit (_imsc (_uart w)) 4 = true \/ _rx_buf (_uart w) = []) ->
   Pl011._mask_irqs mask w
   = (set_uart (Pl011.set_imsc (u16 mask) (_uart w)) w, Ok tt))
  /\
  (Z.testbit mask 4 = true -> Z.testbit (_imsc (_uart w)) 4 = false ->
   _rx_buf (_uart w) <> [] ->
   (forall w1, Gic.inject_irq PL011_0_IRQ w = (w1, Ok tt) ->
      Pl011._mask_irqs mask w
      = (set_uart (Pl011.set_imsc (u16 mask)
                     (Pl011.set_ris (u16 (Z.lor (_ris (_uart w)) 16))
                        (_uart w))) w1, Ok tt))
   /\
   (forall w1 e, Gic.inject_irq PL011_0_IRQ w = (w1, Throw e) ->
      Pl011._mask_irqs mask w = (w1, Throw e)
      /\ _imsc (_uart w1) = _imsc (_uart w))).
Proof.
  intros H5.
  assert (negb (Z.land mask (Z.shiftl 1 5) =? 0)
          && (Z.land (_imsc (_uart w)) (Z.shiftl 1 5) =? 0) = false) as E5.
  { rewrite !land_bit_testbit by lia. rewrite negb_involutive.
    destruct (Z.testbit mask 5); [rewrite H5 by reflexivity|]; reflexivity. }
  split.
  - intros H4.
    assert (negb (Z.land mask (Z.shiftl 1 4) =? 0)
            && (Z.land (_imsc (_uart w)) (Z.shiftl 1 4) =? 0)
            && negb (Ring_buffer.empty (_rx_buf (_uart w))) = false) as E4.
    { rewrite !land_bit_testbit by lia. rewrite negb_involutive.
      destruct (Z.testbit mask 4); [|reflexivity].
      destruct (H4 eq_refl) as [-> | ->]; [reflexivity|].
      simpl. apply andb_false_r. }
    unfold Pl011._mask_irqs.
    erewrite bind_ok; [|erewrite bind_ok by reflexivity; cbv beta;
                        rewrite E5; reflexivity].
    erewrite bind_ok; [|erewrite bind_ok by reflexivity; cbv beta;
                        rewrite E4; reflexivity].
    reflexivity.
  - intros M4 I4 Hrx.
    assert (negb (Z.land mask (Z.shiftl 1 4) =? 0)
            && (Z.land (_imsc (_uart w)) (Z.shiftl 1 4) =? 0)
            && negb (Ring_buffer.empty (_rx_buf (_uart w))) = true) as E4.
    { rewrite !land_bit_testbit by lia. rewrite negb_involutive, M4, I4.
      destruct (_rx_buf (_uart w)); [contradiction|reflexivity]. }
    split.
    + intros w1 Hinj.
      pose proof (inject_irq_keeps_uart PL011_0_IRQ w) as Hu.
      rewrite Hinj in Hu. simpl in Hu.
      unfold Pl011._mask_irqs.
      erewrite bind_ok; [|erewrite bind_ok by reflexivity; cbv beta;
                          rewrite E5; reflexivity].
      erewrite bind_ok;
        [|erewrite bind_ok by reflexivity; cbv beta; rewrite E4;
          erewrite bind_ok by exact Hinj; reflexivity].
      unfold Pl011.upd_uart, modify. simpl. rewrite Hu. reflexivity.
    + intros w1 e Hinj.
      pose proof (inject_irq_keeps_uart PL011_0_IRQ w) as Hu.
      rewrite Hinj in Hu. simpl in Hu.
      split; [|rewrite Hu; reflexivity].
      unfold Pl011._mask_irqs.
      erewrite bind_ok; [|erewrite bind_ok by reflexivity; cbv beta;
                          rewrite E5; reflexivity].
      erewrite bind_throw; [reflexivity|].
      erewrite bind_ok by reflexivity; cbv beta. rewrite E4.
      erewrite bind_throw by exact Hinj. reflexivity.
Qed.

End Uart_registers.

Section Uart_receive.

Context {board : Board}.

Lemma read_loop_receives (l : list Z) (w : Vmm) :
  terminal_in w = l ->
  Z.of_nat (length (_rx_buf (_uart w)) + length l) <= Ring_buffer.QUEUE_SIZE ->
  Pl011._read_loop l w = (received l w, Ok tt).
Proof.
  revert w. induction l as [|c rest IH]; intros w Hin Hlen.
  - simpl. unfold ret, received. simpl. rewrite app_nil_r.
    destruct w as [? ? ? ? ? ? [] ? ? ?]. simpl in *. subst. reflexivity.
  - cbn [Pl011._read_loop].
    erewrite bind_ok by reflexivity.
    erewrite bind_ok.
    2:{ erewrite bind_ok by reflexivity. cbv beta.
        unfold Ring_buffer.add.
        change (_uart (set_terminal_in rest w)) with (_uart w).
        destruct (Z.ltb_spec (Z.of_nat (length (_rx_buf (_uart w))))
                    Ring_buffer.QUEUE_SIZE) as [_|Hge];
          [reflexivity|]. simpl in Hlen. lia. }
    rewrite IH.
    + f_equal. unfold received. destruct w as [? ? ? ? ? ? [] ? ? ?].
      simpl. rewrite <- app_assoc. reflexivity.
    + reflexivity.
    + simpl. rewrite length_app. simpl. simpl in Hlen. lia.
Qed.

Lemma inject_irq_keeps_terminal_in irq :
  keeps terminal_in (Gic.inject_irq irq).
Proof.
  unfold Gic.inject_irq, Gic._inject_irq, Gic._inject_irq_scan,
    Gic._inject_irq_fill, interrupt.
  keeps_tac.
Qed.

(** X11: input from the terminal.  When the terminal signals input that
    the receive buffer has room for, [_read] moves every byte it holds
    into the buffer, behind those already there and in the order of their
    arrival, until the terminal is empty, and only then injects the UART
    interrupt: the bytes are in the buffer whether or not that injection
    succeeds, and bit 4 of the raw interrupt status is set only if it
    does.  Without input nothing happens. *)
Theorem uart_receives_terminal_input (w : Vmm) :
  (terminal_in w = [] -> Pl011._read w = (w, Ok tt))
  /\
  (terminal_in w <> [] ->
   Z.of_nat (length (_rx_buf (_uart w)) + length (terminal_in w))
     < Ring_buffer.QUEUE_SIZE ->
   let w' := state_after Pl011._read w in
   _rx_buf (_uart w') = _rx_buf (_uart w) ++ map u8 (terminal_in w)
   /\ terminal_in w' = []
   /\ outcome Pl011._read w
      = outcome (Gic.inject_irq PL011_0_IRQ) (received (terminal_in w) w)
   /\ _ris (_uart w')
      = match outcome Pl011._read w with
        | Ok _ => u16 (Z.lor (_ris (_uart w)) 16)
        | Throw _ => _ris (_uart w)
        end).
Proof.
  split.
  - intros E. unfold Pl011._read.
    erewrite bind_ok by reflexivity. rewrite E. reflexivity.
  - intros Hne Hlen w'.
    assert (Pl011._read w
            = (Gic.inject_irq PL011_0_IRQ ;;
               Pl011.upd_uart (fun u =>
                 Pl011.set_ris (u16 (Z.lor (_ris u) (Z.shiftl 1 4))) u))
                (received (terminal_in w) w)) as Hread.
    { unfold Pl011._read.
      erewrite bind_ok by reflexivity.
      destruct (terminal_in w) as [|c rest] eqn:E; [contradiction|].
      erewrite bind_ok; [reflexivity|].
      apply read_loop_receives; [exact E|]. lia. }
    pose proof (inject_irq_keeps_uart PL011_0_IRQ
                  (received (terminal_in w) w)) as Hu.
    pose proof (inject_irq_keeps_terminal_in PL011_0_IRQ
                  (received (terminal_in w) w)) as Ht.
    subst w'. unfold state_after, outcome. rewrite Hread.
    unfold bind.
    destruct (Gic.inject_irq PL011_0_IRQ (received (terminal_in w) w))
      as [w1 [[]|e]] eqn:Hinj; simpl in Hu, Ht |- *;
      rewrite ?Hu, ?Ht; repeat split; reflexivity.
Qed.

End Uart_receive.

(** ** More of the interrupt controller *)

Lemma at_index_neg {A} (l : list A) (i : Z) : i < 0 -> at_index l i = None.
Proof.
  intros H. unfold at_index. destruct (Z.leb_spec 0 i); [lia|reflexivity].
Qed.

Lemma at_index_insert_ne {A} (l : list A) (i j : Z) (x : A) :
  0 <= i -> i <> j ->
  at_index (<[Z.to_nat i := x]> l) j = at_index l j.
Proof.
  intros Hi Hne. unfold at_index. rewrite length_insert.
  destruct (0 <=? j) eqn:Hj; [|reflexivity].
  destruct (j <? Z.of_nat (length l)); [|reflexivity]. simpl.
  apply Z.leb_le in Hj.
  apply list_lookup_insert_ne. lia.
Qed.

Lemma at_index_insert_eq {A} (l : list A) (i : Z) (x y : A) :
  at_index l i = Some y -> at_index (<[Z.to_nat i := x]> l) i = Some x.
Proof.
  intros H. pose proof (at_index_range _ _ _ H).
  rewrite at_index_insert by lia. rewrite Z.eqb_refl. reflexivity.
Qed.

Lemma enable_irq_call (irq : Z) (w : Vmm) (e : Irq.t) :
  irq <= Gic.MAX_IRQ -> at_index (_irqs w) irq = Some e ->
  Gic._enable_irq irq w
  = match Irq.device e with
    | None => (w, Throw CantEnableIrq)
    | Some _ =>
        if bool_decide (Irq.distr_state e = Irq.ENABLED)
        then (w, Ok tt)
        else
          (let w1 := set_irqs (<[Z.to_nat irq :=
                        Irq.set_distr_state Irq.ENABLED e]> (_irqs w))
                       w in
           if irq =? Gic.TIMER
           then set_state (set_timer_irq true (_state w1)) w1
           else w1, Ok tt)
    end.
Proof.
  intros Hle He. unfold Gic._enable_irq.
  destruct (Z.gtb_spec irq Gic.MAX_IRQ); [lia|].
  erewrite bind_ok by (apply irq_at_ok, He).
  destruct (Irq.device e); [|reflexivity].
  destruct (bool_decide _); [reflexivity|].
  erewrite bind_ok by (apply update_irq_ok, He).
  destruct (irq =? Gic.TIMER); reflexivity.
Qed.

(** X12: enabling an interrupt in the distributor.  An interrupt above
    [MAX_IRQ], or one no device has registered, cannot be enabled: the
    call fails with [CantEnableIrq] and changes nothing.  For a
    registered one the call succeeds; its entry is then ENABLED and
    otherwise as before, no other entry changes, [timer_irq] is raised
    when it is the virtual-timer interrupt that goes from DISABLED to
    ENABLED, and a second call changes nothing. *)
Theorem enable_irq_enables (irq : Z) (w : Vmm) (e : Irq.t) :
  (Gic.MAX_IRQ < irq -> Gic._enable_irq irq w = (w, Throw CantEnableIrq))
  /\
  (irq <= Gic.MAX_IRQ -> at_index (_irqs w) irq = Some e ->
   (Irq.device e = None ->
    Gic._enable_irq irq w = (w, Throw CantEnableIrq))
   /\
   (Irq.device e <> None ->
    let w' := state_after (Gic._enable_irq irq) w in
    outcome (Gic._enable_irq irq) w = Ok tt
    /\ at_index (_irqs w') irq = Some (Irq.set_distr_state Irq.ENABLED e)
    /\ (forall j, j <> irq -> at_index (_irqs w') j = at_index (_irqs w) j)
    /\ timer_irq (_state w')
       = (if (irq =? Gic.TIMER)
             && bool_decide (Irq.distr_state e = Irq.DISABLED)
          then true else timer_irq (_state w))
    /\ Gic._enable_irq irq w' = (w', Ok tt))).
Proof.
  split.
  - intros Hgt. unfold Gic._enable_irq.
    destruct (Z.gtb_spec irq Gic.MAX_IRQ); [reflexivity|lia].
  - intros Hle He.
    pose proof (at_index_range _ _ _ He) as Hr.
    pose proof (enable_irq_call irq w e Hle He) as Hcall.
    split.
    + intros Hd. rewrite Hcall, Hd. reflexivity.
    + intros Hd w'. subst w'. unfold state_after, outcome.
      rewrite Hcall.
      destruct (Irq.device e) as [d|] eqn:Ed; [clear Hd|contradiction].
      destruct e as [c ds dv eo]. simpl in Ed. subst dv.
      destruct ds; cbn [Irq.distr_state bool_decide decide_rel
        Irq.Distr_state_eq_dec].
      * (* already enabled *)
        change (bool_decide (Irq.ENABLED = Irq.ENABLED)) with true.
        change (bool_decide (Irq.ENABLED = Irq.DISABLED)) with false.
        rewrite andb_false_r. cbn [fst snd].
        repeat split; assumption.
      * change (bool_decide (Irq.DISABLED = Irq.ENABLED)) with false.
        change (bool_decide (Irq.DISABLED = Irq.DISABLED)) with true.
        rewrite andb_true_r. cbn [fst snd].
        repeat split.
        -- destruct (irq =? Gic.TIMER); simpl;
             eapply at_index_insert_eq, He.
        -- intros j Hj.
           destruct (irq =? Gic.TIMER); simpl;
             apply at_index_insert_ne; lia.
        -- destruct (irq =? Gic.TIMER); reflexivity.
        -- unfold Gic._enable_irq.
           destruct (Z.gtb_spec irq Gic.MAX_IRQ); [lia|].
           erewrite bind_ok.
           2:{ apply irq_at_ok.
               destruct (irq =? Gic.TIMER); simpl;
                 eapply at_index_insert_eq, He. }
           reflexivity.
Qed.

Lemma set_irqs_id (w : Vmm) : set_irqs (_irqs w) w = w.
Proof. destruct w; reflexivity. Qed.

Lemma insert_at_index_id {A} (l : list A) (i : Z) (x : A) :
  at_index l i = Some x -> <[Z.to_nat i := x]> l = l.
Proof.
  unfold at_index. destruct (_ && _); [|discriminate].
  apply list_insert_id.
Qed.

Lemma disable_irq_call (irq : Z) (w : Vmm) (e : Irq.t) :
  irq <= Gic.MAX_IRQ -> at_index (_irqs w) irq = Some e ->
  Gic._disable_irq irq w
  = if bool_decide (Irq.distr_state e = Irq.DISABLED) then (w, Ok tt)
    else
      let w1 := set_irqs (<[Z.to_nat irq :=
                    Irq.set_distr_state Irq.DISABLED e]> (_irqs w)) w in
      match Irq.device e with
      | None => (w1, Throw Undefined)
      | Some _ =>
          (if irq =? Gic.TIMER
           then set_state (set_timer_irq false (_state w1)) w1
           else w1, Ok tt)
      end.
Proof.
  intros Hle He. unfold Gic._disable_irq.
  destruct (Z.gtb_spec irq Gic.MAX_IRQ); [lia|].
  erewrite bind_ok by (apply irq_at_ok, He).
  destruct (bool_decide _); [reflexivity|].
  erewrite bind_ok by (apply update_irq_ok, He).
  destruct (Irq.device e); [|reflexivity].
  destruct (irq =? Gic.TIMER); reflexivity.
Qed.

(** X13: disabling undoes enabling.  For a registered interrupt that is
    DISABLED, enabling and then disabling it succeeds and gives back the
    state it started from, with one exception: for the virtual-timer
    interrupt [timer_irq] ends up cleared, whatever it was.  Disabling an
    interrupt that is DISABLED changes nothing, and one above [MAX_IRQ]
    cannot be disabled. *)
Theorem disable_undoes_enable (irq : Z) (w : Vmm) (e : Irq.t) :
  (Gic.MAX_IRQ < irq -> Gic._disable_irq irq w = (w, Throw IRQOutOfBounds))
  /\
  (irq <= Gic.MAX_IRQ -> at_index (_irqs w) irq = Some e ->
   Irq.distr_state e = Irq.DISABLED ->
   Gic._disable_irq irq w = (w, Ok tt)
   /\ (Irq.device e <> None ->
       (Gic._enable_irq irq ;; Gic._disable_irq irq) w
       = (clear_timer_irq irq w, Ok tt))).
Proof.
  split.
  - intros Hgt. unfold Gic._disable_irq.
    destruct (Z.gtb_spec irq Gic.MAX_IRQ); [reflexivity|lia].
  - intros Hle He Hdis. split.
    + rewrite (disable_irq_call _ _ e Hle He), Hdis. reflexivity.
    + intros Hdev.
      destruct e as [c ds [d|] eo]; [clear Hdev|contradiction].
      simpl in Hdis. subst ds.
      set (e := Irq.Build c Irq.DISABLED (Some d) eo) in *.
      set (w1 := set_irqs (<[Z.to_nat irq :=
                    Irq.set_distr_state Irq.ENABLED e]> (_irqs w)) w).
      set (w2 := if irq =? Gic.TIMER
                 then set_state (set_timer_irq true (_state w1)) w1
                 else w1).
      assert (Gic._enable_irq irq w = (w2, Ok tt)) as Hen.
      { unfold Gic._enable_irq.
        destruct (Z.gtb_spec irq Gic.MAX_IRQ); [lia|].
        erewrite bind_ok by (apply irq_at_ok, He).
        cbn [e Irq.device Irq.distr_state].
        change (bool_decide (Irq.DISABLED = Irq.ENABLED)) with false.
        cbv iota.
        erewrite bind_ok by (apply update_irq_ok, He).
        subst w2 w1. destruct (irq =? Gic.TIMER); reflexivity. }
      erewrite bind_ok by exact Hen.
      assert (at_index (_irqs w2) irq
              = Some (Irq.set_distr_state Irq.ENABLED e)) as He2.
      { subst w2 w1. destruct (irq =? Gic.TIMER); simpl;
          eapply at_index_insert_eq, He. }
      rewrite (disable_irq_call _ _ _ Hle He2).
      cbn [e Irq.set_distr_state Irq.device Irq.distr_state Irq.cpu_state
           Irq.eoi].
      change (bool_decide (Irq.ENABLED = Irq.DISABLED)) with false.
      cbv iota zeta. f_equal.
      assert (<[Z.to_nat irq := e]> (_irqs w2) = _irqs w) as Hback.
      { subst w2 w1. destruct (irq =? Gic.TIMER); simpl;
          rewrite list_insert_insert_eq; apply insert_at_index_id, He. }
      change (Irq.set_distr_state Irq.DISABLED
                (Irq.set_distr_state Irq.ENABLED e)) with e.
      rewrite Hback. unfold clear_timer_irq. subst w2 w1.
      destruct (irq =? Gic.TIMER); destruct w; reflexivity.
Qed.

(** *** Virtual ids in the list registers

    The monitor writes a list register in two places: [_inject_irq] puts
    there the id of an interrupt of the table, and [_handle_eoi] zero.
    So the virtual id of every list register stays within the table, and
    [_handle_eoi] never meets an id beyond it. *)

Lemma table_ok_frame (w w' : Vmm) :
  table_ok w ->
  gic_lr (_state w') = gic_lr (_state w) ->
  length (_irqs w') = length (_irqs w) ->
  table_ok w'.
Proof.
  intros [[Hlr Hirqs] Hids] Elr Eirqs. split; [split|].
  - rewrite Elr. exact Hlr.
  - rewrite Eirqs. exact Hirqs.
  - intros i Hi. unfold lr_of. rewrite Elr. apply Hids, Hi.
Qed.

Lemma table_ok_write (w : Vmm) (i v : Z) (w' : Vmm) :
  table_ok w ->
  gic_lr (_state w') = <[Z.to_nat i := v]> (gic_lr (_state w)) ->
  length (_irqs w') = length (_irqs w) ->
  0 <= i < Z.of_nat NR_IRQ ->
  Bitfield.get Gic.Gich_lr.Virt_id v <= Gic.MAX_IRQ ->
  table_ok w'.
Proof.
  intros [[Hlr Hirqs] Hids] Elr Eirqs Hi Hv. split; [split|].
  - rewrite Elr, length_insert. exact Hlr.
  - rewrite Eirqs. exact Hirqs.
  - intros j Hj. unfold lr_of. rewrite Elr.
    rewrite at_index_insert by (rewrite ?Hlr; lia).
    destruct (Z.eqb_spec i j); [exact Hv|]. apply Hids, Hj.
Qed.

Lemma table_ok_inject (w : Vmm) (irq : Z) :
  table_ok w -> table_ok (state_after (Gic.inject_irq irq) w).
Proof.
  intros H. pose proof H as [Hok _]. unfold state_after.
  destruct (at_index (_irqs w) irq) as [e|] eqn:He.
  2:{ unfold Gic.inject_irq, bind, Gic.irq_at. rewrite He. exact H. }
  pose proof (at_index_range _ _ _ He) as Hr.
  rewrite (inject_irq_spec irq e w Hok He).
  destruct (Irq.device e); [|exact H].
  destruct (bool_decide (Irq.cpu_state e = Irq.PENDING)); [exact H|].
  assert (table_ok (mark_pending irq e w)) as H1.
  { apply (table_ok_frame w _ H).
    - rewrite state_mark_pending. reflexivity.
    - unfold mark_pending. destruct (Irq.eoi e); [|reflexivity].
      apply length_insert. }
  destruct (bool_decide (Irq.distr_state e = Irq.DISABLED)); [exact H1|].
  assert (table_ok (clear_timer_irq irq (mark_pending irq e w))) as H2.
  { apply (table_ok_frame _ _ H1).
    - apply gic_lr_clear_timer.
    - unfold clear_timer_irq. destruct (irq =? Gic.TIMER); reflexivity. }
  destruct (existsb _ _).
  - apply (table_ok_frame _ _ H2); reflexivity.
  - destruct (find _ _) as [i|] eqn:Hfind; [|exact H2].
    apply find_some in Hfind. destruct Hfind as [Hin _].
    apply in_range in Hin. cbn [fst].
    apply (table_ok_write _ i (Gic.lr_value irq (Irq.eoi e)) _ H2);
      [reflexivity|reflexivity|exact Hin|].
    destruct Hok as [_ Hn].
    destruct (lr_value_fields irq (Irq.eoi e)) as [-> _];
      unfold Gic.MAX_IRQ in *; lia.
Qed.

Lemma virt_id_zero : Bitfield.get Gic.Gich_lr.Virt_id 0 = 0.
Proof. reflexivity. Qed.

Lemma table_ok_retire_lr (w : Vmm) (i : Z) :
  table_ok w -> 0 <= i < Z.of_nat NR_IRQ -> table_ok (retire_lr i w).
Proof.
  intros H Hi. unfold retire_lr.
  destruct (at_index (_irqs w) _) as [e|] eqn:He; [|exact H].
  set (raise := (_ =? Gic.TIMER) && bool_decide _).
  apply (table_ok_write w i 0 _ H).
  - destruct raise; reflexivity.
  - simpl. apply length_insert.
  - exact Hi.
  - rewrite virt_id_zero. unfold Gic.MAX_IRQ. lia.
Qed.

Lemma table_ok_eoi_body (w : Vmm) (i : Z) :
  table_ok w -> 0 <= i < Z.of_nat NR_IRQ ->
  table_ok (fst (Gic._handle_eoi_body i w)).
Proof.
  intros H Hi. pose proof H as [Hok Hids].
  destruct (Z.testbit (gic_eisr (_state w)) i) eqn:Hbit.
  - rewrite eoi_body_retire by (try assumption; apply Hids, Hi).
    apply table_ok_retire_lr; assumption.
  - rewrite eoi_body_skip by (try assumption; lia). exact H.
Qed.

Lemma table_ok_handle_eoi (w : Vmm) :
  table_ok w -> table_ok (fst (Gic._handle_eoi w)).
Proof.
  intros H. unfold Gic._handle_eoi.
  erewrite bind_ok by reflexivity. cbv beta.
  destruct (Z.land (gic_misr (_state w)) 1 =? 0); [exact H|].
  pose proof (for_each_preserves table_ok (range NR_IRQ)
                Gic._handle_eoi_body) as Hloop.
  specialize (Hloop (fun i s Hin Hs =>
    table_ok_eoi_body s i Hs (proj1 (in_range _ _) Hin)) w H).
  unfold bind.
  destruct (for_each (range NR_IRQ) Gic._handle_eoi_body w)
    as [w1 [[]|err]]; simpl in Hloop |- *; [|exact Hloop].
  apply (table_ok_frame w1); auto.
Qed.

Lemma table_ok_call (c : Gic_call) (w : Vmm) :
  table_ok w -> table_ok (state_after (gic_call c) w).
Proof.
  intros H. destruct c as [[irq|misr eisr]|irq|irq].
  - apply table_ok_inject, H.
  - unfold state_after. cbn [gic_call gic_step].
    erewrite bind_ok by reflexivity.
    apply table_ok_handle_eoi.
    apply (table_ok_frame w); auto.
  - unfold state_after. cbn [gic_call].
    destruct (Z.le_gt_cases irq Gic.MAX_IRQ) as [Hle|Hgt].
    + destruct (at_index (_irqs w) irq) as [e|] eqn:He.
      * rewrite (enable_irq_call _ _ e Hle He).
        destruct (Irq.device e); [|exact H].
        destruct (bool_decide _); [exact H|].
        cbv zeta. cbn [fst].
        apply (table_ok_frame w _ H).
        -- destruct (irq =? Gic.TIMER); reflexivity.
        -- destruct (irq =? Gic.TIMER); simpl; apply length_insert.
      * unfold Gic._enable_irq.
        destruct (Z.gtb_spec irq Gic.MAX_IRQ); [lia|].
        unfold bind, Gic.irq_at. rewrite He. exact H.
    + unfold Gic._enable_irq.
      destruct (Z.gtb_spec irq Gic.MAX_IRQ); [exact H|lia].
  - unfold state_after. cbn [gic_call].
    destruct (Z.le_gt_cases irq Gic.MAX_IRQ) as [Hle|Hgt].
    + destruct (at_index (_irqs w) irq) as [e|] eqn:He.
      * rewrite (disable_irq_call _ _ e Hle He).
        destruct (bool_decide _); [exact H|].
        cbv zeta.
        destruct (Irq.device e); cbn [fst];
          apply (table_ok_frame w _ H);
          try (destruct (irq =? Gic.TIMER); reflexivity);
          try (destruct (irq =? Gic.TIMER); simpl; apply length_insert);
          try reflexivity; simpl; apply length_insert.
      * unfold Gic._disable_irq.
        destruct (Z.gtb_spec irq Gic.MAX_IRQ); [lia|].
        unfold bind, Gic.irq_at. rewrite He. exact H.
    + unfold Gic._disable_irq.
      destruct (Z.gtb_spec irq Gic.MAX_IRQ); [exact H|lia].
Qed.

(** Whatever injections, maintenance interrupts and stores to the enable
    registers the monitor has served, every list register holds a virtual
    id within the interrupt table. *)
Lemma table_ok_calls (cs : list Gic_call) (w : Vmm) :
  table_ok w -> table_ok (gic_calls cs w).
Proof.
  revert w. induction cs as [|c cs IH]; intros w H; [exact H|].
  simpl. apply IH. apply table_ok_call, H.
Qed.

(** So it is in the freshly constructed monitor, whatever the state block
    held before: [Vm::start] has cleared the list registers. *)
Lemma table_ok_new_Vmm (block : State) :
  length (gic_lr block) = NR_IRQ -> table_ok (@new_Vmm vea9x4_board block).
Proof.
  intros Hlen.
  assert (gic_lr (_state (@new_Vmm vea9x4_board block))
          = <[3%nat := 0]> (<[2%nat := 0]> (<[1%nat := 0]> (<[0%nat := 0]>
              (gic_lr block))))) as Elr by reflexivity.
  assert (length (_irqs (@new_Vmm vea9x4_board block)) = 257%nat) as Eirqs
    by reflexivity.
  destruct (gic_lr block) as [|a [|b [|c [|d [|x l]]]]]; try discriminate.
  split; [split|].
  - rewrite Elr. reflexivity.
  - rewrite Eirqs. reflexivity.
  - intros i Hi. unfold lr_of. rewrite Elr.
    destruct (four_cases i Hi) as [->|[->|[->| ->]]];
      apply Z.leb_le; reflexivity.
Qed.

(** *** An interrupt injected while disabled *)

Lemma lost_frame (w w' : Vmm) (irq : Z) :
  lost w irq ->
  length (gic_lr (_state w')) = length (gic_lr (_state w)) ->
  length (_irqs w') = length (_irqs w) ->
  (forall e, at_index (_irqs w) irq = Some e ->
     exists e', at_index (_irqs w') irq = Some e'
                /\ Irq.cpu_state e' = Irq.cpu_state e
                /\ Irq.device e' = Irq.device e) ->
  (forall i, 0 <= i < Z.of_nat NR_IRQ ->
     holds_id (_state w) irq i = false ->
     holds_id (_state w') irq i = false) ->
  lost w' irq.
Proof.
  intros ([Hlr Hirqs] & (e & He & Hp & Hd) & Hno) Hl1 Hl2 Hent Hids.
  split; [|split].
  - split; [rewrite Hl1; exact Hlr | rewrite Hl2; exact Hirqs].
  - destruct (Hent e He) as (e' & He' & Hc & Hdev).
    exists e'. rewrite Hc, Hdev. auto.
  - intros i Hi. apply Hids; auto.
Qed.

Lemma lost_same_arrays (w w' : Vmm) (irq : Z) :
  lost w irq ->
  gic_lr (_state w') = gic_lr (_state w) -> _irqs w' = _irqs w ->
  lost w' irq.
Proof.
  intros H Hlr Hirqs. apply (lost_frame w); auto.
  - rewrite Hlr; reflexivity.
  - rewrite Hirqs; reflexivity.
  - intros e He. exists e. rewrite Hirqs. auto.
  - intros i _. unfold holds_id, lr_of. rewrite Hlr. auto.
Qed.

Lemma lost_update_other (w : Vmm) (irq irq' : Z) (x : Irq.t) :
  lost w irq -> 0 <= irq' -> irq' <> irq ->
  lost (set_irqs (<[Z.to_nat irq' := x]> (_irqs w)) w) irq.
Proof.
  intros H Hpos Hne. apply (lost_frame w); auto.
  - simpl. apply length_insert.
  - intros e He. exists e. simpl.
    rewrite at_index_insert_ne by lia. auto.
Qed.

Lemma lost_update_distr (w : Vmm) (irq irq' : Z) (e' : Irq.t)
    (v : Irq.Distr_state) :
  lost w irq -> at_index (_irqs w) irq' = Some e' ->
  lost (set_irqs (<[Z.to_nat irq' := Irq.set_distr_state v e']> (_irqs w)) w)
       irq.
Proof.
  intros H He'. pose proof (at_index_range _ _ _ He') as Hr.
  apply (lost_frame w); auto.
  - simpl. apply length_insert.
  - intros e He. simpl.
    destruct (Z.eq_dec irq' irq) as [->|Hne].
    + rewrite He in He'. injection He' as <-.
      exists (Irq.set_distr_state v e).
      erewrite at_index_insert_eq by exact He. auto.
    + exists e. rewrite at_index_insert_ne by lia. auto.
Qed.

Lemma lost_mark_pending (w : Vmm) (irq irq' : Z) (e' : Irq.t) :
  lost w irq -> 0 <= irq' -> irq' <> irq ->
  lost (mark_pending irq' e' w) irq.
Proof.
  intros H Hpos Hne. unfold mark_pending.
  destruct (Irq.eoi e'); [|exact H].
  apply lost_update_other; assumption.
Qed.

Lemma lost_clear_timer_irq (w : Vmm) (irq irq' : Z) :
  lost w irq -> lost (clear_timer_irq irq' w) irq.
Proof.
  intros H. unfold clear_timer_irq.
  destruct (irq' =? Gic.TIMER); [|exact H].
  apply (lost_same_arrays w); auto.
Qed.

Lemma lost_take_lr (w : Vmm) (irq irq' i : Z) (eoi : bool) :
  lost w irq -> 0 <= i < Z.of_nat NR_IRQ -> 0 <= irq' < 1024 ->
  irq' <> irq ->
  lost (take_lr irq' eoi i w) irq.
Proof.
  intros H Hi Hirq' Hne.
  pose proof H as ([Hlr _] & _ & _).
  apply (lost_frame w); auto.
  - simpl. apply length_insert.
  - intros e He. exists e. auto.
  - intros j Hj Hold. unfold holds_id in *.
    rewrite take_lr_lr_of by (rewrite ?Hlr; lia).
    destruct (Z.eqb_spec i j); [|exact Hold].
    destruct (lr_value_fields irq' eoi Hirq') as (-> & _).
    apply Z.eqb_neq. exact Hne.
Qed.

Lemma lost_retire_lr (w : Vmm) (irq i : Z) :
  lost w irq -> 0 < irq -> 0 <= i < Z.of_nat NR_IRQ ->
  lost (retire_lr i w) irq.
Proof.
  intros H Hpos Hi.
  pose proof H as ([Hlr _] & _ & Hno).
  pose proof (virt_id_range (lr_of (_state w) i)) as Hv.
  pose proof (Hno i Hi) as Hid. unfold holds_id in Hid.
  apply Z.eqb_neq in Hid.
  unfold retire_lr.
  destruct (at_index (_irqs w) _) as [e'|] eqn:He'; [|exact H].
  set (raise := (_ =? Gic.TIMER) && bool_decide _).
  apply (lost_frame w); auto.
  - destruct raise; simpl; apply length_insert.
  - simpl. apply length_insert.
  - intros e He. exists e. simpl.
    rewrite at_index_insert_ne by lia. auto.
  - intros j Hj Hold. unfold holds_id, lr_of in *.
    destruct raise; simpl; rewrite at_index_insert by (rewrite ?Hlr; lia);
      (destruct (Z.eqb_spec i j); [|exact Hold]);
      simpl; clear -Hpos; destruct irq; try reflexivity; lia.
Qed.

Lemma inject_again_is_refused (w : Vmm) (irq : Z) :
  lost w irq -> Gic.inject_irq irq w = (w, Throw DoubleInject).
Proof.
  intros (Hok & (e & He & Hp & Hd) & _).
  rewrite (inject_irq_spec irq e w Hok He).
  destruct (Irq.device e); [|contradiction].
  rewrite Hp. reflexivity.
Qed.

Lemma lost_inject (w : Vmm) (irq irq' : Z) :
  lost w irq -> lost (state_after (Gic.inject_irq irq') w) irq.
Proof.
  intros H. unfold state_after.
  destruct (Z.eq_dec irq' irq) as [->|Hne].
  { rewrite inject_again_is_refused by exact H. exact H. }
  pose proof H as (Hok & _ & _).
  destruct (at_index (_irqs w) irq') as [e'|] eqn:He'.
  - pose proof (at_index_range _ _ _ He') as Hr.
    destruct Hok as [Hlr Hirqs]. unfold Gic.MAX_IRQ in Hirqs.
    rewrite (inject_irq_spec irq' e' w (conj Hlr Hirqs) He').
    destruct (Irq.device e'); [|exact H].
    destruct (bool_decide (Irq.cpu_state e' = Irq.PENDING)); [exact H|].
    assert (lost (mark_pending irq' e' w) irq) as H1
      by (apply lost_mark_pending; [exact H|lia|exact Hne]).
    destruct (bool_decide (Irq.distr_state e' = Irq.DISABLED)); [exact H1|].
    assert (lost (clear_timer_irq irq' (mark_pending irq' e' w)) irq) as H2
      by (apply lost_clear_timer_irq, H1).
    destruct (existsb _ _).
    + simpl. apply (lost_same_arrays _ _ _ H2); reflexivity.
    + destruct (find _ _) as [i|] eqn:Hfind; [|exact H2].
      apply find_some in Hfind. destruct Hfind as [Hin _].
      apply in_range in Hin. simpl.
      eapply lost_same_arrays;
        [apply (lost_take_lr _ irq irq' i (Irq.eoi e') H2); lia
        | reflexivity | reflexivity].
  - unfold Gic.inject_irq, bind, Gic.irq_at. rewrite He'. exact H.
Qed.

Lemma lost_eoi_body (w : Vmm) (irq i : Z) :
  lost w irq -> 0 < irq -> 0 <= i < Z.of_nat NR_IRQ ->
  lost (fst (Gic._handle_eoi_body i w)) irq.
Proof.
  intros H Hpos Hi. pose proof H as (Hok & _ & _).
  destruct (Z.testbit (gic_eisr (_state w)) i) eqn:Hbit.
  - destruct (Z.le_gt_cases
                (Bitfield.get Gic.Gich_lr.Virt_id (lr_of (_state w) i))
                Gic.MAX_IRQ) as [Hle|Hgt].
    + rewrite eoi_body_retire by assumption.
      apply lost_retire_lr; assumption.
    + rewrite eoi_body_throw by (try assumption; lia). exact H.
  - rewrite eoi_body_skip by (try assumption; lia). exact H.
Qed.

Lemma lost_handle_eoi (w : Vmm) (irq : Z) :
  lost w irq -> 0 < irq -> lost (fst (Gic._handle_eoi w)) irq.
Proof.
  intros H Hpos. unfold Gic._handle_eoi.
  erewrite bind_ok by reflexivity. cbv beta.
  destruct (Z.land (gic_misr (_state w)) 1 =? 0); [exact H|].
  pose proof (for_each_preserves (fun w => lost w irq) (range NR_IRQ)
                Gic._handle_eoi_body) as Hloop.
  specialize (Hloop (fun i s Hin Hs =>
    lost_eoi_body s irq i Hs Hpos (proj1 (in_range _ _) Hin)) w H).
  unfold bind.
  destruct (for_each (range NR_IRQ) Gic._handle_eoi_body w)
    as [w1 [[]|err]]; simpl in Hloop |- *; [|exact Hloop].
  apply (lost_same_arrays w1); auto.
Qed.

Lemma lost_call (c : Gic_call) (w : Vmm) (irq : Z) :
  lost w irq -> 0 < irq -> lost (state_after (gic_call c) w) irq.
Proof.
  intros H Hpos. destruct c as [[irq'|misr eisr]|irq'|irq'].
  - apply lost_inject, H.
  - unfold state_after. cbn [gic_call gic_step].
    erewrite bind_ok by reflexivity.
    apply lost_handle_eoi; [|exact Hpos].
    apply (lost_same_arrays w); auto.
  - unfold state_after. cbn [gic_call].
    destruct (Z.le_gt_cases irq' Gic.MAX_IRQ) as [Hle|Hgt].
    + destruct (at_index (_irqs w) irq') as [e'|] eqn:He'.
      * rewrite (enable_irq_call _ _ e' Hle He').
        destruct (Irq.device e'); [|exact H].
        destruct (bool_decide _); [exact H|].
        cbv zeta. cbn [fst].
        pose proof (lost_update_distr w irq irq' e' Irq.ENABLED H He') as H1.
        destruct (irq' =? Gic.TIMER); [|exact H1].
        apply (lost_same_arrays _ _ _ H1); reflexivity.
      * unfold Gic._enable_irq.
        destruct (Z.gtb_spec irq' Gic.MAX_IRQ); [lia|].
        unfold bind, Gic.irq_at. rewrite He'. exact H.
    + unfold Gic._enable_irq.
      destruct (Z.gtb_spec irq' Gic.MAX_IRQ); [exact H|lia].
  - unfold state_after. cbn [gic_call].
    destruct (Z.le_gt_cases irq' Gic.MAX_IRQ) as [Hle|Hgt].
    + destruct (at_index (_irqs w) irq') as [e'|] eqn:He'.
      * rewrite (disable_irq_call _ _ e' Hle He').
        destruct (bool_decide _); [exact H|].
        cbv zeta.
        pose proof (lost_update_distr w irq irq' e' Irq.DISABLED H He') as H1.
        destruct (Irq.device e'); [|exact H1]. cbn [fst].
        destruct (irq' =? Gic.TIMER); [|exact H1].
        apply (lost_same_arrays _ _ _ H1); reflexivity.
      * unfold Gic._disable_irq.
        destruct (Z.gtb_spec irq' Gic.MAX_IRQ); [lia|].
        unfold bind, Gic.irq_at. rewrite He'. exact H.
    + unfold Gic._disable_irq.
      destruct (Z.gtb_spec irq' Gic.MAX_IRQ); [exact H|lia].
Qed.

Lemma lost_calls (cs : list Gic_call) (w : Vmm) (irq : Z) :
  lost w irq -> 0 < irq -> lost (gic_calls cs w) irq.
Proof.
  revert w. induction cs as [|c cs IH]; intros w H Hpos; [exact H|].
  simpl. apply IH; [|exact Hpos]. apply lost_call; assumption.
Qed.

(** X14: an interrupt injected while disabled is lost for good.  Take an
    interrupt of a device that requires EOI, is INACTIVE, is DISABLED in
    the distributor, and is in no list register.  Its injection succeeds
    and marks it PENDING without taking a list register.  From then on,
    whatever injections, maintenance interrupts and stores to the enable
    registers follow, it stays PENDING and outside the list registers,
    so that every further injection of it fails with [DoubleInject] and
    changes nothing: enabling it afterwards does not deliver it. *)
Theorem disabled_injection_is_lost
    (irq : Z) (e : Irq.t) (w : Vmm) (calls : list Gic_call) :
  arrays_ok w -> 0 < irq ->
  at_index (_irqs w) irq = Some e ->
  Irq.device e <> None -> Irq.eoi e = true ->
  Irq.cpu_state e = Irq.INACTIVE -> Irq.distr_state e = Irq.DISABLED ->
  (forall i, 0 <= i < Z.of_nat NR_IRQ -> holds_id (_state w) irq i = false) ->
  let w1 := state_after (Gic.inject_irq irq) w in
  let w2 := gic_calls calls w1 in
  outcome (Gic.inject_irq irq) w = Ok tt
  /\ gic_lr (_state w1) = gic_lr (_state w)
  /\ gic_elrsr0 (_state w1) = gic_elrsr0 (_state w)
  /\ is_pending w2 irq
  /\ (forall i, 0 <= i < Z.of_nat NR_IRQ ->
        holds_id (_state w2) irq i = false)
  /\ Gic.inject_irq irq w2 = (w2, Throw DoubleInject).
Proof.
  intros Hok Hpos He Hdev Heoi Hcpu Hdis Hno w1 w2.
  assert (Gic.inject_irq irq w = (mark_pending irq e w, Ok tt)) as Hinj.
  { rewrite (inject_irq_spec irq e w Hok He).
    destruct (Irq.device e); [|contradiction].
    rewrite Hcpu, Hdis. reflexivity. }
  assert (lost w1 irq) as H1.
  { subst w1. unfold state_after. rewrite Hinj. cbn [fst].
    split; [apply mark_pending_arrays, Hok|]. split.
    - unfold mark_pending. rewrite Heoi. simpl.
      exists (Irq.set_cpu_state Irq.PENDING e).
      erewrite at_index_insert_eq by exact He. auto.
    - rewrite state_mark_pending. exact Hno. }
  pose proof (lost_calls calls w1 irq H1 Hpos) as H2. fold w2 in H2.
  split; [unfold outcome; rewrite Hinj; reflexivity|].
  split; [subst w1; unfold state_after; rewrite Hinj; cbn [fst];
          rewrite state_mark_pending; reflexivity|].
  split; [subst w1; unfold state_after; rewrite Hinj; cbn [fst];
          rewrite state_mark_pending; reflexivity|].
  split.
  { destruct H2 as (_ & (e2 & He2 & Hp2 & _) & _). exists e2. auto. }
  split; [apply H2|].
  apply inject_again_is_refused, H2.
Qed.

(** *** Distributor registers *)

Lemma store_load_bits (old x m k : Z) :
  0 <= m -> 0 <= k ->
  Z.land (Z.shiftr (Z.lor (Z.ldiff old (Z.shiftl (Z.ones m) k))
                          (Z.shiftl (Z.land x (Z.ones m)) k)) k)
         (Z.ones m)
  = Z.land x (Z.ones m).
Proof.
  intros Hm Hk. apply Z.bits_inj'. intros i Hi.
  rewrite !Z.land_spec, Z.shiftr_spec, Z.lor_spec, Z.ldiff_spec by lia.
  rewrite !Z.shiftl_spec by lia. rewrite Z.land_spec.
  replace (i + k - k) with i by lia.
  rewrite Z.testbit_ones_nonneg by lia.
  destruct (Z.ltb_spec i m); simpl.
  - rewrite andb_true_r, andb_false_r. reflexivity.
  - rewrite !andb_false_r. reflexivity.
Qed.

Lemma store_bytes_bytes_at (n : Z) (p : Ptr) (x : Z) (s : State) (old : Z) :
  value_at (p_loc p) s = Some old -> 0 <= n -> 0 <= p_byte p ->
  exists s' new,
    store_bytes n p x s = (s', Ok tt)
    /\ value_at (p_loc p) s' = Some new
    /\ bytes_at n p s' = Some (Z.land x (Z.ones (8 * n))).
Proof.
  intros Hold Hn Hb.
  destruct (value_at_store _ _ _
    (Z.lor (Z.ldiff old (Z.shiftl (Z.ones (8 * n)) (8 * p_byte p)))
           (Z.shiftl (Z.land x (Z.ones (8 * n))) (8 * p_byte p))) Hold)
    as (s' & Hst & Hnew).
  eexists s', _. split; [|split; [exact Hnew|]].
  - unfold store_bytes. erewrite bind_ok by (apply value_at_load, Hold).
    exact Hst.
  - unfold bytes_at, outcome, load_bytes.
    erewrite bind_ok by (apply value_at_load, Hnew). simpl.
    rewrite store_load_bits by lia. reflexivity.
Qed.

Lemma on_state_store_bytes (n : Z) (p : Ptr) (x : Z) (w : Vmm) (old : Z) :
  value_at (p_loc p) (_state w) = Some old -> 0 <= n -> 0 <= p_byte p ->
  exists s' new,
    on_state (store_bytes n p x) w = (set_state s' w, Ok tt)
    /\ value_at (p_loc p) s' = Some new
    /\ bytes_at n p s' = Some (Z.land x (Z.ones (8 * n))).
Proof.
  intros Hold Hn Hb.
  destruct (store_bytes_bytes_at n p x _ _ Hold Hn Hb)
    as (s' & new & Hst & Hnew & Hby).
  exists s', new. split; [|auto].
  unfold on_state. rewrite Hst. reflexivity.
Qed.

Lemma land_1_range (v : Z) : 0 <= Z.land v 1 < 2.
Proof.
  change 1 with (Z.ones 1). rewrite Z.land_ones by lia.
  apply Z.mod_pos_bound. lia.
Qed.

Lemma land_1_cases (v : Z) :
  Z.land v 1 = if negb (Z.land v 1 =? 0) then 1 else 0.
Proof.
  pose proof (land_1_range v).
  destruct (Z.eqb_spec (Z.land v 1) 0); simpl; lia.
Qed.

Lemma within_true (off lo hi : Z) :
  lo <= off <= hi -> Gic_mmio.within off lo hi = true.
Proof.
  intros H. unfold Gic_mmio.within.
  destruct (Z.geb_spec off lo); [|lia].
  destruct (Z.leb_spec off hi); [reflexivity|lia].
Qed.

Lemma within_false (off lo hi : Z) :
  off < lo \/ hi < off -> Gic_mmio.within off lo hi = false.
Proof.
  intros H. unfold Gic_mmio.within.
  destruct (Z.geb_spec off lo); [|reflexivity].
  destruct (Z.leb_spec off hi); [lia|reflexivity].
Qed.

Ltac gic_ranges :=
  unfold Gic_mmio.GICD_CTLR, Gic_mmio.GICD_TYPER,
    Gic_mmio.GICD_ISENABLER0, Gic_mmio.GICD_ISENABLERL,
    Gic_mmio.GICD_ICENABLER0, Gic_mmio.GICD_ICENABLERL,
    Gic_mmio.GICD_IPRIORITYR0, Gic_mmio.GICD_IPRIORITYRL,
    Gic_mmio.GICD_ITARGETSR0, Gic_mmio.GICD_ITARGETSRL,
    Gic_mmio.GICD_ICFGR2, Gic_mmio.GICD_ICFGRL in *.

Ltac within_tac :=
  repeat first
    [ rewrite within_true by (gic_ranges; lia)
    | rewrite within_false by (gic_ranges; lia) ].

(** X15: what the guest loads from the distributor.  Every GICD_ITARGETSR
    register reads as 0x01010101, every GICD_ICFGR register from the
    third on as 0, GICD_TYPER as 5, and GICD_CTLR as the enable bit the
    guest stored there last: after a store of a word to GICD_CTLR, a load
    gives bit 0 of that word. *)
Theorem distributor_loads (reg : Ptr) (off : Z) (w : Vmm) (old : Z) :
  value_at (p_loc reg) (_state w) = Some old -> 0 <= p_byte reg ->
  let loaded := fun off w =>
    (outcome (Gic_mmio.read reg off) w,
     bytes_at 4 reg (_state (state_after (Gic_mmio.read reg off) w))) in
  (Gic_mmio.GICD_ITARGETSR0 <= off <= Gic_mmio.GICD_ITARGETSRL ->
   loaded off w = (Ok tt, Some 0x01010101))
  /\ (Gic_mmio.GICD_ICFGR2 <= off <= Gic_mmio.GICD_ICFGRL ->
      loaded off w = (Ok tt, Some 0))
  /\ loaded Gic_mmio.GICD_TYPER w = (Ok tt, Some 5)
  /\ loaded Gic_mmio.GICD_CTLR w
     = (Ok tt, Some (if _distr_enabled w then 1 else 0))
  /\ (forall v, bytes_at 4 reg (_state w) = Some v ->
        outcome (Gic_mmio.write reg Gic_mmio.GICD_CTLR) w = Ok tt
        /\ loaded Gic_mmio.GICD_CTLR
             (state_after (Gic_mmio.write reg Gic_mmio.GICD_CTLR) w)
           = (Ok tt, Some (Z.land v 1))).
Proof.
  intros Hold Hb loaded.
  assert (forall x w0 old0,
            value_at (p_loc reg) (_state w0) = Some old0 ->
            0 <= x < 2 ^ 32 ->
            (outcome (on_state (store_bytes 4 reg x)) w0,
             bytes_at 4 reg
               (_state (state_after (on_state (store_bytes 4 reg x)) w0)))
            = (Ok tt, Some x)) as Hstore.
  { intros x w0 old0 H0 Hx.
    destruct (on_state_store_bytes 4 reg x w0 old0 H0 ltac:(lia) Hb)
      as (s' & new & Hst & _ & Hby).
    unfold outcome, state_after. rewrite Hst. simpl. rewrite Hby.
    change (8 * 4) with 32. rewrite Z.land_ones by lia.
    rewrite Z.mod_small by lia. reflexivity. }
  assert (forall w0 old0,
            value_at (p_loc reg) (_state w0) = Some old0 ->
            loaded Gic_mmio.GICD_CTLR w0
            = (Ok tt, Some (if _distr_enabled w0 then 1 else 0))) as Hctlr.
  { intros w0 old0 H0. unfold loaded, Gic_mmio.read. within_tac. cbn.
    unfold outcome, state_after. erewrite bind_ok by reflexivity.
    apply (Hstore _ _ old0 H0). destruct (_distr_enabled w0); lia. }
  split; [|split; [|split; [|split]]].
  - intros Hoff. unfold loaded, Gic_mmio.read. within_tac.
    apply (Hstore _ _ old Hold). lia.
  - intros Hoff. unfold loaded, Gic_mmio.read. within_tac.
    apply (Hstore _ _ old Hold). lia.
  - unfold loaded, Gic_mmio.read. within_tac. cbn.
    apply (Hstore _ _ old Hold). lia.
  - apply (Hctlr w old Hold).
  - intros v Hv.
    assert (Gic_mmio.write reg Gic_mmio.GICD_CTLR w
            = (set_distr_enabled (negb (Z.land v 1 =? 0)) w, Ok tt)) as Hw.
    { unfold Gic_mmio.write. within_tac.
      erewrite bind_ok by reflexivity. cbv iota.
      erewrite bind_ok by reflexivity. cbv iota. cbn.
      erewrite bind_ok by (apply on_state_load_bytes, Hv). reflexivity. }
    split; [unfold outcome; rewrite Hw; reflexivity|].
    replace (state_after (Gic_mmio.write reg Gic_mmio.GICD_CTLR) w)
      with (set_distr_enabled (negb (Z.land v 1 =? 0)) w)
      by (unfold state_after; rewrite Hw; reflexivity).
    rewrite (Hctlr _ old) by exact Hold.
    cbn [_distr_enabled set_distr_enabled].
    rewrite <- land_1_cases. reflexivity.
Qed.

(** X16: what the distributor accepts from the guest beside the enable
    bits.  A store to a GICD_IPRIORITYR register is accepted and dropped,
    yet a load from there is refused.  A GICD_ITARGETSR register accepts
    the word 0x01010101 only and a GICD_ICFGR register from the third on
    the word 0 only; any other word is refused, as is every store to
    GICD_TYPER.  None of these changes the state, and the refusal is
    [UnsupportedGicOffset]. *)
Theorem distributor_stores (reg : Ptr) (off : Z) (w : Vmm) (v : Z) :
  bytes_at 4 reg (_state w) = Some v ->
  (Gic_mmio.GICD_IPRIORITYR0 <= off <= Gic_mmio.GICD_IPRIORITYRL ->
   Gic_mmio.write reg off w = (w, Ok tt)
   /\ Gic_mmio.read reg off w = (w, Throw UnsupportedGicOffset))
  /\ (Gic_mmio.GICD_ITARGETSR0 <= off <= Gic_mmio.GICD_ITARGETSRL ->
      Gic_mmio.write reg off w
      = (w, if v =? 0x01010101 then Ok tt else Throw UnsupportedGicOffset))
  /\ (Gic_mmio.GICD_ICFGR2 <= off <= Gic_mmio.GICD_ICFGRL ->
      Gic_mmio.write reg off w
      = (w, if v =? 0 then Ok tt else Throw UnsupportedGicOffset))
  /\ Gic_mmio.write reg Gic_mmio.GICD_TYPER w
     = (w, Throw UnsupportedGicOffset).
Proof.
  intros Hv. pose proof (on_state_load_bytes _ _ _ _ Hv) as Hl.
  split; [|split; [|split]].
  - intros Hoff. split.
    + unfold Gic_mmio.write. within_tac. reflexivity.
    + unfold Gic_mmio.read. within_tac.
      destruct (Z.eqb_spec off Gic_mmio.GICD_CTLR); [gic_ranges; lia|].
      destruct (Z.eqb_spec off Gic_mmio.GICD_TYPER); [gic_ranges; lia|].
      reflexivity.
  - intros Hoff. unfold Gic_mmio.write. within_tac.
    erewrite bind_ok by (erewrite bind_ok by exact Hl; reflexivity).
    destruct (v =? 0x01010101); [reflexivity|].
    erewrite bind_ok by reflexivity. cbv iota.
    destruct (Z.eqb_spec off Gic_mmio.GICD_CTLR); [gic_ranges; lia|].
    reflexivity.
  - intros Hoff. unfold Gic_mmio.write. within_tac.
    erewrite bind_ok by reflexivity. cbv iota.
    erewrite bind_ok by (erewrite bind_ok by exact Hl; reflexivity).
    destruct (v =? 0); [reflexivity|].
    destruct (Z.eqb_spec off Gic_mmio.GICD_CTLR); [gic_ranges; lia|].
    reflexivity.
  - reflexivity.
Qed.

(** *** Enable registers *)

Lemma shiftr_land_1 (v i : Z) :
  0 <= i -> negb (Z.land (Z.shiftr v i) 1 =? 0) = Z.testbit v i.
Proof.
  intros Hi. change 1 with (Z.shiftl 1 0).
  rewrite land_bit_testbit by lia. rewrite negb_involutive.
  rewrite Z.shiftr_spec by lia. reflexivity.
Qed.

Lemma u32_small (x : Z) : 0 <= x < 2 ^ 32 -> u32 x = x.
Proof. intros H. unfold u32. apply Z.mod_small. exact H. Qed.

Lemma bytes_at_same_registers (n : Z) (p : Ptr) (s s' : State) :
  regs s' = regs s -> mode s' = mode s -> bytes_at n p s' = bytes_at n p s.
Proof.
  intros Hr Hm. unfold bytes_at, outcome, load_bytes, bind, load.
  destruct (p_loc p); rewrite ?Hr, ?Hm; destruct (at_index _ _); reflexivity.
Qed.

Lemma named_by_range (idx v j : Z) :
  existsb (fun i => (idx + i =? j) && Z.testbit v i) (range 32)
  = named_by idx v j.
Proof.
  unfold named_by.
  destruct (Z.leb_spec idx j); cbn [andb].
  - destruct (Z.ltb_spec j (idx + 32)); cbn [andb].
    + destruct (Z.testbit v (j - idx)) eqn:Hb.
      * apply (existsb_range_true _ _ (j - idx)); [lia|].
        rewrite Hb. replace (idx + (j - idx)) with j by lia.
        rewrite Z.eqb_refl. reflexivity.
      * apply existsb_range_false. intros i Hi.
        destruct (Z.eqb_spec (idx + i) j) as [<-|]; [|reflexivity].
        replace (idx + i - idx) with i in Hb by lia. rewrite Hb. reflexivity.
    + apply existsb_range_false. intros i Hi.
      destruct (Z.eqb_spec (idx + i) j); [lia|reflexivity].
  - apply existsb_range_false. intros i Hi.
    destruct (Z.eqb_spec (idx + i) j); [lia|reflexivity].
Qed.

Section Enable_registers.

(** The loop of a store to an enable register: [call] is [_enable_irq]
    or [_disable_irq], [st] the state it puts an interrupt into, and
    [fit] what it needs of the entry. *)
Variable call : Z -> M Vmm unit.
Variable st : Irq.Distr_state.
Variable fit : Irq.t -> Prop.

Hypothesis fit_kept : forall e, fit e -> fit (Irq.set_distr_state st e).

Hypothesis call_ok : forall irq w e,
  irq <= Gic.MAX_IRQ -> at_index (_irqs w) irq = Some e -> fit e ->
  exists w1,
    call irq w = (w1, Ok tt)
    /\ (forall j, at_index (_irqs w1) j
          = (fun e => if irq =? j then Irq.set_distr_state st e else e)
              <$> at_index (_irqs w) j)
    /\ regs (_state w1) = regs (_state w)
    /\ mode (_state w1) = mode (_state w).

Lemma enable_register_loop (reg : Ptr) (idx v : Z) (l : list Z) (w : Vmm) :
  (forall i, In i l -> 0 <= i) ->
  bytes_at 4 reg (_state w) = Some v ->
  (forall i, In i l -> Z.testbit v i = true ->
     idx + i <= Gic.MAX_IRQ
     /\ exists e, at_index (_irqs w) (idx + i) = Some e /\ fit e) ->
  exists w',
    for_each l (fun i =>
      let* v := on_state (load_bytes 4 reg) in
      if negb (Z.land (Z.shiftr v i) 1 =? 0) then call (idx + i)
      else ret tt) w = (w', Ok tt)
    /\ bytes_at 4 reg (_state w') = Some v
    /\ forall j, at_index (_irqs w') j
         = (fun e =>
              if existsb (fun i => (idx + i =? j) && Z.testbit v i) l
              then Irq.set_distr_state st e else e)
             <$> at_index (_irqs w) j.
Proof.
  revert w. induction l as [|i l IH]; intros w Hpos Hv Hfit.
  - exists w. split; [reflexivity|]. split; [exact Hv|].
    intros j. simpl. destruct (at_index (_irqs w) j); reflexivity.
  - cbn [for_each].
    assert (0 <= i) as Hi by (apply Hpos; left; reflexivity).
    destruct (Z.testbit v i) eqn:Hbit.
    + destruct (Hfit i (or_introl eq_refl) Hbit) as (Hmax & e & He & Hfe).
      destruct (call_ok _ _ _ Hmax He Hfe) as (w1 & Hc & Hent & Hr & Hm).
      assert (bytes_at 4 reg (_state w1) = Some v) as Hv1
        by (rewrite (bytes_at_same_registers _ _ _ _ Hr Hm); exact Hv).
      destruct (IH w1) as (w' & Hloop & Hv' & Hent').
      * intros k Hk. apply Hpos. right. exact Hk.
      * exact Hv1.
      * intros k Hk Hkb.
        destruct (Hfit k (or_intror Hk) Hkb) as (Hkmax & ek & Hek & Hfk).
        split; [exact Hkmax|]. rewrite Hent, Hek. simpl.
        eexists; split; [reflexivity|].
        destruct (idx + i =? idx + k); [apply fit_kept|]; exact Hfk.
      * exists w'. split; [|split; [exact Hv'|]].
        -- erewrite bind_ok; [exact Hloop|].
           erewrite bind_ok by (apply on_state_load_bytes, Hv).
           rewrite shiftr_land_1, Hbit by lia. exact Hc.
        -- intros j. rewrite Hent', Hent. simpl.
           destruct (at_index (_irqs w) j) as [ej|]; [|reflexivity].
           simpl. f_equal. rewrite Hbit, andb_true_r.
           destruct (idx + i =? j); simpl;
             destruct (existsb _ l); reflexivity.
    + destruct (IH w) as (w' & Hloop & Hv' & Hent').
      * intros k Hk. apply Hpos. right. exact Hk.
      * exact Hv.
      * intros k Hk Hkb. apply Hfit; [right; exact Hk|exact Hkb].
      * exists w'. split; [|split; [exact Hv'|]].
        -- erewrite bind_ok; [exact Hloop|].
           erewrite bind_ok by (apply on_state_load_bytes, Hv).
           rewrite shiftr_land_1, Hbit by lia. reflexivity.
        -- intros j. rewrite Hent'. cbn [existsb].
           rewrite Hbit, andb_false_r. reflexivity.
Qed.

End Enable_registers.

Lemma enable_irq_effect (irq : Z) (w : Vmm) (e : Irq.t) :
  irq <= Gic.MAX_IRQ -> at_index (_irqs w) irq = Some e ->
  Irq.device e <> None ->
  exists w1,
    Gic._enable_irq irq w = (w1, Ok tt)
    /\ (forall j, at_index (_irqs w1) j
          = (fun e => if irq =? j
                      then Irq.set_distr_state Irq.ENABLED e else e)
              <$> at_index (_irqs w) j)
    /\ regs (_state w1) = regs (_state w)
    /\ mode (_state w1) = mode (_state w).
Proof.
  intros Hle He Hdev. pose proof (at_index_range _ _ _ He) as Hr.
  rewrite (enable_irq_call _ _ e Hle He).
  destruct (Irq.device e); [clear Hdev|contradiction].
  assert (forall j,
            at_index (<[Z.to_nat irq := Irq.set_distr_state Irq.ENABLED e]>
                        (_irqs w)) j
            = (fun e => if irq =? j
                        then Irq.set_distr_state Irq.ENABLED e else e)
                <$> at_index (_irqs w) j) as Hins.
  { intros j. destruct (Z.eqb_spec irq j) as [<-|Hne].
    - erewrite at_index_insert_eq by exact He. rewrite He. reflexivity.
    - rewrite at_index_insert_ne by lia.
      destruct (at_index (_irqs w) j); simpl; [|reflexivity].
      destruct (Z.eqb_spec irq j); [contradiction|reflexivity]. }
  destruct (bool_decide (Irq.distr_state e = Irq.ENABLED)) eqn:Hen.
  - apply bool_decide_eq_true in Hen.
    exists w. split; [reflexivity|]. split; [|auto].
    intros j. destruct (Z.eqb_spec irq j) as [<-|Hne].
    + rewrite He. simpl.
      destruct e; simpl in *; subst; reflexivity.
    + destruct (at_index (_irqs w) j); simpl; [|reflexivity].
      destruct (Z.eqb_spec irq j); [contradiction|reflexivity].
  - eexists. split; [reflexivity|].
    destruct (irq =? Gic.TIMER); simpl; auto.
Qed.

Lemma disable_irq_effect (irq : Z) (w : Vmm) (e : Irq.t) :
  irq <= Gic.MAX_IRQ -> at_index (_irqs w) irq = Some e ->
  Irq.distr_state e = Irq.DISABLED \/ Irq.device e <> None ->
  exists w1,
    Gic._disable_irq irq w = (w1, Ok tt)
    /\ (forall j, at_index (_irqs w1) j
          = (fun e => if irq =? j
                      then Irq.set_distr_state Irq.DISABLED e else e)
              <$> at_index (_irqs w) j)
    /\ regs (_state w1) = regs (_state w)
    /\ mode (_state w1) = mode (_state w).
Proof.
  intros Hle He Hfit. pose proof (at_index_range _ _ _ He) as Hr.
  rewrite (disable_irq_call _ _ e Hle He).
  assert (forall j,
            at_index (<[Z.to_nat irq := Irq.set_distr_state Irq.DISABLED e]>
                        (_irqs w)) j
            = (fun e => if irq =? j
                        then Irq.set_distr_state Irq.DISABLED e else e)
                <$> at_index (_irqs w) j) as Hins.
  { intros j. destruct (Z.eqb_spec irq j) as [<-|Hne].
    - erewrite at_index_insert_eq by exact He. rewrite He. reflexivity.
    - rewrite at_index_insert_ne by lia.
      destruct (at_index (_irqs w) j); simpl; [|reflexivity].
      destruct (Z.eqb_spec irq j); [contradiction|reflexivity]. }
  destruct (bool_decide (Irq.distr_state e = Irq.DISABLED)) eqn:Hdis.
  - apply bool_decide_eq_true in Hdis.
    exists w. split; [reflexivity|]. split; [|auto].
    intros j. destruct (Z.eqb_spec irq j) as [<-|Hne].
    + rewrite He. simpl.
      destruct e; simpl in *; subst; reflexivity.
    + destruct (at_index (_irqs w) j); simpl; [|reflexivity].
      destruct (Z.eqb_spec irq j); [contradiction|reflexivity].
  - apply bool_decide_eq_false in Hdis.
    destruct Hfit as [Hd|Hdev]; [contradiction|].
    destruct (Irq.device e); [clear Hdev|contradiction].
    cbv zeta. eexists. split; [reflexivity|].
    destruct (irq =? Gic.TIMER); simpl; auto.
Qed.

(** X17: a store to an enable register of the distributor.  The word
    stored to GICD_ISENABLERn names the interrupts 32n + i whose bit i is
    set.  If each of them is at most [MAX_IRQ] and registered by a device,
    the store succeeds, and afterwards the interrupts it names are ENABLED
    and every entry of the table is otherwise what it was.  A store to
    GICD_ICENABLERn does the same with DISABLED, and asks of an interrupt
    it names only that it is at most [MAX_IRQ] and either registered or
    DISABLED already. *)
Theorem enable_register_store (reg : Ptr) (off : Z) (w : Vmm) (v : Z) :
  bytes_at 4 reg (_state w) = Some v ->
  (Gic_mmio.GICD_ISENABLER0 <= off <= Gic_mmio.GICD_ISENABLERL ->
   let idx := (off - Gic_mmio.GICD_ISENABLER0) * 8 in
   (forall i, 0 <= i < 32 -> Z.testbit v i = true ->
      idx + i <= Gic.MAX_IRQ
      /\ exists e, at_index (_irqs w) (idx + i) = Some e
                   /\ Irq.device e <> None) ->
   outcome (Gic_mmio.write reg off) w = Ok tt
   /\ forall j,
        at_index (_irqs (state_after (Gic_mmio.write reg off) w)) j
        = after_store Irq.ENABLED idx v j <$> at_index (_irqs w) j)
  /\
  (Gic_mmio.GICD_ICENABLER0 <= off <= Gic_mmio.GICD_ICENABLERL ->
   let idx := (off - Gic_mmio.GICD_ICENABLER0) * 8 in
   (forall i, 0 <= i < 32 -> Z.testbit v i = true ->
      idx + i <= Gic.MAX_IRQ
      /\ exists e, at_index (_irqs w) (idx + i) = Some e
                   /\ (Irq.distr_state e = Irq.DISABLED
                       \/ Irq.device e <> None)) ->
   outcome (Gic_mmio.write reg off) w = Ok tt
   /\ forall j,
        at_index (_irqs (state_after (Gic_mmio.write reg off) w)) j
        = after_store Irq.DISABLED idx v j <$> at_index (_irqs w) j).
Proof.
  intros Hv. split.
  - intros Hoff idx Hfit.
    destruct (enable_register_loop Gic._enable_irq Irq.ENABLED
                (fun e => Irq.device e <> None)
                ltac:(intros e H; exact H)
                enable_irq_effect reg idx v (range 32) w)
      as (w' & Hloop & _ & Hent).
    + intros i Hi. apply in_range in Hi. lia.
    + exact Hv.
    + intros i Hi. apply in_range in Hi. apply Hfit. simpl in Hi. lia.
    + assert (Gic_mmio.write reg off w = (w', Ok tt)) as Hw.
      { unfold Gic_mmio.write. within_tac.
        erewrite bind_ok by reflexivity. cbv iota.
        erewrite bind_ok by reflexivity. cbv iota.
        rewrite (u32_small off) by (gic_ranges; lia).
        rewrite u32_small by (gic_ranges; lia).
        exact Hloop. }
      unfold outcome, state_after. rewrite Hw. split; [reflexivity|].
      intros j. simpl. rewrite Hent. unfold after_store.
      rewrite named_by_range. reflexivity.
  - intros Hoff idx Hfit.
    destruct (enable_register_loop Gic._disable_irq Irq.DISABLED
                (fun e => Irq.distr_state e = Irq.DISABLED
                          \/ Irq.device e <> None)
                ltac:(intros e H; left; reflexivity)
                disable_irq_effect reg idx v (range 32) w)
      as (w' & Hloop & _ & Hent).
    + intros i Hi. apply in_range in Hi. lia.
    + exact Hv.
    + intros i Hi. apply in_range in Hi. apply Hfit. simpl in Hi. lia.
    + assert (Gic_mmio.write reg off w = (w', Ok tt)) as Hw.
      { unfold Gic_mmio.write. within_tac.
        erewrite bind_ok by reflexivity. cbv iota.
        erewrite bind_ok by reflexivity. cbv iota.
        rewrite (u32_small off) by (gic_ranges; lia).
        rewrite u32_small by (gic_ranges; lia).
        exact Hloop. }
      unfold outcome, state_after. rewrite Hw. split; [reflexivity|].
      intros j. simpl. rewrite Hent. unfold after_store.
      rewrite named_by_range. reflexivity.
Qed.

Lemma enabled_in_is_enabled (w : Vmm) (irq : Z) :
  enabled_in w irq = true <-> is_enabled w irq.
Proof.
  unfold enabled_in, is_enabled. split.
  - destruct (at_index (_irqs w) irq) as [e|]; [|discriminate].
    intros H. apply bool_decide_eq_true in H. exists e. auto.
  - intros (e & -> & H). apply bool_decide_eq_true. exact H.
Qed.

Lemma isenabler_load_step (reg : Ptr) (idx i : Z) (w : Vmm) (e : Irq.t)
    (old acc : Z) :
  0 <= p_byte reg ->
  value_at (p_loc reg) (_state w) = Some old ->
  bytes_at 4 reg (_state w) = Some acc ->
  at_index (_irqs w) (idx + i) = Some e ->
  exists w1 old1,
    (let* e := Gic.irq_at (idx + i) in
     if bool_decide (Irq.distr_state e = Irq.ENABLED) then
       let* v := on_state (load_bytes 4 reg) in
       on_state (store_bytes 4 reg (Z.lor v (Z.shiftl 1 i)))
     else ret tt) w = (w1, Ok tt)
    /\ _irqs w1 = _irqs w
    /\ value_at (p_loc reg) (_state w1) = Some old1
    /\ bytes_at 4 reg (_state w1)
       = Some (if enabled_in w (idx + i)
               then Z.land (Z.lor acc (Z.shiftl 1 i)) (Z.ones 32) else acc).
Proof.
  intros Hb Hold Hacc He.
  erewrite bind_ok by (apply irq_at_ok, He).
  unfold enabled_in. rewrite He.
  destruct (bool_decide (Irq.distr_state e = Irq.ENABLED)).
  - erewrite bind_ok by (apply on_state_load_bytes, Hacc).
    destruct (on_state_store_bytes 4 reg (Z.lor acc (Z.shiftl 1 i)) w old
                Hold ltac:(lia) Hb) as (s' & new & Hst & Hnew & Hby).
    exists (set_state s' w), new. rewrite Hst. auto.
  - exists w, old. auto.
Qed.

Lemma isenabler_load_loop (reg : Ptr) (idx : Z) (l : list Z) (w : Vmm)
    (old acc : Z) :
  0 <= p_byte reg ->
  (forall i, In i l -> 0 <= i) ->
  value_at (p_loc reg) (_state w) = Some old ->
  bytes_at 4 reg (_state w) = Some acc ->
  (forall i, In i l -> exists e, at_index (_irqs w) (idx + i) = Some e) ->
  exists w' acc',
    for_each l (fun i =>
      let* e := Gic.irq_at (idx + i) in
      if bool_decide (Irq.distr_state e = Irq.ENABLED) then
        let* v := on_state (load_bytes 4 reg) in
        on_state (store_bytes 4 reg (Z.lor v (Z.shiftl 1 i)))
      else ret tt) w = (w', Ok tt)
    /\ bytes_at 4 reg (_state w') = Some acc'
    /\ forall k, 0 <= k < 32 ->
         Z.testbit acc' k
         = Z.testbit acc k
           || existsb (fun i => (i =? k) && enabled_in w (idx + i)) l.
Proof.
  intros Hb. revert w old acc.
  induction l as [|i l IH]; intros w old acc Hpos Hold Hacc Hin.
  - exists w, acc. split; [reflexivity|]. split; [exact Hacc|].
    intros k _. simpl. rewrite orb_false_r. reflexivity.
  - destruct (Hin i (or_introl eq_refl)) as [e He].
    assert (0 <= i) as Hi by (apply Hpos; left; reflexivity).
    destruct (isenabler_load_step reg idx i w e old acc Hb Hold Hacc He)
      as (w1 & old1 & Hstep & Hirqs & Hold1 & Hacc1).
    destruct (IH w1 old1 _ (fun k Hk => Hpos k (or_intror Hk)) Hold1 Hacc1)
      as (w' & acc' & Hloop & Hacc' & Hbits).
    { intros k Hk. rewrite Hirqs. apply Hin. right. exact Hk. }
    exists w', acc'. split; [|split; [exact Hacc'|]].
    + cbn [for_each]. erewrite bind_ok by exact Hstep. exact Hloop.
    + intros k Hk. rewrite (Hbits k Hk). cbn [existsb].
      assert (forall j, enabled_in w1 j = enabled_in w j) as Hsame
        by (intros j; unfold enabled_in; rewrite Hirqs; reflexivity).
      rewrite (existsb_ext_in _ (fun i0 => (i0 =? k) && enabled_in w (idx + i0)))
        by (intros x _; rewrite Hsame; reflexivity).
      destruct (enabled_in w (idx + i)).
      * rewrite Z.land_spec, Z.testbit_ones_nonneg by lia.
        destruct (Z.ltb_spec k 32); [|lia].
        rewrite andb_true_r, testbit_setbit by lia.
        rewrite andb_true_r, orb_assoc. reflexivity.
      * rewrite andb_false_r. reflexivity.
Qed.

Lemma isenabler_load_overrun (reg : Ptr) (idx : Z) (l : list Z) (w : Vmm)
    (old acc : Z) :
  0 <= p_byte reg ->
  value_at (p_loc reg) (_state w) = Some old ->
  bytes_at 4 reg (_state w) = Some acc ->
  (exists i, In i l /\ at_index (_irqs w) (idx + i) = None) ->
  exists w',
    for_each l (fun i =>
      let* e := Gic.irq_at (idx + i) in
      if bool_decide (Irq.distr_state e = Irq.ENABLED) then
        let* v := on_state (load_bytes 4 reg) in
        on_state (store_bytes 4 reg (Z.lor v (Z.shiftl 1 i)))
      else ret tt) w = (w', Throw Undefined).
Proof.
  intros Hb. revert w old acc.
  induction l as [|i l IH]; intros w old acc Hold Hacc (k & Hk & Hnone).
  - destruct Hk.
  - cbn [for_each].
    destruct (at_index (_irqs w) (idx + i)) as [e|] eqn:He.
    + destruct (isenabler_load_step reg idx i w e old acc Hb Hold Hacc He)
        as (w1 & old1 & Hstep & Hirqs & Hold1 & Hacc1).
      erewrite bind_ok by exact Hstep.
      apply (IH w1 old1 _ Hold1 Hacc1).
      destruct Hk as [Hk|Hk]; [congruence|].
      exists k. rewrite Hirqs. auto.
    + exists w. erewrite bind_throw; [reflexivity|].
      erewrite bind_throw; [reflexivity|].
      unfold Gic.irq_at. rewrite He. reflexivity.
Qed.

(** X18: a load from GICD_ISENABLERn.  Up to offset 0x11c, where the 32
    interrupts of the register are all within the table, the load
    succeeds and bit i of the word it gives is set exactly if interrupt
    32n + i is ENABLED.  Beyond, up to GICD_ISENABLERL, the loop reads
    past the end of the interrupt table, which has [MAX_IRQ + 1] entries:
    the model stops there with [Undefined]. *)
Theorem enable_register_load (reg : Ptr) (off : Z) (w : Vmm) (old : Z) :
  arrays_ok w ->
  value_at (p_loc reg) (_state w) = Some old -> 0 <= p_byte reg ->
  Gic_mmio.GICD_ISENABLER0 <= off <= Gic_mmio.GICD_ISENABLERL ->
  let idx := (off - Gic_mmio.GICD_ISENABLER0) * 8 in
  (off <= 0x11c ->
   outcome (Gic_mmio.read reg off) w = Ok tt
   /\ exists word,
        bytes_at 4 reg (_state (state_after (Gic_mmio.read reg off) w))
        = Some word
        /\ forall i, 0 <= i < 32 ->
             (Z.testbit word i = true <-> is_enabled w (idx + i)))
  /\
  (0x11c < off -> outcome (Gic_mmio.read reg off) w = Throw Undefined).
Proof.
  intros [_ Hirqs] Hold Hb Hoff idx.
  destruct (on_state_store_bytes 4 reg 0 w old Hold ltac:(lia) Hb)
    as (s0 & old0 & Hst & Hold0 & Hacc0).
  rewrite Z.land_0_l in Hacc0.
  assert (forall r,
            for_each (range 32) (fun i =>
              let* e := Gic.irq_at (idx + i) in
              if bool_decide (Irq.distr_state e = Irq.ENABLED) then
                let* v := on_state (load_bytes 4 reg) in
                on_state (store_bytes 4 reg (Z.lor v (Z.shiftl 1 i)))
              else ret tt) (set_state s0 w) = r ->
            Gic_mmio.read reg off w = r) as Hread.
  { intros r <-. unfold Gic_mmio.read. within_tac.
    erewrite bind_ok by exact Hst.
    rewrite (u32_small off) by (gic_ranges; lia).
    rewrite u32_small by (gic_ranges; lia). reflexivity. }
  split.
  - intros Hlow.
    destruct (isenabler_load_loop reg idx (range 32) (set_state s0 w)
                old0 0 Hb) as (w' & word & Hloop & Hword & Hbits).
    + intros i Hi. apply in_range in Hi. lia.
    + exact Hold0.
    + exact Hacc0.
    + intros i Hi. apply in_range in Hi. simpl in Hi.
      apply at_index_Some. simpl. subst idx. gic_ranges.
      unfold Gic.MAX_IRQ in Hirqs. lia.
    + unfold outcome, state_after. rewrite (Hread _ Hloop).
      split; [reflexivity|]. exists word. split; [exact Hword|].
      intros i Hi. rewrite (Hbits i Hi), Z.bits_0. cbn [orb].
      rewrite <- enabled_in_is_enabled.
      change (enabled_in w (idx + i))
        with (enabled_in (set_state s0 w) (idx + i)).
      destruct (enabled_in (set_state s0 w) (idx + i)) eqn:Hen.
      * split; [reflexivity|]. intros _.
        apply (existsb_range_true _ _ i); [simpl; lia|].
        rewrite Z.eqb_refl, Hen. reflexivity.
      * split; [|discriminate]. intros Hex.
        apply existsb_exists in Hex as (k & _ & Hk). revert Hk.
        destruct (Z.eqb_spec k i) as [->|]; [rewrite Hen|]; discriminate.
  - intros Hhigh.
    destruct (isenabler_load_overrun reg idx (range 32) (set_state s0 w)
                old0 0 Hb Hold0 Hacc0) as (w' & Hloop).
    + exists 31. split; [apply in_range; simpl; lia|].
      unfold at_index. simpl _irqs.
      destruct (Z.ltb_spec (idx + 31) (Z.of_nat (length (_irqs w))));
        [|rewrite andb_false_r; reflexivity].
      subst idx. gic_ranges. unfold Gic.MAX_IRQ in Hirqs. lia.
    + unfold outcome. rewrite (Hread _ Hloop). reflexivity.
Qed.

(** *** Repeated injection, and the way back *)

Lemma irqs_clear_timer (irq : Z) (w : Vmm) :
  _irqs (clear_timer_irq irq w) = _irqs w.
Proof. unfold clear_timer_irq. destruct (irq =? Gic.TIMER); reflexivity. Qed.

Lemma clear_timer_twice (irq : Z) (w : Vmm) :
  clear_timer_irq irq (clear_timer_irq irq w) = clear_timer_irq irq w.
Proof. unfold clear_timer_irq. destruct (irq =? Gic.TIMER); reflexivity. Qed.

Lemma arrays_ok_frame (w w' : Vmm) :
  arrays_ok w ->
  length (gic_lr (_state w')) = length (gic_lr (_state w)) ->
  _irqs w' = _irqs w -> arrays_ok w'.
Proof.
  intros [Hlr Hirqs] H1 H2. split; [rewrite H1|rewrite H2]; assumption.
Qed.

(** X19: injecting twice an interrupt that requires no EOI.  Once the
    injection of such an interrupt has succeeded, injecting it again
    succeeds and changes nothing: while a list register holds it, it
    takes no second one. *)
Theorem injection_without_eoi_is_idempotent
    (irq : Z) (e : Irq.t) (w w1 : Vmm) :
  arrays_ok w -> at_index (_irqs w) irq = Some e -> Irq.eoi e = false ->
  Gic.inject_irq irq w = (w1, Ok tt) ->
  Gic.inject_irq irq w1 = (w1, Ok tt).
Proof.
  intros Hok He Heoi Hinj.
  pose proof (at_index_range _ _ _ He) as Hr.
  destruct Hok as [Hlr Hirqs]. unfold Gic.MAX_IRQ in Hirqs.
  assert (mark_pending irq e w = w) as Hmark
    by (unfold mark_pending; rewrite Heoi; reflexivity).
  rewrite (inject_irq_spec irq e w (conj Hlr Hirqs) He) in Hinj.
  rewrite Hmark in Hinj.
  destruct (Irq.device e) as [d|] eqn:Hdev; [|discriminate].
  destruct (bool_decide (Irq.cpu_state e = Irq.PENDING)) eqn:Hpend;
    [discriminate|].
  destruct (bool_decide (Irq.distr_state e = Irq.DISABLED)) eqn:Hdis.
  { injection Hinj as <-.
    rewrite (inject_irq_spec irq e w (conj Hlr Hirqs) He).
    rewrite Hdev, Hpend, Hdis, Hmark. reflexivity. }
  assert (forall w2,
            arrays_ok w2 -> _irqs w2 = _irqs w ->
            (exists i, 0 <= i < Z.of_nat NR_IRQ
                       /\ in_flight (_state w2) irq i = true) ->
            Gic.inject_irq irq w2
            = (set_active true (clear_timer_irq irq w2), Ok tt)) as Hagain.
  { intros w2 Hok2 Hsame (i & Hi & Hfl).
    rewrite (inject_irq_spec irq e w2 Hok2) by (rewrite Hsame; exact He).
    rewrite Hdev, Hpend, Hdis.
    rewrite (existsb_range_true _ _ i Hi) by exact Hfl.
    unfold mark_pending. rewrite Heoi. reflexivity. }
  destruct (existsb (in_flight (_state w) irq) (range NR_IRQ)) eqn:Hheld.
  - injection Hinj as <-.
    apply existsb_exists in Hheld as (i & Hi & Hfl). apply in_range in Hi.
    rewrite Hagain.
    + f_equal. unfold clear_timer_irq.
      destruct (irq =? Gic.TIMER); reflexivity.
    + apply (arrays_ok_frame w _ (conj Hlr Hirqs)).
      * cbn [_state set_active]. rewrite gic_lr_clear_timer. reflexivity.
      * cbn [_irqs set_active]. apply irqs_clear_timer.
    + cbn [_irqs set_active]. apply irqs_clear_timer.
    + exists i. split; [exact Hi|]. cbn [_state set_active].
      rewrite in_flight_clear_timer. exact Hfl.
  - destruct (find (Z.testbit (gic_elrsr0 (_state w))) (range NR_IRQ))
      as [k|] eqn:Hfind; [|discriminate].
    injection Hinj as <-.
    apply find_some in Hfind as [Hk _]. apply in_range in Hk.
    rewrite Hagain.
    + f_equal. unfold clear_timer_irq.
      destruct (irq =? Gic.TIMER); reflexivity.
    + apply (arrays_ok_frame w _ (conj Hlr Hirqs)).
      * cbn [_state set_active take_lr set_state gic_lr set_gic_lr].
        rewrite length_insert, gic_lr_clear_timer. reflexivity.
      * cbn [_irqs set_active take_lr set_state]. apply irqs_clear_timer.
    + cbn [_irqs set_active take_lr set_state]. apply irqs_clear_timer.
    + exists k. split; [exact Hk|].
      change (_state (set_active true ?x)) with (_state x).
      rewrite in_flight_take_lr
        by (rewrite ?gic_lr_clear_timer, ?Hlr; lia).
      rewrite !Z.eqb_refl. reflexivity.
Qed.

Lemma retire_lr_eisr (k : Z) (w : Vmm) :
  gic_eisr (_state (retire_lr k w)) = gic_eisr (_state w).
Proof.
  unfold retire_lr. destruct (at_index (_irqs w) _); [|reflexivity].
  destruct (_ && _); reflexivity.
Qed.

Lemma retire_lr_arrays (k : Z) (w : Vmm) :
  arrays_ok w -> arrays_ok (retire_lr k w).
Proof.
  intros [Hlr Hirqs]. unfold retire_lr.
  destruct (at_index (_irqs w) _); [|split; assumption].
  split.
  - destruct (_ && _); simpl; rewrite length_insert; exact Hlr.
  - simpl. rewrite length_insert. exact Hirqs.
Qed.

Lemma eoi_loop_skip (l : list Z) (w : Vmm) :
  (forall i, In i l ->
     0 <= i /\ Z.testbit (gic_eisr (_state w)) i = false) ->
  for_each l Gic._handle_eoi_body w = (w, Ok tt).
Proof.
  induction l as [|i l IH]; intros H; [reflexivity|].
  cbn [for_each].
  destruct (H i (or_introl eq_refl)) as [Hi Hbit].
  erewrite bind_ok by (apply eoi_body_skip; assumption).
  apply IH. intros j Hj. apply H. right. exact Hj.
Qed.

Lemma eoi_loop_single (k : Z) (l : list Z) (w : Vmm) :
  arrays_ok w -> 0 <= k < Z.of_nat NR_IRQ ->
  gic_eisr (_state w) = Z.shiftl 1 k ->
  Bitfield.get Gic.Gich_lr.Virt_id (lr_of (_state w) k) <= Gic.MAX_IRQ ->
  (forall i, In i l -> 0 <= i) -> NoDup l -> In k l ->
  for_each l Gic._handle_eoi_body w = (retire_lr k w, Ok tt).
Proof.
  intros Hok Hk Heisr Hmax.
  assert (forall i, 0 <= i ->
            Z.testbit (gic_eisr (_state w)) i = (k =? i)) as Hbits.
  { intros i Hi. rewrite Heisr, Z.shiftl_1_l.
    apply Z.pow2_bits_eqb. lia. }
  induction l as [|i l IH]; intros Hpos Hnd Hin; [destruct Hin|].
  cbn [for_each]. apply NoDup_cons in Hnd as [Hni Hnd].
  assert (0 <= i) as Hi by (apply Hpos; left; reflexivity).
  destruct (Z.eq_dec i k) as [->|Hne].
  - erewrite bind_ok.
    2:{ apply eoi_body_retire; try assumption.
        rewrite Hbits by lia. apply Z.eqb_refl. }
    apply eoi_loop_skip. intros j Hj.
    assert (0 <= j) as Hj0 by (apply Hpos; right; exact Hj).
    split; [exact Hj0|].
    rewrite retire_lr_eisr, Hbits by exact Hj0.
    apply Z.eqb_neq. intros E. apply Hni, list_elem_of_In.
    rewrite E. exact Hj.
  - erewrite bind_ok.
    2:{ apply eoi_body_skip; [exact Hi|].
        rewrite Hbits by exact Hi. apply Z.eqb_neq. congruence. }
    apply IH.
    + intros j Hj. apply Hpos. right. exact Hj.
    + exact Hnd.
    + destruct Hin as [E|Hin]; [congruence|exact Hin].
Qed.

Lemma NoDup_range (n : nat) : NoDup (range n).
Proof.
  unfold range. apply (NoDup_fmap_2 Z.of_nat), NoDup_seq.
Qed.

Lemma handle_eoi_single (k : Z) (w : Vmm) :
  arrays_ok w -> 0 <= k < Z.of_nat NR_IRQ ->
  Z.land (gic_misr (_state w)) 1 <> 0 ->
  gic_eisr (_state w) = Z.shiftl 1 k ->
  Bitfield.get Gic.Gich_lr.Virt_id (lr_of (_state w) k) <= Gic.MAX_IRQ ->
  Gic._handle_eoi w
  = (set_state (set_gic_misr 0 (_state (retire_lr k w))) (retire_lr k w),
     Ok tt).
Proof.
  intros Hok Hk Hmisr Heisr Hmax. unfold Gic._handle_eoi.
  erewrite bind_ok by reflexivity. cbv beta.
  destruct (Z.eqb_spec (Z.land (gic_misr (_state w)) 1) 0);
    [contradiction|].
  erewrite bind_ok.
  2:{ apply (eoi_loop_single k); try assumption.
      - intros i Hi. apply in_range in Hi. lia.
      - apply NoDup_range.
      - apply in_range. exact Hk. }
  reflexivity.
Qed.

Lemma setbit_clearbit_id (x k : Z) :
  0 <= k -> Z.testbit x k = true -> Z.setbit (Z.clearbit x k) k = x.
Proof.
  intros Hk Hbit. apply Z.bits_inj'. intros i Hi.
  rewrite Z.setbit_eqb, Z.clearbit_eqb by lia.
  destruct (Z.eqb_spec k i) as [->|]; simpl; [auto|].
  apply andb_true_r.
Qed.

(** X20: the end of interrupt undoes the injection.  An interrupt of a
    device that requires EOI, ENABLED and INACTIVE, and in no list
    register, is injected; it takes the lowest free list register, [k].
    The guest handles it, and the host reports the end of the interrupt
    of list register [k] alone.  After the maintenance the interrupt
    table is what it was before the injection, bit [k] of [gic_elrsr0] is
    set again and the word is what it was, list register [k] is zero and
    the others are untouched, and [gic_misr] is clear; for the
    virtual-timer interrupt [timer_irq] is raised. *)
Theorem eoi_undoes_injection (irq k : Z) (e : Irq.t) (w : Vmm) :
  arrays_ok w -> at_index (_irqs w) irq = Some e ->
  Irq.device e <> None -> Irq.eoi e = true ->
  Irq.cpu_state e = Irq.INACTIVE -> Irq.distr_state e = Irq.ENABLED ->
  (forall j, 0 <= j < Z.of_nat NR_IRQ -> in_flight (_state w) irq j = false) ->
  0 <= k < Z.of_nat NR_IRQ ->
  Z.testbit (gic_elrsr0 (_state w)) k = true ->
  (forall j, 0 <= j < k -> Z.testbit (gic_elrsr0 (_state w)) j = false) ->
  let w1 := state_after (gic_step (Inject irq)) w in
  let eoi := Maintenance 1 (Z.shiftl 1 k) in
  let w2 := state_after (gic_step eoi) w1 in
  outcome (gic_step (Inject irq)) w = Ok tt
  /\ is_pending w1 irq /\ in_flight (_state w1) irq k = true
  /\ outcome (gic_step eoi) w1 = Ok tt
  /\ _irqs w2 = _irqs w
  /\ gic_lr (_state w2) = <[Z.to_nat k := 0]> (gic_lr (_state w))
  /\ gic_elrsr0 (_state w2) = gic_elrsr0 (_state w)
  /\ gic_misr (_state w2) = 0
  /\ timer_irq (_state w2)
     = (if irq =? Gic.TIMER then true else timer_irq (_state w)).
Proof.
  intros Hok He Hdev Heoi Hcpu Hen Hnone Hk Hfree Hlow w1.
  pose proof (at_index_range _ _ _ He) as Hr.
  pose proof Hok as [Hlr Hirqs]. unfold Gic.MAX_IRQ in Hirqs.
  set (ep := Irq.set_cpu_state Irq.PENDING e).
  set (wm := set_irqs (<[Z.to_nat irq := ep]> (_irqs w)) w).
  assert (Gic.inject_irq irq w
          = (set_active true
               (take_lr irq true k (clear_timer_irq irq wm)), Ok tt))
    as Hinj.
  { rewrite (inject_irq_spec irq e w Hok He).
    destruct (Irq.device e); [|contradiction].
    rewrite Hcpu, Hen.
    change (bool_decide (Irq.INACTIVE = Irq.PENDING)) with false.
    change (bool_decide (Irq.ENABLED = Irq.DISABLED)) with false.
    cbv iota.
    rewrite (existsb_range_false _ _ Hnone).
    rewrite (find_first_range _ _ k Hk Hfree Hlow).
    unfold mark_pending. rewrite Heoi. reflexivity. }
  set (wt := take_lr irq true k (clear_timer_irq irq wm)) in *.
  assert (w1 = set_active true wt) as Hw1
    by (subst w1; unfold state_after; cbn [gic_step]; rewrite Hinj;
        reflexivity).
  clearbody w1. subst w1. intros eoi w2.
  assert (length (gic_lr (_state (clear_timer_irq irq wm))) = NR_IRQ)
    as Hlen by (rewrite gic_lr_clear_timer; exact Hlr).
  assert (lr_of (_state wt) k = Gic.lr_value irq true) as Hlrk.
  { subst wt. rewrite take_lr_lr_of by (rewrite ?Hlen; lia).
    rewrite Z.eqb_refl. reflexivity. }
  destruct (lr_value_fields irq true ltac:(lia)) as (Hvid & _).
  assert (_irqs wt = <[Z.to_nat irq := ep]> (_irqs w)) as Hirqs_t
    by (subst wt; cbn [_irqs take_lr set_state];
        rewrite irqs_clear_timer; reflexivity).
  assert (at_index (_irqs wt) irq = Some ep) as Hep
    by (rewrite Hirqs_t; eapply at_index_insert_eq, He).
  assert (arrays_ok wt) as Hokt.
  { split.
    - subst wt. cbn [_state take_lr set_state gic_lr set_gic_lr].
      rewrite length_insert. exact Hlen.
    - rewrite Hirqs_t, length_insert. exact Hirqs. }
  set (wh := set_state (set_gic_eisr (Z.shiftl 1 k)
                          (set_gic_misr 1 (_state wt)))
              (set_active true wt)).
  assert (Gic._handle_eoi wh
          = (set_state (set_gic_misr 0 (_state (retire_lr k wh)))
               (retire_lr k wh), Ok tt)) as Heoi_call.
  { apply handle_eoi_single.
    - exact Hokt.
    - exact Hk.
    - discriminate.
    - reflexivity.
    - change (lr_of (_state wh) k) with (lr_of (_state wt) k).
      rewrite Hlrk, Hvid. unfold Gic.MAX_IRQ. lia. }
  assert (gic_step eoi (set_active true wt)
          = (set_state (set_gic_misr 0 (_state (retire_lr k wh)))
               (retire_lr k wh), Ok tt)) as Hstep.
  { subst eoi. cbn [gic_step]. erewrite bind_ok by reflexivity.
    exact Heoi_call. }
  assert (retire_lr k wh
          = set_irqs (<[Z.to_nat irq := Irq.set_cpu_state Irq.INACTIVE ep]>
                        (_irqs wh))
              (set_state
                 (let s2 := set_gic_elrsr0 (Z.setbit (gic_elrsr0 (_state wh)) k)
                              (set_gic_lr (<[Z.to_nat k := 0]>
                                             (gic_lr (_state wh)))
                                 (_state wh)) in
                  if irq =? Gic.TIMER then set_timer_irq true s2 else s2)
                 wh)) as Hret.
  { unfold retire_lr.
    change (lr_of (_state wh) k) with (lr_of (_state wt) k).
    rewrite Hlrk, Hvid.
    change (_irqs wh) with (_irqs wt). rewrite Hep.
    subst ep. cbn [Irq.distr_state Irq.set_cpu_state]. rewrite Hen.
    change (bool_decide (Irq.ENABLED = Irq.ENABLED)) with true.
    rewrite andb_true_r. reflexivity. }
  split; [unfold outcome; cbn [gic_step]; rewrite Hinj; reflexivity|].
  split.
  { exists ep. split; [exact Hep|reflexivity]. }
  split.
  { change (_state (set_active true wt)) with (_state wt).
    subst wt. rewrite in_flight_take_lr by (rewrite ?Hlen; lia).
    rewrite !Z.eqb_refl. reflexivity. }
  split; [unfold outcome; rewrite Hstep; reflexivity|].
  subst w2. unfold state_after. rewrite Hstep. cbn [fst]. rewrite Hret.
  split.
  { cbn [_irqs set_state set_irqs]. change (_irqs wh) with (_irqs wt).
    rewrite Hirqs_t, list_insert_insert_eq.
    apply insert_at_index_id. rewrite He. f_equal.
    destruct e; simpl in *; subst; reflexivity. }
  split.
  { change (gic_lr (_state wh)) with (gic_lr (_state wt)).
    assert (gic_lr (_state wt)
            = <[Z.to_nat k := Gic.lr_value irq true]> (gic_lr (_state w)))
      as Hlr_t
      by (subst wt; cbn [_state take_lr set_state gic_lr set_gic_lr];
          rewrite gic_lr_clear_timer; reflexivity).
    destruct (irq =? Gic.TIMER);
      cbn [_state set_state set_irqs gic_lr set_gic_misr set_gic_elrsr0
           set_gic_lr set_timer_irq];
      rewrite Hlr_t, list_insert_insert_eq; reflexivity. }
  split.
  { change (gic_elrsr0 (_state wh)) with (gic_elrsr0 (_state wt)).
    assert (gic_elrsr0 (_state wt) = Z.clearbit (gic_elrsr0 (_state w)) k)
      as Hel_t
      by (subst wt; cbn [_state take_lr set_state gic_elrsr0 set_gic_lr
                         set_gic_elrsr0];
          unfold clear_timer_irq; destruct (irq =? Gic.TIMER); reflexivity).
    destruct (irq =? Gic.TIMER);
      cbn [_state set_state set_irqs gic_elrsr0 set_gic_misr set_gic_elrsr0
           set_gic_lr set_timer_irq];
      rewrite Hel_t; apply setbit_clearbit_id; (lia || exact Hfree). }
  split.
  { destruct (irq =? Gic.TIMER); reflexivity. }
  destruct (irq =? Gic.TIMER) eqn:Ht; [reflexivity|].
  cbn [_state set_state set_irqs timer_irq set_gic_misr set_gic_elrsr0
       set_gic_lr].
  change (timer_irq (_state wh)) with (timer_irq (_state wt)).
  subst wt. cbn [_state take_lr set_state timer_irq set_gic_lr
                 set_gic_elrsr0].
  unfold clear_timer_irq. rewrite Ht. reflexivity.
Qed.

(** ** More of the monitor *)

Section Exits.

Context {modes : Mode_state.Mode} {board : Board}.
Variable _cp15 : Avl Coprocessor.Register.
Variable _device_tree : Avl Device.

(** X21: the guest goes to sleep.  On a WFI trap of the active machine
    the monitor pauses the VCPU, marks the machine inactive, asks the timer
    for a timeout of [timer_val / 24] microseconds unless bits 0 and 2 of
    [timer_ctrl] are both set, steps over the instruction, and does not
    resume the VCPU. *)
Theorem wfi_puts_guest_to_sleep (w : Vmm) :
  _active w = true ->
  cpu_exception (_state w) = Vmm_handlers.TRAP ->
  Bitfield.get Hsr.Ec (hsr (_state w)) = Hsr.WFI ->
  Z.land (hsr (_state w)) 1 = 0 ->
  Vmm_handlers.handle_vm _cp15 _device_tree Vmm_handlers._handle w
  = (set_state (advance_ip (_state w))
       (set_timer_once
          (if Z.land (timer_ctrl (_state w)) 5 =? 5 then timer_once w
           else timer_val (_state w) / 24 :: timer_once w)
          (set_active false (set_vcpu_running false w))),
     Ok tt).
Proof.
  intros Hact Hexc Hec Hwfi.
  unfold Vmm_handlers.handle_vm.
  erewrite bind_ok.
  2:{ erewrite bind_ok by reflexivity. cbv beta. rewrite Hact.
      erewrite bind_ok by reflexivity.
      erewrite bind_ok by reflexivity. cbv beta.
      change (_state (set_vcpu_running false w)) with (_state w).
      rewrite Hexc. cbn [Z.eqb Vmm_handlers.IRQ Vmm_handlers.TRAP Pos.eqb].
      unfold Vmm_handlers._handle_trap.
      erewrite bind_ok by reflexivity. cbv beta.
      change (_state (set_vcpu_running false w)) with (_state w).
      rewrite Hec. cbn [Z.eqb Hsr.WFI Hsr.HVC Hsr.CP15 Hsr.DA Pos.eqb].
      unfold Vmm_handlers._handle_wfi.
      erewrite bind_ok by reflexivity. cbv beta.
      change (_state (set_vcpu_running false w)) with (_state w).
      rewrite Hwfi. cbn [Z.eqb negb].
      erewrite bind_ok by reflexivity.
      erewrite bind_ok.
      2:{ unfold Generic_timer.schedule_timeout.
          erewrite bind_ok by reflexivity. cbv beta.
          change (_state (set_active false (set_vcpu_running false w)))
            with (_state w).
          instantiate (1 := tt).
          instantiate (1 := set_timer_once
            (if Z.land (timer_ctrl (_state w)) 5 =? 5 then timer_once w
             else timer_val (_state w) / 24 :: timer_once w)
            (set_active false (set_vcpu_running false w))).
          destruct (Z.land (timer_ctrl (_state w)) 5 =? 5);
            [destruct w|]; reflexivity. }
      reflexivity. }
  unfold Vmm_handlers._handle.
  erewrite bind_ok by reflexivity.
  erewrite bind_ok by reflexivity. reflexivity.
Qed.

(** X22: exits the monitor does not know.  When the active machine exits
    with an exception that is neither an interrupt nor a trap, with a
    hypervisor call, with a trap of an unknown class, or with an interrupt
    that is neither the maintenance nor the virtual-timer interrupt, the
    monitor raises the matching exception: by then it has paused the VCPU
    and nothing more; the handler of the signal is not run and the VCPU is
    not resumed. *)
Theorem unknown_exit_stops_guest (handler : M Vmm unit) (w : Vmm) :
  _active w = true ->
  let stopped := set_vcpu_running false w in
  let result := Vmm_handlers.handle_vm _cp15 _device_tree handler w in
  (cpu_exception (_state w) <> Vmm_handlers.IRQ ->
   cpu_exception (_state w) <> Vmm_handlers.TRAP ->
   result = (stopped, Throw UnexpectedException))
  /\
  (cpu_exception (_state w) = Vmm_handlers.TRAP ->
   (Bitfield.get Hsr.Ec (hsr (_state w)) = Hsr.HVC ->
    result = (stopped, Throw UnknownHyperCall))
   /\
   (~ In (Bitfield.get Hsr.Ec (hsr (_state w)))
         [Hsr.HVC; Hsr.CP15; Hsr.DA; Hsr.WFI] ->
    result = (stopped, Throw UnknownTrap)))
  /\
  (cpu_exception (_state w) = Vmm_handlers.IRQ ->
   gic_irq (_state w) <> VT_MAINTAINANCE_IRQ ->
   gic_irq (_state w) <> Gic.TIMER ->
   result = (stopped, Throw UnknownIrq)).
Proof.
  intros Hact stopped result.
  assert (forall m e,
            m stopped = (stopped, Throw e) ->
            (let* s := gets _state in
             if cpu_exception s =? Vmm_handlers.IRQ then Gic.irq_occured
             else if cpu_exception s =? Vmm_handlers.TRAP
                  then Vmm_handlers._handle_trap _cp15 _device_tree
                  else throw UnexpectedException) stopped = m stopped ->
            result = (stopped, Throw e)) as Hdispatch.
  { intros m e Hm Heq. subst result. unfold Vmm_handlers.handle_vm.
    erewrite bind_throw; [reflexivity|].
    erewrite bind_ok by reflexivity. cbv beta. rewrite Hact.
    erewrite bind_ok by reflexivity.
    fold stopped. rewrite Heq. exact Hm. }
  split; [|split].
  - intros Hirq Htrap.
    apply (Hdispatch (throw UnexpectedException)); [reflexivity|].
    erewrite bind_ok by reflexivity. cbv beta.
    change (_state stopped) with (_state w).
    destruct (Z.eqb_spec (cpu_exception (_state w)) Vmm_handlers.IRQ);
      [contradiction|].
    destruct (Z.eqb_spec (cpu_exception (_state w)) Vmm_handlers.TRAP);
      [contradiction|]. reflexivity.
  - intros Htrap. split.
    + intros Hec.
      apply (Hdispatch (throw UnknownHyperCall)); [reflexivity|].
      erewrite bind_ok by reflexivity. cbv beta.
      change (_state stopped) with (_state w). rewrite Htrap.
      cbn [Z.eqb Vmm_handlers.IRQ Vmm_handlers.TRAP Pos.eqb].
      unfold Vmm_handlers._handle_trap.
      erewrite bind_ok by reflexivity. cbv beta.
      change (_state stopped) with (_state w). rewrite Hec. reflexivity.
    + intros Hec.
      apply (Hdispatch (throw UnknownTrap)); [reflexivity|].
      erewrite bind_ok by reflexivity. cbv beta.
      change (_state stopped) with (_state w). rewrite Htrap.
      cbn [Z.eqb Vmm_handlers.IRQ Vmm_handlers.TRAP Pos.eqb].
      unfold Vmm_handlers._handle_trap.
      erewrite bind_ok by reflexivity. cbv beta.
      change (_state stopped) with (_state w).
      destruct (Z.eqb_spec (Bitfield.get Hsr.Ec (hsr (_state w))) Hsr.HVC)
        as [E|_]; [exfalso; apply Hec; rewrite E; simpl; tauto|].
      destruct (Z.eqb_spec (Bitfield.get Hsr.Ec (hsr (_state w))) Hsr.CP15)
        as [E|_]; [exfalso; apply Hec; rewrite E; simpl; tauto|].
      destruct (Z.eqb_spec (Bitfield.get Hsr.Ec (hsr (_state w))) Hsr.DA)
        as [E|_]; [exfalso; apply Hec; rewrite E; simpl; tauto|].
      destruct (Z.eqb_spec (Bitfield.get Hsr.Ec (hsr (_state w))) Hsr.WFI)
        as [E|_]; [exfalso; apply Hec; rewrite E; simpl; tauto|].
      reflexivity.
  - intros Hirq Hm Ht.
    apply (Hdispatch (throw UnknownIrq)); [reflexivity|].
    erewrite bind_ok by reflexivity. cbv beta.
    change (_state stopped) with (_state w). rewrite Hirq.
    cbn [Z.eqb Vmm_handlers.IRQ Vmm_handlers.TRAP Pos.eqb].
    unfold Gic.irq_occured.
    erewrite bind_ok by reflexivity. cbv beta.
    change (_state stopped) with (_state w).
    destruct (Z.eqb_spec (gic_irq (_state w)) VT_MAINTAINANCE_IRQ);
      [contradiction|].
    destruct (Z.eqb_spec (gic_irq (_state w)) Gic.TIMER);
      [contradiction|]. reflexivity.
Qed.

End Exits.

Section Wake_up.

Context {modes : Mode_state.Mode} {board : Board}.
Variable _cp15 : Avl Coprocessor.Register.
Variable _device_tree : Avl Device.

(** X23: the timer wakes the sleeping guest only if its interrupt is
    enabled.  The machine is inactive and the timer fires.  The monitor
    examines no exit; [_timeout] sets [timer_ctrl] to 5 and [timer_val]
    to 0xffffffff and injects the virtual-timer interrupt, registered and
    INACTIVE.  If the distributor has it ENABLED and a list register
    holds it or one is free, the machine becomes active and the VCPU is
    resumed.  If it is DISABLED, the call succeeds all the same, but the
    machine stays inactive and the VCPU is not resumed. *)
Theorem timeout_wakes_guest_if_enabled (w : Vmm) (e : Irq.t) :
  arrays_ok w -> _active w = false ->
  at_index (_irqs w) VT_TIMER_IRQ = Some e ->
  Irq.device e <> None -> Irq.cpu_state e = Irq.INACTIVE ->
  let call :=
    Vmm_handlers.handle_vm _cp15 _device_tree Generic_timer._timeout in
  let w' := state_after call w in
  timer_ctrl (_state w') = 5 /\ timer_val (_state w') = 0xffffffff
  /\ (Irq.distr_state e = Irq.ENABLED ->
      (exists i, 0 <= i < Z.of_nat NR_IRQ
                 /\ (in_flight (_state w) VT_TIMER_IRQ i = true
                     \/ Z.testbit (gic_elrsr0 (_state w)) i = true)) ->
      outcome call w = Ok tt /\ _active w' = true /\ vcpu_running w' = true)
  /\ (Irq.distr_state e = Irq.DISABLED ->
      outcome call w = Ok tt /\ _active w' = false
      /\ vcpu_running w' = vcpu_running w).
Proof.
  intros Hok Hact He Hdev Hcpu call w'.
  set (w0 := set_state (set_timer_val 0xffffffff
                          (set_timer_ctrl 5 (_state w))) w).
  assert (call w = (Gic.inject_irq VT_TIMER_IRQ ;;
                    let* a := gets _active in
                    if a : bool then Vm_run else ret tt) w0) as Hcall.
  { subst call. unfold Vmm_handlers.handle_vm.
    erewrite bind_ok
      by (erewrite bind_ok by reflexivity; cbv beta; rewrite Hact;
          reflexivity).
    unfold Generic_timer._timeout, bind. reflexivity. }
  assert (arrays_ok w0) as Hok0 by exact Hok.
  pose proof (inject_irq_spec VT_TIMER_IRQ e w0 Hok0 He) as Hinj.
  destruct (Irq.device e) as [d|]; [clear Hdev|contradiction].
  rewrite Hcpu in Hinj.
  change (bool_decide (Irq.INACTIVE = Irq.PENDING)) with false in Hinj.
  cbv iota in Hinj.
  assert (keeps (fun w => (timer_ctrl (_state w), timer_val (_state w)))
            (Gic.inject_irq VT_TIMER_IRQ ;;
             let* a := gets _active in
             if a : bool then Vm_run else ret tt)) as Hkeep.
  { intros w1. pose proof (inject_irq_keeps_timer VT_TIMER_IRQ w1) as Hk.
    unfold bind.
    destruct (Gic.inject_irq VT_TIMER_IRQ w1) as [w2 [[]|err]];
      simpl in Hk |- *; [|exact Hk].
    rewrite <- Hk. unfold Vm_run, modify.
    destruct w2 as [? ? [] ? ? ? ? ? ? ?]; reflexivity. }
  specialize (Hkeep w0). simpl in Hkeep. injection Hkeep as Hctrl Hval.
  subst w'. unfold state_after, outcome. rewrite Hcall.
  split; [exact Hctrl|]. split; [exact Hval|]. split.
  - intros Hen (i & Hi & Hslot). rewrite Hen in Hinj.
    change (bool_decide (Irq.ENABLED = Irq.DISABLED)) with false in Hinj.
    cbv iota in Hinj.
    change (in_flight (_state w0)) with (in_flight (_state w)) in Hinj.
    change (gic_elrsr0 (_state w0)) with (gic_elrsr0 (_state w)) in Hinj.
    destruct (existsb (in_flight (_state w) VT_TIMER_IRQ) (range NR_IRQ))
      eqn:Hheld.
    + erewrite bind_ok by exact Hinj.
      erewrite bind_ok by reflexivity. cbn. auto.
    + destruct (find (Z.testbit (gic_elrsr0 (_state w))) (range NR_IRQ))
        as [k|] eqn:Hfind.
      * erewrite bind_ok by exact Hinj.
        erewrite bind_ok by reflexivity. cbn. auto.
      * exfalso. destruct Hslot as [Hin|Hfree].
        -- rewrite (existsb_range_true _ _ i Hi Hin) in Hheld.
           discriminate.
        -- pose proof (find_none _ _ Hfind i
                         (proj2 (in_range _ _) Hi)) as Hno.
           simpl in Hno. congruence.
  - intros Hdis. rewrite Hdis in Hinj.
    change (bool_decide (Irq.DISABLED = Irq.DISABLED)) with true in Hinj.
    cbv iota in Hinj.
    erewrite bind_ok by exact Hinj.
    erewrite bind_ok by reflexivity.
    assert (_active (mark_pending VT_TIMER_IRQ e w0) = false) as Ha
      by (unfold mark_pending; destruct (Irq.eoi e); exact Hact).
    rewrite Ha. cbn [fst snd ret].
    split; [reflexivity|]. split; [exact Ha|].
    unfold mark_pending; destruct (Irq.eoi e); reflexivity.
Qed.

End Wake_up.

(** ** Construction *)

Section Boot.

Context {board : Board}.

Lemma register_irq_effect (irq : Z) (d : Device_ref) (eoi : bool) (w : Vmm)
    (e : Irq.t) :
  at_index (_irqs w) irq = Some e ->
  state_after (Gic.register_irq irq d eoi) w
  = set_irqs (<[Z.to_nat irq :=
        Irq.Build (Irq.cpu_state e) (Irq.distr_state e) (Some d) eoi]>
        (_irqs w)) w.
Proof.
  intros He. unfold state_after, Gic.register_irq.
  rewrite (update_irq_ok _ _ e) by exact He. reflexivity.
Qed.

Lemma new_irqs_idle :
  Forall (fun e => Irq.cpu_state e = Irq.INACTIVE
                   /\ Irq.distr_state e = Irq.DISABLED
                   /\ Irq.eoi e = false) Gic.new_irqs.
Proof.
  unfold Gic.new_irqs. apply Forall_map, Forall_forall. intros i _. simpl.
  destruct (i <=? Gic.SGI_MAX); auto.
Qed.

Lemma at_index_Forall {A} (P : A -> Prop) (l : list A) (i : Z) (x : A) :
  Forall P l -> at_index l i = Some x -> P x.
Proof.
  intros HP. unfold at_index. destruct (_ && _); [|discriminate].
  intros H. exact (proj1 (Forall_lookup P l) HP _ _ H).
Qed.

(** X24: what the guest finds when it starts.  Whatever the state block
    held before, the constructed monitor has the VCPU running at the
    kernel's entry, [RAM_ADDRESS + KERNEL_OFFSET], in SVC mode with
    interrupts masked, r0 clear, the machine type in r1, the address of the
    device tree in r2 and every other general-purpose register clear; the
    [memset] of [start] has not touched the CP15 members, which hold the
    reset values the register file gave them; the guest's timer is off;
    and in the distributor every interrupt is INACTIVE and DISABLED, the
    virtual-timer interrupt registered as requiring EOI and, if the
    board's number for it is within the table and not the timer's, the
    UART interrupt as not requiring it. *)
Theorem boot_state (block : State) :
  0 <= PL011_0_IRQ <= Gic.MAX_IRQ -> PL011_0_IRQ <> VT_TIMER_IRQ ->
  let w := new_Vmm block in
  vcpu_running w = true /\ _active w = true
  /\ regs (_state w)
     = [0; Vm.MACH_TYPE; Vm.RAM_ADDRESS + Vm.DTB_OFFSET; 0; 0; 0; 0; 0; 0; 0;
        0; 0; 0; 0; 0; Vm.RAM_ADDRESS + Vm.KERNEL_OFFSET]
  /\ cpsr (_state w) = 0x93
  /\ Bitfield.get Psr.Mode (cpsr (_state w)) = Psr.SVC
  /\ Forall (fun reg => cp15 (_state w) (Coprocessor._r reg)
                        = Coprocessor._init_value reg) Cp15._regs
  /\ (timer_ctrl (_state w), timer_val (_state w), timer_irq (_state w))
     = (0, 0, false)
  /\ Forall (fun e => Irq.cpu_state e = Irq.INACTIVE
                      /\ Irq.distr_state e = Irq.DISABLED) (_irqs w)
  /\ (exists e, at_index (_irqs w) VT_TIMER_IRQ = Some e
                /\ Irq.device e = Some Timer_dev /\ Irq.eoi e = true)
  /\ (exists e, at_index (_irqs w) PL011_0_IRQ = Some e
                /\ Irq.device e = Some Uart_dev /\ Irq.eoi e = false).
Proof.
  intros Hrange Hne w.
  set (s := state_after Cp15.new block).
  set (w0 := Build_Vmm s false true Gic.new_irqs false (System_register.new 0)
               Pl011.new [] [] []).
  assert (at_index (_irqs w0) VT_TIMER_IRQ = Some Irq.new) as Ht
    by reflexivity.
  pose proof (register_irq_effect VT_TIMER_IRQ Timer_dev true w0 _ Ht) as H1.
  set (w1 := state_after (Gic.register_irq VT_TIMER_IRQ Timer_dev true) w0)
    in *.
  assert (length (_irqs w1) = 257%nat) as Hlen1
    by (rewrite H1; cbn [_irqs set_irqs]; rewrite length_insert;
        reflexivity).
  destruct (at_index_Some (_irqs w1) PL011_0_IRQ) as [eu Heu];
    [rewrite Hlen1; unfold Gic.MAX_IRQ in Hrange; lia|].
  pose proof (register_irq_effect PL011_0_IRQ Uart_dev false w1 _ Heu) as H2.
  set (w2 := state_after (Gic.register_irq PL011_0_IRQ Uart_dev false) w1)
    in *.
  assert (w = set_vcpu_running true
                (set_state (Vm.start (_state w2)) w2)) as Hw.
  { subst w. unfold new_Vmm. fold s. fold w0. fold w1. fold w2.
    unfold state_after, Vm_run, modify. cbn [fst set_state _active].
    rewrite H2, H1. reflexivity. }
  assert (_state w2 = s) as Hs2 by (rewrite H2, H1; reflexivity).
  assert (Forall (fun e => Irq.cpu_state e = Irq.INACTIVE
                           /\ Irq.distr_state e = Irq.DISABLED) (_irqs w1))
    as Hidle1.
  { rewrite H1. cbn [_irqs set_irqs].
    change (_irqs w0) with Gic.new_irqs. apply Forall_insert; [|auto].
    eapply Forall_impl; [apply new_irqs_idle|]. intros e (? & ? & _). auto. }
  assert (_irqs w = _irqs w2) as Hirqs by (rewrite Hw; reflexivity).
  rewrite Hw.
  split; [reflexivity|]. split; [rewrite H2, H1; reflexivity|].
  split; [reflexivity|]. split; [reflexivity|]. split; [reflexivity|].
  split.
  { cbn [_state set_vcpu_running set_state Vm.start cp15]. rewrite Hs2.
    apply Cp15_new_reset_values. }
  split; [reflexivity|].
  split.
  { cbn [_irqs set_vcpu_running set_state]. rewrite H2.
    cbn [_irqs set_irqs].
    apply Forall_insert; [exact Hidle1|].
    apply (at_index_Forall _ _ _ _ Hidle1 Heu). }
  split.
  - cbn [_irqs set_vcpu_running set_state]. rewrite H2.
    cbn [_irqs set_irqs].
    rewrite at_index_insert_ne by lia.
    rewrite H1. eexists. split; [reflexivity|]. auto.
  - cbn [_irqs set_vcpu_running set_state]. rewrite H2.
    cbn [_irqs set_irqs].
    erewrite at_index_insert_eq by exact Heu.
    eexists. split; [reflexivity|]. auto.
Qed.

End Boot.

(** X25: every register of the CP15 file can be reached.  No two of the
    registers the constructor of [Cp15] inserts share an encoding, and the
    lookup by the encoding of any of them finds that register. *)
Theorem cp15_registers_are_reachable :
  NoDup (map Coprocessor._encoding Cp15._regs)
  /\ Forall (fun reg =>
               Coprocessor.find_by_encoding the_cp15
                 (Coprocessor._encoding reg) = Some reg) Cp15._regs.
Proof.
  split.
  - apply (bool_decide_eq_true_1 _). vm_compute. reflexivity.
  - repeat constructor.
Qed.

(** ** System registers *)

Section System_register_facts.

Import System_register.

(** X26: a query of the motherboard configuration controller.  The guest
    stores to SYS_CFGCTRL a word with the start bit set, the write bit
    clear, function 1 and the number of one of the seven oscillators the
    block knows: the store succeeds, and a load from SYS_CFGDATA then gives
    that oscillator's frequency and a load from SYS_CFGSTAT the value 1,
    whatever the two held before.  Function 2 with device 0 answers
    900000 in the same way.  SYS_CFGCTRL itself always loads as 0. *)
Theorem mcc_query_answers (v : Z) (r : t) (d f : Z) :
  Bitfield.get Sys_cfgctrl.Start v <> 0 ->
  Bitfield.get Sys_cfgctrl.Write v = 0 ->
  Bitfield.get Sys_cfgctrl.Device v = d ->
  (Bitfield.get Sys_cfgctrl.Function v = 1 /\ In (d, f) oscillators)
  \/ (Bitfield.get Sys_cfgctrl.Function v = 2 /\ d = 0 /\ f = 900000) ->
  let r' := fst (write v SYS_CFGCTRL r) in
  snd (write v SYS_CFGCTRL r) = Done tt
  /\ read SYS_CFGDATA r' = (r', Done f)
  /\ read SYS_CFGSTAT r' = (r', Done 1)
  /\ read SYS_CFGCTRL r' = (r', Done 0).
Proof.
  intros Hstart Hwrite Hdev Hquery r'. subst r'.
  unfold write. cbn [Z.eqb SYS_CFGCTRL SYS_CFGDATA SYS_CFGSTAT Pos.eqb andb].
  destruct (Z.eqb_spec (Bitfield.get Sys_cfgctrl.Start v) 0);
    [contradiction|]. cbn [negb].
  rewrite Hwrite, Hdev. cbn [Z.eqb negb].
  destruct Hquery as [[-> Hin]|(-> & -> & ->)].
  - simpl in Hin.
    destruct Hin as [H|[H|[H|[H|[H|[H|[H|[]]]]]]]];
      injection H as <- <-; repeat split.
  - repeat split.
Qed.

(** X27: what the configuration interface refuses.  A store to
    SYS_CFGCTRL without the start bit is refused and changes nothing.  A
    store with the start bit that asks for a write, for a device that is
    not one of the oscillators under function 1, or for a function other
    than 1 and 2, is refused as well, but has by then set SYS_CFGSTAT to 1
    while SYS_CFGDATA keeps what it held. *)
Theorem mcc_refusals (v : Z) (r : t) :
  (Bitfield.get Sys_cfgctrl.Start v = 0 ->
   write v SYS_CFGCTRL r = (r, Failed (WriteForbidden SYS_CFGCTRL)))
  /\
  (Bitfield.get Sys_cfgctrl.Start v <> 0 ->
   Bitfield.get Sys_cfgctrl.Write v <> 0
   \/ (Bitfield.get Sys_cfgctrl.Function v = 1
       /\ forall f, ~ In (Bitfield.get Sys_cfgctrl.Device v, f) oscillators)
   \/ (Bitfield.get Sys_cfgctrl.Function v <> 1
       /\ Bitfield.get Sys_cfgctrl.Function v <> 2) ->
   exists failure,
     write v SYS_CFGCTRL r = (set_spi_stat 1 r, Failed failure)
     /\ read SYS_CFGSTAT (set_spi_stat 1 r) = (set_spi_stat 1 r, Done 1)
     /\ read SYS_CFGDATA (set_spi_stat 1 r)
        = (set_spi_stat 1 r, Done (_spi_data r))).
Proof.
  split.
  - intros Hstart. unfold write.
    cbn [Z.eqb SYS_CFGCTRL SYS_CFGDATA SYS_CFGSTAT Pos.eqb andb].
    rewrite Hstart. reflexivity.
  - intros Hstart Hbad. unfold write.
    cbn [Z.eqb SYS_CFGCTRL SYS_CFGDATA SYS_CFGSTAT Pos.eqb andb].
    destruct (Z.eqb_spec (Bitfield.get Sys_cfgctrl.Start v) 0);
      [contradiction|]. cbn [negb].
    unfold _mcc_control.
    destruct Hbad as [Hw|[[Hf Hd]|[Hf1 Hf2]]].
    + destruct (Z.eqb_spec (Bitfield.get Sys_cfgctrl.Write v) 0);
        [contradiction|]. cbn [negb]. rewrite !andb_false_r. cbn [andb].
      eexists. repeat split.
    + rewrite Hf. cbn [Z.eqb Pos.eqb andb].
      destruct (negb (negb _)).
      * cbn [negb andb].
        repeat match goal with
               | |- context [Bitfield.get Sys_cfgctrl.Device v =? ?k] =>
                   destruct (Z.eqb_spec (Bitfield.get Sys_cfgctrl.Device v) k)
                     as [E|_];
                   [exfalso; eapply Hd; rewrite E; simpl; tauto|]
               end.
        eexists. repeat split.
      * cbn [negb andb]. eexists. repeat split.
    + destruct (Z.eqb_spec (Bitfield.get Sys_cfgctrl.Function v) 1);
        [contradiction|].
      destruct (Z.eqb_spec (Bitfield.get Sys_cfgctrl.Function v) 2);
        [contradiction|]. cbn [andb].
      eexists. repeat split.
Qed.

End System_register_facts.

(** ** The further properties at concrete states *)

Lemma arrays_ok_world0 : arrays_ok world0.
Proof. split; vm_compute; reflexivity. Qed.

Lemma arrays_ok_world_timer_enabled : arrays_ok world_timer_enabled.
Proof. split; vm_compute; reflexivity. Qed.

Lemma arrays_ok_world_asleep : arrays_ok world_asleep.
Proof. split; vm_compute; reflexivity. Qed.

Lemma arrays_ok_world_uart_enabled : arrays_ok world_uart_enabled.
Proof. split; vm_compute; reflexivity. Qed.

(** X7 at a word load of the flag register into r2, which holds
    0x84000000: the receive buffer is empty, the flags are 16, and r2
    ends up with 0x84000010. *)
Lemma uart_word_read_fills_low_half_witness :
  exists w',
    @Device_base.handle_memory_access spec_modes
      (@Pl011.device vea9x4_board "Pl011" 0x1c090000 0x1000) world_uart_load
    = (w', Ok tt)
    /\ value_at (Gp 2) (_state w') = Some 0x84000010.
Proof.
  destruct (@uart_word_read_fills_low_half spec_modes vea9x4_board
              "Pl011" 0x1c090000 0x1000 world_uart_load world_uart_load
              0x84000000 16 eq_refl eq_refl eq_refl eq_refl eq_refl)
    as (w' & Hcall & Hval & _).
  exists w'. split; [exact Hcall | exact Hval].
Defined.

(** X8 at a byte store of r1, which holds 2272, to the data register: the
    terminal gets the byte 224. *)
Lemma uart_data_write_reaches_terminal_witness :
  @Device_base.handle_memory_access spec_modes
    (@Pl011.device vea9x4_board "Pl011" 0x1c090000 0x1000) world_uart_store
  = (set_terminal_out [224] world_uart_store, Ok tt).
Proof.
  apply (@uart_data_write_reaches_terminal spec_modes vea9x4_board
           "Pl011" 0x1c090000 0x1000 world_uart_store 2272);
    [reflexivity | left; reflexivity | discriminate | reflexivity
    | reflexivity].
Defined.

(** X9 with r1, which holds 2272, stored to the baud-rate divisor. *)
Lemma uart_register_round_trip_witness :
  exists w', @Pl011.write_u16 vea9x4_board (Build_Ptr (Gp 1) 0)
               Pl011.UARTIBRD world0
             = (w', Ok tt)
             /\ Pl011._get Pl011.UARTIBRD w' = (w', Ok 2272).
Proof.
  apply (proj1 (@uart_register_round_trip vea9x4_board (Build_Ptr (Gp 1) 0)
                  world0 2272 eq_refl)).
  simpl. tauto.
Defined.

(** X10 at the unmasking of the receive interrupt while a byte waits. *)
Lemma uart_unmask_injects_witness :
  @Pl011._mask_irqs vea9x4_board 16 world_rx_waiting
  = (set_uart (Pl011.set_imsc 16 (Pl011.set_ris 16 (_uart world_rx_waiting)))
       world_rx_waiting, Ok tt).
Proof.
  apply (proj1 (proj2 (@uart_unmask_injects vea9x4_board 16 world_rx_waiting
                         ltac:(discriminate))
                  eq_refl eq_refl ltac:(discriminate))).
  reflexivity.
Defined.

(** X11 at the two bytes of "OK" arriving from the terminal. *)
Lemma uart_receives_terminal_input_witness :
  _rx_buf (_uart (state_after (@Pl011._read vea9x4_board)
                    (terminal_delivers (bytes_of "OK") world0)))
  = [79; 75].
Proof.
  apply (proj2 (@uart_receives_terminal_input vea9x4_board
                  (terminal_delivers (bytes_of "OK") world0)));
    [discriminate | reflexivity].
Defined.

(** X12 at the enabling of the virtual-timer interrupt. *)
Lemma enable_irq_enables_witness :
  is_enabled (state_after (Gic._enable_irq VT_TIMER_IRQ) world0) VT_TIMER_IRQ
  /\ timer_irq (_state (state_after (Gic._enable_irq VT_TIMER_IRQ) world0))
     = true.
Proof.
  destruct (proj2 (proj2 (enable_irq_enables VT_TIMER_IRQ world0 timer_entry)
                     ltac:(discriminate) ltac:(vm_compute; reflexivity))
              ltac:(discriminate))
    as (_ & He & _ & Ht & _).
  split; [|exact Ht].
  eexists. split; [exact He | reflexivity].
Defined.

(** X13 at the virtual-timer interrupt. *)
Lemma disable_undoes_enable_witness :
  (Gic._enable_irq VT_TIMER_IRQ ;; Gic._disable_irq VT_TIMER_IRQ) world0
  = (clear_timer_irq VT_TIMER_IRQ world0, Ok tt)
  /\ clear_timer_irq VT_TIMER_IRQ world0 = world0.
Proof.
  split; [|vm_compute; reflexivity].
  apply (proj2 (proj2 (disable_undoes_enable VT_TIMER_IRQ world0 timer_entry)
                  ltac:(discriminate) ltac:(vm_compute; reflexivity)
                  eq_refl));
    discriminate.
Defined.

(** X14 at the virtual-timer interrupt, injected before the guest has
    enabled it: neither enabling it, nor a maintenance interrupt for every
    list register, nor disabling and enabling it again brings it back. *)
Lemma disabled_injection_is_lost_witness :
  let w2 := gic_calls [Enable VT_TIMER_IRQ; Event (Inject VT_TIMER_IRQ);
                       Event (Maintenance 1 15); Disable VT_TIMER_IRQ;
                       Enable VT_TIMER_IRQ]
              (state_after (Gic.inject_irq VT_TIMER_IRQ) world0) in
  Gic.inject_irq VT_TIMER_IRQ w2 = (w2, Throw DoubleInject).
Proof.
  intros w2.
  apply (disabled_injection_is_lost VT_TIMER_IRQ timer_entry world0
           [Enable VT_TIMER_IRQ; Event (Inject VT_TIMER_IRQ);
            Event (Maintenance 1 15); Disable VT_TIMER_IRQ;
            Enable VT_TIMER_IRQ]
           arrays_ok_world0 ltac:(reflexivity)
           ltac:(vm_compute; reflexivity) ltac:(discriminate)
           eq_refl eq_refl eq_refl).
  intros i Hi. destruct (four_cases i Hi) as [->|[->|[->| ->]]];
    vm_compute; reflexivity.
Defined.

(** X15 at a load of GICD_TYPER into r1. *)
Lemma distributor_loads_witness :
  bytes_at 4 (Build_Ptr (Gp 1) 0)
    (_state (state_after
               (Gic_mmio.read (Build_Ptr (Gp 1) 0) Gic_mmio.GICD_TYPER)
               world0))
  = Some 5.
Proof.
  pose proof (proj1 (proj2 (proj2
                (distributor_loads (Build_Ptr (Gp 1) 0) 0 world0 2272
                   eq_refl ltac:(simpl; lia)))))
    as H.
  exact (f_equal snd H).
Defined.

(** X16 at a store of r1, which holds 2272, to the first GICD_ITARGETSR
    register. *)
Lemma distributor_stores_witness :
  Gic_mmio.write (Build_Ptr (Gp 1) 0) Gic_mmio.GICD_ITARGETSR0 world0
  = (world0, Throw UnsupportedGicOffset).
Proof.
  apply (proj1 (proj2 (distributor_stores (Build_Ptr (Gp 1) 0)
                         Gic_mmio.GICD_ITARGETSR0 world0 2272 eq_refl))).
  unfold Gic_mmio.GICD_ITARGETSR0, Gic_mmio.GICD_ITARGETSRL. lia.
Defined.

(** X17 at the store of r0 = 0x08000000 to GICD_ISENABLER0, which names
    the virtual-timer interrupt. *)
Lemma enable_register_store_witness :
  let w := world_regs (<[0%nat := 0x08000000]> (regs (_state world0))) in
  outcome (Gic_mmio.write (Build_Ptr (Gp 0) 0) Gic_mmio.GICD_ISENABLER0) w
  = Ok tt
  /\ is_enabled
       (state_after
          (Gic_mmio.write (Build_Ptr (Gp 0) 0) Gic_mmio.GICD_ISENABLER0) w)
       VT_TIMER_IRQ.
Proof.
  intros w.
  destruct (proj1 (enable_register_store (Build_Ptr (Gp 0) 0)
                     Gic_mmio.GICD_ISENABLER0 w 0x08000000 eq_refl)
              ltac:(unfold Gic_mmio.GICD_ISENABLER0,
                      Gic_mmio.GICD_ISENABLERL; lia))
    as [Hout Hent].
  - intros i Hi Hbit.
    change 0x08000000 with (2 ^ 27) in Hbit.
    rewrite Z.pow2_bits_eqb in Hbit by lia.
    apply Z.eqb_eq in Hbit. subst i.
    split; [unfold Gic.MAX_IRQ; simpl; lia|].
    exists timer_entry. split; [reflexivity | discriminate].
  - split; [exact Hout|].
    eexists. rewrite (Hent VT_TIMER_IRQ). split; reflexivity.
Defined.

(** X18 at loads into r1 once the guest has enabled the virtual-timer
    interrupt: of GICD_ISENABLER0, and of the register at offset 0x120. *)
Lemma enable_register_load_witness :
  outcome (Gic_mmio.read (Build_Ptr (Gp 1) 0) 0x100) world_timer_enabled
  = Ok tt
  /\ outcome (Gic_mmio.read (Build_Ptr (Gp 1) 0) 0x120) world_timer_enabled
     = Throw Undefined.
Proof.
  split.
  - apply (proj1 (enable_register_load (Build_Ptr (Gp 1) 0) 0x100
                    world_timer_enabled 2272 arrays_ok_world_timer_enabled
                    ltac:(vm_compute; reflexivity) ltac:(simpl; lia)
                    ltac:(unfold Gic_mmio.GICD_ISENABLER0,
                            Gic_mmio.GICD_ISENABLERL; lia))).
    lia.
  - apply (proj2 (enable_register_load (Build_Ptr (Gp 1) 0) 0x120
                    world_timer_enabled 2272 arrays_ok_world_timer_enabled
                    ltac:(vm_compute; reflexivity) ltac:(simpl; lia)
                    ltac:(unfold Gic_mmio.GICD_ISENABLER0,
                            Gic_mmio.GICD_ISENABLERL; lia))).
    lia.
Defined.

(** X19 at the interrupt of the UART, enabled. *)
Lemma injection_without_eoi_is_idempotent_witness :
  let w1 := state_after (Gic.inject_irq (@PL011_0_IRQ vea9x4_board))
              world_uart_enabled in
  Gic.inject_irq (@PL011_0_IRQ vea9x4_board) w1 = (w1, Ok tt).
Proof.
  intros w1.
  apply (injection_without_eoi_is_idempotent (@PL011_0_IRQ vea9x4_board)
           (Irq.set_distr_state Irq.ENABLED uart_entry) world_uart_enabled w1).
  - exact arrays_ok_world_uart_enabled.
  - vm_compute. reflexivity.
  - reflexivity.
  - vm_compute. reflexivity.
Defined.

(** X20 at the virtual-timer interrupt, enabled, and list register 0. *)
Lemma eoi_undoes_injection_witness :
  let w1 := state_after (gic_step (Inject VT_TIMER_IRQ)) world_timer_enabled in
  let w2 := state_after (gic_step (Maintenance 1 1)) w1 in
  lr_of (_state w1) 0 = 0x1008001b
  /\ _irqs w2 = _irqs world_timer_enabled
  /\ gic_lr (_state w2) = gic_lr (_state world_timer_enabled)
  /\ gic_elrsr0 (_state w2) = gic_elrsr0 (_state world_timer_enabled).
Proof.
  intros w1 w2.
  destruct (eoi_undoes_injection VT_TIMER_IRQ 0
              (Irq.set_distr_state Irq.ENABLED timer_entry)
              world_timer_enabled arrays_ok_world_timer_enabled
              ltac:(vm_compute; reflexivity) ltac:(discriminate)
              eq_refl eq_refl eq_refl)
    as (_ & _ & _ & _ & Hirqs & Hlr & Hel & _).
  - intros j Hj. destruct (four_cases j Hj) as [->|[->|[->| ->]]];
      vm_compute; reflexivity.
  - unfold NR_IRQ. simpl. lia.
  - vm_compute. reflexivity.
  - intros j Hj. lia.
  - split; [vm_compute; reflexivity|]. split; [exact Hirqs|].
    split; [|exact Hel].
    etransitivity; [exact Hlr|]. vm_compute. reflexivity.
Defined.

(** X21 at a WFI trap (syndrome 0x04000000) in [world0]. *)
Lemma wfi_puts_guest_to_sleep_witness :
  let w' := state_after
              (@Vmm_handlers.handle_vm spec_modes vea9x4_board the_cp15
                 (@the_device_tree vea9x4_board) Vmm_handlers._handle)
              (world_trap 0x04000000 0 0) in
  vcpu_running w' = false /\ _active w' = false /\ timer_once w' = [0]
  /\ ip (_state w') = 0x80008004.
Proof.
  intros w'. subst w'. unfold state_after.
  rewrite (@wfi_puts_guest_to_sleep spec_modes vea9x4_board the_cp15
             (@the_device_tree vea9x4_board) (world_trap 0x04000000 0 0)
             eq_refl eq_refl eq_refl eq_refl).
  repeat split.
Defined.

(** X22 at a hypervisor call (syndrome 0x48000000) in [world0]. *)
Lemma unknown_exit_stops_guest_witness :
  @Vmm_handlers.handle_vm spec_modes vea9x4_board the_cp15
    (@the_device_tree vea9x4_board) Vmm_handlers._handle
    (world_trap 0x48000000 0 0)
  = (set_vcpu_running false (world_trap 0x48000000 0 0),
     Throw UnknownHyperCall).
Proof.
  apply (proj1 (proj1 (proj2 (@unknown_exit_stops_guest spec_modes
                                vea9x4_board the_cp15
                                (@the_device_tree vea9x4_board)
                                Vmm_handlers._handle
                                (world_trap 0x48000000 0 0) eq_refl))
                  eq_refl)).
  reflexivity.
Defined.

(** X23 at the sleeping guest with the virtual-timer interrupt enabled. *)
Lemma timeout_wakes_guest_if_enabled_witness :
  let w' := state_after
              (@Vmm_handlers.handle_vm spec_modes vea9x4_board the_cp15
                 (@the_device_tree vea9x4_board) Generic_timer._timeout)
              world_asleep in
  _active w' = true /\ vcpu_running w' = true.
Proof.
  intros w'.
  destruct (proj1 (proj2 (proj2
              (@timeout_wakes_guest_if_enabled spec_modes vea9x4_board
                 the_cp15 (@the_device_tree vea9x4_board) world_asleep
                 (Irq.set_distr_state Irq.ENABLED timer_entry)
                 arrays_ok_world_asleep eq_refl
                 ltac:(vm_compute; reflexivity)
                 ltac:(discriminate) eq_refl))) eq_refl)
    as (_ & Ha & Hr).
  - exists 0. split; [unfold NR_IRQ; simpl; lia|]. right.
    vm_compute. reflexivity.
  - split; [exact Ha | exact Hr].
Defined.

(** X24 on the Versatile Express board, from a cleared state block. *)
Lemma boot_state_witness :
  ip (_state world0) = 0x80008000
  /\ regs (_state world0) !! 1%nat = Some 2272
  /\ regs (_state world0) !! 2%nat = Some 0x84000000.
Proof.
  destruct (@boot_state vea9x4_board fresh_State
              ltac:(unfold Gic.MAX_IRQ; simpl; lia) ltac:(discriminate))
    as (_ & _ & Hregs & _).
  unfold ip. fold world0 in Hregs. rewrite Hregs.
  repeat split.
Defined.

(** X26 at the query of oscillator 2: the word 0x80100002. *)
Lemma mcc_query_answers_witness :
  System_register.read System_register.SYS_CFGDATA
    (fst (System_register.write 0x80100002 System_register.SYS_CFGCTRL
            (System_register.new 0)))
  = (fst (System_register.write 0x80100002 System_register.SYS_CFGCTRL
            (System_register.new 0)),
     System_register.Done 24000000).
Proof.
  apply (mcc_query_answers 0x80100002 (System_register.new 0) 2 24000000);
    [discriminate | reflexivity | reflexivity |].
  left. split; [reflexivity|]. simpl. tauto.
Defined.

(** X27 at a store of 0 and at the query of the unknown oscillator 1. *)
Lemma mcc_refusals_witness :
  System_register.write 0 System_register.SYS_CFGCTRL (System_register.new 0)
  = (System_register.new 0,
     System_register.Failed
       (System_register.WriteForbidden System_register.SYS_CFGCTRL))
  /\ exists failure,
       System_register.write 0x80100001 System_register.SYS_CFGCTRL
         (System_register.Build 7 0 0)
       = (System_register.Build 7 1 0, System_register.Failed failure).
Proof.
  split.
  - apply (proj1 (mcc_refusals 0 (System_register.new 0))). reflexivity.
  - destruct (proj2 (mcc_refusals 0x80100001 (System_register.Build 7 0 0))
                ltac:(discriminate))
      as (failure & Hw & _).
    + right. left. split; [reflexivity|].
      intros f Hin. simpl in Hin.
      repeat (destruct Hin as [Hin|Hin]; [discriminate|]). exact Hin.
    + exists failure. exact Hw.
Defined.
